(** * GitLens analytics: a shallow embedding of the history-aggregation code

    The development follows [GitLens/analytics.py] and [GitLens/api.py].
    Python [str] values are modelled as 8-bit strings, Python [int] as [Z],
    a raised exception as the [Raise] branch of [result], a [dict] whose
    iteration order is observed as an association list in insertion order,
    and a [dict] whose order is not observed as a [gmap].  The output of a
    git command is taken after [splitlines()], as a list of lines. *)

From Stdlib Require Import ZArith QArith Qcanon Ascii String DecimalString DecimalPos
  List Lia.
From stdpp Require Import gmap strings list fin_maps.

Local Open Scope string_scope.
Local Open Scope list_scope.
Local Open Scope Z_scope.

(** ** Exceptions *)

Inductive exn : Type :=
  | ValueError (msg : string)
  | OverflowError (msg : string)
  | OSError (msg : string)
  | RuntimeError (msg : string).

Inductive result (A : Type) : Type :=
  | Ok (a : A)
  | Raise (e : exn).
Arguments Ok {A} a.
Arguments Raise {A} e.

#[global] Instance result_ret : MRet result := fun A a => Ok a.

#[global] Instance result_bind : MBind result := fun A B k r =>
  match r with
  | Ok a => k a
  | Raise e => Raise e
  end.

Definition is_Ok {A : Type} (r : result A) : Prop :=
  match r with Ok _ => True | Raise _ => False end.

(** ** Python string primitives *)

Module PyStr.

(** [str.isspace] on one character (ASCII range). *)
Definition is_space (c : ascii) : bool :=
  let n := nat_of_ascii c in
  (Nat.leb 9 n && Nat.leb n 13) || (Nat.leb 28 n && Nat.leb n 32).

Fixpoint lstrip (s : string) : string :=
  match s with
  | EmptyString => EmptyString
  | String c s' => if is_space c then lstrip s' else s
  end.

Fixpoint rstrip (s : string) : string :=
  match s with
  | EmptyString => EmptyString
  | String c s' =>
      match rstrip s' with
      | EmptyString => if is_space c then EmptyString else String c EmptyString
      | r => String c r
      end
  end.

(** [s.strip()] *)
Definition strip (s : string) : string := rstrip (lstrip s).

(** Truth value of a string: non-empty. *)
Definition truthy (s : string) : bool :=
  match s with EmptyString => false | _ => true end.

(** [s.startswith(p)] *)
Fixpoint startswith (p s : string) : bool :=
  match p, s with
  | EmptyString, _ => true
  | String a p', String b s' => Ascii.eqb a b && startswith p' s'
  | String _ _, EmptyString => false
  end.

(** [p in s] for strings: [p] occurs as a contiguous substring of [s]. *)
Fixpoint contains (p s : string) : bool :=
  startswith p s ||
  match s with
  | EmptyString => false
  | String _ s' => contains p s'
  end.

Definition lower_char (c : ascii) : ascii :=
  let n := nat_of_ascii c in
  if Nat.leb 65 n && Nat.leb n 90 then ascii_of_nat (n + 32) else c.

(** [s.lower()] (ASCII letters). *)
Fixpoint lower (s : string) : string :=
  match s with
  | EmptyString => EmptyString
  | String c s' => String (lower_char c) (lower s')
  end.

(** [s.split(sep)[-1]] for a one-character separator: the text after the
    last occurrence of [sep], the whole string when [sep] does not occur. *)
Fixpoint split_last (sep : ascii) (s : string) : string :=
  match s with
  | EmptyString => EmptyString
  | String c s' =>
      if Ascii.eqb c sep then split_last sep s'
      else if contains (String sep EmptyString) s' then split_last sep s'
      else s
  end.

Definition digit_of (c : ascii) : option Z :=
  let n := nat_of_ascii c in
  if Nat.leb 48 n && Nat.leb n 57 then Some (Z.of_nat (n - 48)) else None.

(** Digits of an integer literal; a single underscore may separate two
    digits. *)
Fixpoint digits_go (s : string) (acc : Z) : option Z :=
  match s with
  | EmptyString => Some acc
  | String c s' =>
      if Ascii.eqb c "_"%char then
        match s' with
        | String d _ =>
            match digit_of d with
            | Some _ => digits_go s' acc
            | None => None
            end
        | EmptyString => None
        end
      else
        match digit_of c with
        | Some d => digits_go s' (10 * acc + d)
        | None => None
        end
  end.

Definition parse_digits (s : string) : option Z :=
  match s with
  | String c _ =>
      match digit_of c with
      | Some _ => digits_go s 0
      | None => None
      end
  | EmptyString => None
  end.

(** The whitespace that [int()] skips around an ASCII literal: tab, line
    feed, vertical tab, form feed, carriage return and space.  The
    separators 28 to 31, which [str.strip] removes, are not among them:
    [int('5\x1f')] raises. *)
Definition is_int_space (c : ascii) : bool :=
  let n := nat_of_ascii c in
  (Nat.leb 9 n && Nat.leb n 13) || Nat.eqb n 32.

Fixpoint int_lstrip (s : string) : string :=
  match s with
  | EmptyString => EmptyString
  | String c s' => if is_int_space c then int_lstrip s' else s
  end.

Fixpoint int_rstrip (s : string) : string :=
  match s with
  | EmptyString => EmptyString
  | String c s' =>
      match int_rstrip s' with
      | EmptyString => if is_int_space c then EmptyString else String c EmptyString
      | r => String c r
      end
  end.

(** [int(s)]: surrounding whitespace, an optional sign, decimal digits. *)
Definition int (s : string) : result Z :=
  let t := int_rstrip (int_lstrip s) in
  let r :=
    match t with
    | String "+"%char t' => parse_digits t'
    | String "-"%char t' => option_map Z.opp (parse_digits t')
    | _ => parse_digits t
    end in
  match r with
  | Some z => Ok z
  | None => Raise (ValueError "invalid literal for int() with base 10")
  end.

(** [str(n)] *)
Definition str (n : Z) : string := NilZero.string_of_int (Z.to_int n).

(** [f"{n:02d}"] and [f"{n:04d}"] for a non-negative [n]. *)
Definition pad (width : nat) (n : Z) : string :=
  let s := str n in
  String.append (string_of_list_ascii (repeat "0"%char (width - String.length s))) s.

(** [s.rfind(c)] for a character: the index of its last occurrence, or -1. *)
Fixpoint rfind_go (c : ascii) (s : string) (i last : Z) : Z :=
  match s with
  | EmptyString => last
  | String a s' => rfind_go c s' (i + 1) (if Ascii.eqb a c then i else last)
  end.

Definition rfind (c : ascii) (s : string) : Z := rfind_go c s 0 (-1).

(** [s[i:j]] for [0 <= i <= j]. *)
Definition slice (i j : Z) (s : string) : string :=
  String.substring (Z.to_nat i) (Z.to_nat (j - i)) s.

Definition len (s : string) : Z := Z.of_nat (String.length s).

(** [os.path.splitext(p)] (POSIX): the extension starts at the last dot of
    the last path component, unless only dots precede it there. *)
Definition splitext (p : string) : string * string :=
  let sepIndex := rfind "/"%char p in
  let dotIndex := rfind "."%char p in
  if sepIndex <? dotIndex then
    let filenameIndex := sepIndex + 1 in
    if forallb (Ascii.eqb "."%char)
         (list_ascii_of_string (slice filenameIndex dotIndex p))
    then (p, EmptyString)
    else (slice 0 dotIndex p, slice dotIndex (len p) p)
  else (p, EmptyString).

End PyStr.

(** ** The [datetime] operations the analytics rely on

    Transcribed from the reference (pure Python) implementation of the
    standard [datetime] module: proleptic Gregorian ordinals, with ordinal 1
    for 0001-01-01. *)

Module Datetime.

Record datetime : Type := {
  year : Z;
  month : Z;
  day : Z;
  hour : Z;
  minute : Z;
  second : Z
}.

Definition _DI400Y : Z := 146097.
Definition _DI100Y : Z := 36524.
Definition _DI4Y : Z := 1461.

Definition _is_leap (y : Z) : bool :=
  (y mod 4 =? 0) && (negb (y mod 100 =? 0) || (y mod 400 =? 0)).

Definition _DAYS_IN_MONTH (m : Z) : Z :=
  nth (Z.to_nat m) [-1; 31; 28; 31; 30; 31; 30; 31; 31; 30; 31; 30; 31] 0.

Definition _DAYS_BEFORE_MONTH (m : Z) : Z :=
  nth (Z.to_nat m) [-1; 0; 31; 59; 90; 120; 151; 181; 212; 243; 273; 304; 334] 0.

Definition _days_before_year (y : Z) : Z :=
  let y1 := y - 1 in
  y1 * 365 + y1 / 4 - y1 / 100 + y1 / 400.

Definition _days_before_month (y m : Z) : Z :=
  _DAYS_BEFORE_MONTH m + (if (2 <? m) && _is_leap y then 1 else 0).

Definition _ymd2ord (y m d : Z) : Z :=
  _days_before_year y + _days_before_month y m + d.

Definition _ord2ymd (n0 : Z) : Z * Z * Z :=
  let n := n0 - 1 in
  let n400 := n / _DI400Y in
  let n := n mod _DI400Y in
  let y := n400 * 400 + 1 in
  let n100 := n / _DI100Y in
  let n := n mod _DI100Y in
  let n4 := n / _DI4Y in
  let n := n mod _DI4Y in
  let n1 := n / 365 in
  let n := n mod 365 in
  let y := y + n100 * 100 + n4 * 4 + n1 in
  if (n1 =? 4) || (n100 =? 4) then (y - 1, 12, 31)
  else
    let leapyear := (n1 =? 3) && (negb (n4 =? 24) || (n100 =? 3)) in
    let m := Z.shiftr (n + 50) 5 in
    let preceding :=
      _DAYS_BEFORE_MONTH m + (if (2 <? m) && leapyear then 1 else 0) in
    if n <? preceding then
      let m := m - 1 in
      let preceding :=
        preceding - (_DAYS_IN_MONTH m + (if (m =? 2) && leapyear then 1 else 0)) in
      (y, m, n - preceding + 1)
    else (y, m, n - preceding + 1).

(** Seconds since the epoch of 0001-01-01T00:00:00 and of
    9999-12-31T23:59:59: the range a [datetime] can hold. *)
Definition MIN_SECONDS : Z := -62135596800.
Definition MAX_SECONDS : Z := 253402300799.

(** Ordinal of 1970-01-01. *)
Definition EPOCH_ORDINAL : Z := 719163.

(** The range of a 64-bit [time_t], and the seconds since the epoch whose
    year the C library can hold in [tm_year]. *)
Definition TIME_T_MIN : Z := -9223372036854775808.
Definition TIME_T_MAX : Z := 9223372036854775807.
Definition LOCALTIME_MIN : Z := -67768040609740800.
Definition LOCALTIME_MAX : Z := 67768036191676799.

Section LocalTime.

(** The offset of local time from UTC, in seconds, at a given instant: the
    time zone of the process that runs the analysis. *)
Variable utcoffset : Z -> Z.

(** What [datetime.fromtimestamp(t)] raises for an instant outside the
    years 1..9999, on Linux with a 64-bit [time_t]: [OverflowError] when [t]
    is no [time_t], [OSError] when the C library cannot hold the year of the
    local time, [ValueError] with the year otherwise. *)
Definition out_of_range (t local : Z) : exn :=
  if (t <? TIME_T_MIN) || (TIME_T_MAX <? t)
  then OverflowError "timestamp out of range for platform time_t"
  else if (local <? LOCALTIME_MIN) || (LOCALTIME_MAX <? local)
  then OSError "[Errno 75] Value too large for defined data type"
  else
    let '(y, _, _) := _ord2ymd (EPOCH_ORDINAL + local / 86400) in
    ValueError ("year " +:+ PyStr.str y +:+ " is out of range").

(** [datetime.fromtimestamp(t)]: naive local time; an instant outside years
    1..9999 is refused.  The search for a repeated local hour, for which
    CPython also converts the instant one day earlier and so refuses the
    first day of year 1 as well, is left out. *)
Definition fromtimestamp (t : Z) : result datetime :=
  let local := t + utcoffset t in
  if (MIN_SECONDS <=? local) && (local <=? MAX_SECONDS) then
    let '(y, m, d) := _ord2ymd (EPOCH_ORDINAL + local / 86400) in
    let s := local mod 86400 in
    Ok {| year := y; month := m; day := d;
          hour := s / 3600; minute := (s mod 3600) / 60; second := s mod 60 |}
  else Raise (out_of_range t local).

End LocalTime.

Definition toordinal (dt : datetime) : Z := _ymd2ord (year dt) (month dt) (day dt).

Definition _isoweek1monday (y : Z) : Z :=
  let firstday := _ymd2ord y 1 1 in
  let firstweekday := (firstday + 6) mod 7 in
  let week1monday := firstday - firstweekday in
  if 3 <? firstweekday then week1monday + 7 else week1monday.

(** [dt.isocalendar()]: (ISO year, ISO week number, ISO weekday). *)
Definition isocalendar (dt : datetime) : Z * Z * Z :=
  let y := year dt in
  let week1monday := _isoweek1monday y in
  let today := toordinal dt in
  let week := (today - week1monday) / 7 in
  let wday := (today - week1monday) mod 7 in
  if week <? 0 then
    let y := y - 1 in
    let week1monday := _isoweek1monday y in
    (y, (today - week1monday) / 7 + 1, (today - week1monday) mod 7 + 1)
  else if (52 <=? week) && (_isoweek1monday (y + 1) <=? today) then
    (y + 1, 1, wday + 1)
  else (y, week + 1, wday + 1).

(** [strftime] for the directives used, as the C library of Linux formats
    them: the year unpadded ("999" for the year 999), the other fields
    zero-padded to two digits. *)
Definition fmt_Y (dt : datetime) : string := PyStr.str (year dt).
Definition fmt_m (dt : datetime) : string := PyStr.pad 2 (month dt).
Definition fmt_d (dt : datetime) : string := PyStr.pad 2 (day dt).
Definition fmt_H (dt : datetime) : string := PyStr.pad 2 (hour dt).

End Datetime.

(** ** Shared data of [analytics.py] *)

(** [class TimePeriod(Enum)] *)
Inductive TimePeriod : Type := HOUR | DAY | WEEK | MONTH | YEAR.

(** [@dataclass AnalyticsOptions] *)
Record AnalyticsOptions : Type := {
  max_commits : option Z;
  skip_commits : option Z;
  include_merges : bool;
  author_filter : option string;
  path_filter : option string;
  since_date : option Z;
  until_date : option Z
}.

(** [AnalyticsOptions()] *)
Definition default_options : AnalyticsOptions :=
  {| max_commits := None; skip_commits := None; include_merges := true;
     author_filter := None; path_filter := None;
     since_date := None; until_date := None |}.

(** Truth value of an optional integer ([None] and [0] are false) and of an
    optional string ([None] and the empty string are false). *)
Definition truthy_int (o : option Z) : option Z :=
  match o with
  | Some n => if n =? 0 then None else Some n
  | None => None
  end.

Definition truthy_str (o : option string) : option string :=
  match o with
  | Some s => if PyStr.truthy s then Some s else None
  | None => None
  end.

(** [if v: args.extend([flag, render(v)])] *)
Definition opt_arg {A : Type} (flag : string) (render : A -> string)
    (o : option A) : list string :=
  match o with
  | Some v => [flag; render v]
  | None => []
  end.

(** A git command runner: the argument list to the lines of its output
    ([_run_git_command(args)] followed by [splitlines()]), or the
    [RuntimeError] it raises. *)
Definition git_runner : Type := list string -> result (list string).

(** [[int(line.strip()) for line in lines if line.strip()]] *)
Fixpoint parse_timestamps (lines : list string) : result (list Z) :=
  match lines with
  | [] => Ok []
  | line :: rest =>
      if PyStr.truthy (PyStr.strip line) then
        t ← PyStr.int (PyStr.strip line);
        ts ← parse_timestamps rest;
        Ok (t :: ts)
      else parse_timestamps rest
  end.

(** The counting step of the timeline loop:
    [if key not in timeline: timeline[key] = 0; timeline[key] += 1]. *)
Definition bump (key : string) (timeline : gmap string Z) : gmap string Z :=
  let timeline :=
    match timeline !! key with
    | None => <[key := 0]> timeline
    | Some _ => timeline
    end in
  <[key := default 0 (timeline !! key) + 1]> timeline.

(** [for timestamp in timestamps: ...] given the key function. *)
Fixpoint timeline_loop (fmt : Z -> result string) (timestamps : list Z)
    (timeline : gmap string Z) : result (gmap string Z) :=
  match timestamps with
  | [] => Ok timeline
  | timestamp :: rest =>
      key ← fmt timestamp;
      timeline_loop fmt rest (bump key timeline)
  end.

(** ** The parser of the file-evolution stream

    The loop of [analyze_file_evolution] is the same text in [analytics.py]
    (lines 218-284) and in [api.py] (lines 678-744); it is embedded once. *)

Module FileEvolution.

(** [FileEvolutionEntry] ([analytics.py]) or the entry dictionary
    ([api.py]).  The fields copied from parser variables hold whatever the
    variables hold, [None] included. *)
Record FileEvolutionEntry : Type := {
  commit_hash : string;
  author : option string;
  email : option string;
  timestamp : option Z;
  message : option string;
  lines_added : Z;
  lines_removed : Z
}.

Record state : Type := {
  evolution : list FileEvolutionEntry;
  current_commit : option string;
  current_author : option string;
  current_email : option string;
  current_timestamp : option Z;
  current_message : option string;
  current_diff : list string;
  parsing_diff : bool
}.

Definition initial : state :=
  {| evolution := []; current_commit := None; current_author := None;
     current_email := None; current_timestamp := None;
     current_message := None; current_diff := []; parsing_diff := false |}.

Definition is_added (l : string) : bool :=
  PyStr.startswith "+" l && negb (PyStr.startswith "+++" l).

Definition is_removed (l : string) : bool :=
  PyStr.startswith "-" l && negb (PyStr.startswith "---" l).

(** [sum(1 for l in current_diff if ...)] *)
Definition count_lines (p : string -> bool) (diff : list string) : Z :=
  Z.of_nat (length (filter (fun l => p l = true) diff)).

(** The entry appended for the commit being parsed. *)
Definition entry_of (st : state) (commit : string) : FileEvolutionEntry :=
  {| commit_hash := commit;
     author := current_author st;
     email := current_email st;
     timestamp := current_timestamp st;
     message := current_message st;
     lines_added := count_lines is_added (current_diff st);
     lines_removed := count_lines is_removed (current_diff st) |}.

Definition nonempty {A : Type} (l : list A) : bool :=
  match l with [] => false | _ => true end.

(** One iteration of [for line in output.splitlines()]. *)
Definition step (st : state) (line : string) : result state :=
  match current_commit st with
  | None =>
      Ok {| evolution := evolution st; current_commit := Some line;
            current_author := current_author st;
            current_email := current_email st;
            current_timestamp := current_timestamp st;
            current_message := current_message st;
            current_diff := current_diff st;
            parsing_diff := parsing_diff st |}
  | Some commit =>
  match current_author st with
  | None =>
      Ok {| evolution := evolution st; current_commit := Some commit;
            current_author := Some line;
            current_email := current_email st;
            current_timestamp := current_timestamp st;
            current_message := current_message st;
            current_diff := current_diff st;
            parsing_diff := parsing_diff st |}
  | Some author =>
  match current_email st with
  | None =>
      Ok {| evolution := evolution st; current_commit := Some commit;
            current_author := Some author;
            current_email := Some line;
            current_timestamp := current_timestamp st;
            current_message := current_message st;
            current_diff := current_diff st;
            parsing_diff := parsing_diff st |}
  | Some email =>
  match current_timestamp st with
  | None =>
      t ← PyStr.int line;
      Ok {| evolution := evolution st; current_commit := Some commit;
            current_author := Some author;
            current_email := Some email;
            current_timestamp := Some t;
            current_message := current_message st;
            current_diff := current_diff st;
            parsing_diff := parsing_diff st |}
  | Some t =>
  match current_message st with
  | None =>
      Ok {| evolution := evolution st; current_commit := Some commit;
            current_author := Some author;
            current_email := Some email;
            current_timestamp := Some t;
            current_message := Some line;
            current_diff := current_diff st;
            parsing_diff := true |}
  | Some msg =>
      if parsing_diff st then
        if PyStr.startswith "diff --git " line && nonempty (current_diff st)
        then
          (* process the previous diff, then "start the next commit" *)
          Ok {| evolution := evolution st ++ [entry_of st commit];
                current_commit := Some line;
                current_author := None;
                current_email := None;
                current_timestamp := None;
                current_message := None;
                current_diff := [line];
                parsing_diff := false |}
        else
          Ok {| evolution := evolution st; current_commit := Some commit;
                current_author := Some author;
                current_email := Some email;
                current_timestamp := Some t;
                current_message := Some msg;
                current_diff := current_diff st ++ [line];
                parsing_diff := true |}
      else Ok st
  end end end end end.

Fixpoint scan (st : state) (lines : list string) : result state :=
  match lines with
  | [] => Ok st
  | line :: rest => st' ← step st line; scan st' rest
  end.

(** "Process the last diff". *)
Definition finish (st : state) : list FileEvolutionEntry :=
  match current_commit st with
  | Some commit =>
      if nonempty (current_diff st)
      then evolution st ++ [entry_of st commit]
      else evolution st
  | None => evolution st
  end.

Definition parse (lines : list string) : result (list FileEvolutionEntry) :=
  st ← scan initial lines;
  Ok (finish st).

(** The arguments of the [git log --follow --patch] query. *)
Definition evolution_args (max_commits : option Z) (file_path : string)
    : list string :=
  ["log"; "--follow"; "--patch"; "--pretty=format:%H%n%an%n%ae%n%at%n%s"]
  ++ opt_arg "--max-count" PyStr.str (truthy_int max_commits)
  ++ ["--"; file_path].

End FileEvolution.

(** ** Insertion-ordered dictionaries

    A Python [dict] iterates in insertion order; assigning to a key that is
    present keeps its position. *)

Module PyDict.

Section WithValues.

Context {V : Type}.

(** [d.get(k)] *)
Fixpoint get (k : string) (d : list (string * V)) : option V :=
  match d with
  | [] => None
  | (k', v) :: d' => if String.eqb k k' then Some v else get k d'
  end.

(** [d[k] = v] *)
Fixpoint set (k : string) (v : V) (d : list (string * V)) : list (string * V) :=
  match d with
  | [] => [(k, v)]
  | (k', v') :: d' =>
      if String.eqb k k' then (k', v) :: d' else (k', v') :: set k v d'
  end.

(** [list(d.keys())] *)
Definition keys (d : list (string * V)) : list string := map fst d.

End WithValues.

(** [if k not in d: d[k] = 0; d[k] += 1] *)
Definition incr (k : string) (d : list (string * Z)) : list (string * Z) :=
  let d := match get k d with None => set k 0 d | Some _ => d end in
  set k (default 0 (get k d) + 1) d.

End PyDict.

(** ** Result records shared by [analytics.py] and [api.py] *)

(** [HotspotEntry].  The field [hotspot_factor] is the float
    [churn_factor * (complexity ** 0.5) / 1000.0], a function of the two
    integer fields; an entry is kept as these two, and the float is computed
    from them where the code reads it. *)
Record HotspotEntry : Type := {
  file_path : string;
  churn_factor : Z;
  complexity : Z
}.

(** [hotspot_factor > 0]: a product and quotient of doubles has the sign of
    its factors, [complexity ** 0.5] that of [complexity], which is never
    negative, and no factor is small enough for the result to round to
    zero. *)
Definition hotspot_factor_positive (churn_factor complexity : Z) : bool :=
  (0 <? churn_factor) && (0 <? complexity).

(** [x.hotspot_factor], the key of the sort.  [hotspot_factor] is the float
    arithmetic of the interpreter: the double
    [churn_factor * (complexity ** 0.5) / 1000.0] of two integers, as the
    rational number it denotes.  [**] is the [pow] of the C library, which
    the source does not fix and which is not the correctly rounded square
    root (with glibc, [2921 ** 0.5] and [math.sqrt(2921)] differ), so that
    the analyses take it as given. *)
Definition hotspot_key (hotspot_factor : Z -> Z -> Qc) (e : HotspotEntry)
    : Qc :=
  hotspot_factor (churn_factor e) (complexity e).

Definition source_extensions : list string :=
  [".rs"; ".py"; ".java"; ".js"; ".ts"; ".c"; ".cpp"; ".h"; ".go"; ".rb";
   ".php"; ".cs"].

(** [x in source_extensions] *)
Definition in_source_extensions (x : string) : bool :=
  existsb (String.eqb x) source_extensions.

(** The value of [repo.analyze_code_ownership()]: two dictionaries from a
    path to the line count of each author, as their items. *)
Record Ownership : Type := {
  own_files : list (string * list (string * Z));
  own_directories : list (string * list (string * Z))
}.

(** [AuthorExpertise]; [repository_contribution] in exact arithmetic. *)
Record AuthorExpertise : Type := {
  files : gmap string Z;
  directories : gmap string Z;
  languages : gmap string Z;
  total_lines : Z;
  repository_contribution : Qc
}.

Module KnowledgeMap.

Definition fresh : AuthorExpertise :=
  {| files := ∅; directories := ∅; languages := ∅; total_lines := 0;
     repository_contribution := 0%Qc |}.

(** The body of the inner loop of the file pass, for one
    [(author, line_count)] of one path with language key [extension]. *)
Definition add_file (path extension : string)
    (expertise_map : gmap string AuthorExpertise) (item : string * Z)
    : gmap string AuthorExpertise :=
  let '(author, line_count) := item in
  let expertise_map :=
    match expertise_map !! author with
    | None => <[author := fresh]> expertise_map
    | Some _ => expertise_map
    end in
  match expertise_map !! author with
  | Some expertise =>
      let languages :=
        match languages expertise !! extension with
        | None => <[extension := 0]> (languages expertise)
        | Some _ => languages expertise
        end in
      <[author :=
          {| files := <[path := line_count]> (files expertise);
             directories := directories expertise;
             languages :=
               <[extension := default 0 (languages !! extension) + line_count]>
                 languages;
             total_lines := total_lines expertise + line_count;
             repository_contribution := repository_contribution expertise |}]>
        expertise_map
  | None => expertise_map
  end.

(** "Process file ownership", given the language key of a path. *)
Definition file_pass (extension_of : string -> string)
    (items : list (string * list (string * Z)))
    (expertise_map : gmap string AuthorExpertise)
    : gmap string AuthorExpertise :=
  fold_left
    (fun em '(path, authors) =>
       fold_left (add_file path (extension_of path)) authors em)
    items expertise_map.

Definition add_directory (dir_path : string)
    (expertise_map : gmap string AuthorExpertise) (item : string * Z)
    : gmap string AuthorExpertise :=
  let '(author, line_count) := item in
  match expertise_map !! author with
  | Some expertise =>
      <[author :=
          {| files := files expertise;
             directories := <[dir_path := line_count]> (directories expertise);
             languages := languages expertise;
             total_lines := total_lines expertise;
             repository_contribution := repository_contribution expertise |}]>
        expertise_map
  | None => expertise_map
  end.

(** "Process directory ownership". *)
Definition directory_pass (items : list (string * list (string * Z)))
    (expertise_map : gmap string AuthorExpertise)
    : gmap string AuthorExpertise :=
  fold_left
    (fun em '(dir_path, authors) => fold_left (add_directory dir_path) authors em)
    items expertise_map.

(** [sum(data['total_lines'] for data in expertise_map.values())] *)
Definition sum_total_lines (expertise_map : gmap string AuthorExpertise) : Z :=
  map_fold (fun _ expertise acc => total_lines expertise + acc) 0 expertise_map.

(** [(expertise['total_lines'] / total_lines) * 100] or [0]. *)
Definition contribution (total_lines_all : Z) (expertise : AuthorExpertise) : Qc :=
  if 0 <? total_lines_all
  then (Qc_of_Z (total_lines expertise) / Qc_of_Z total_lines_all * Qc_of_Z 100)%Qc
  else 0%Qc.

Definition set_contribution (total_lines_all : Z) (expertise : AuthorExpertise)
    : AuthorExpertise :=
  {| files := files expertise;
     directories := directories expertise;
     languages := languages expertise;
     total_lines := total_lines expertise;
     repository_contribution := contribution total_lines_all expertise |}.

(** The whole builder after the ownership query. *)
Definition build (extension_of : string -> string) (ownership : Ownership)
    : gmap string AuthorExpertise :=
  let expertise_map := file_pass extension_of (own_files ownership) ∅ in
  let expertise_map := directory_pass (own_directories ownership) expertise_map in
  let total_lines := sum_total_lines expertise_map in
  set_contribution total_lines <$> expertise_map.

End KnowledgeMap.

(** ** [api.py] *)

Module Api.

(** [@dataclass FileChangeFrequency] *)
Record FileChangeFrequency : Type := {
  path : string;
  change_count : Z;
  last_modified : Z;
  authors : list string;
  primary_owner : option string
}.

(** [result.sort(key=lambda x: x.change_count, reverse=True)]: a stable
    sort, descending in the key. *)
Fixpoint insert_desc {A : Type} (key : A -> Z) (x : A) (l : list A) : list A :=
  match l with
  | [] => [x]
  | y :: l' => if key x <? key y then y :: insert_desc key x l' else x :: l
  end.

Definition sort_desc {A : Type} (key : A -> Z) (l : list A) : list A :=
  foldr (insert_desc key) [] l.

(** [hotspots.sort(key=lambda x: x.hotspot_factor, reverse=True)]: the same
    sort for a float key.  A double is compared as the rational number it
    denotes. *)
Fixpoint insert_desc_float {A : Type} (key : A -> Qc) (x : A) (l : list A)
    : list A :=
  match l with
  | [] => [x]
  | y :: l' =>
      match Qccompare (key x) (key y) with
      | Lt => y :: insert_desc_float key x l'
      | _ => x :: l
      end
  end.

Definition sort_desc_float {A : Type} (key : A -> Qc) (l : list A) : list A :=
  foldr (insert_desc_float key) [] l.

Module Repository.

Section WithGit.

Variable git : git_runner.

(** [list_tracked] *)
Definition list_tracked : result (list string) :=
  output ← git ["ls-files"];
  Ok (map PyStr.strip (filter (fun line => PyStr.truthy (PyStr.strip line)) output)).

(** The variables of the parsing loop of [analyze_change_frequency]. *)
Record state : Type := {
  change_counts : list (string * Z);
  st_last_modified : gmap string Z;
  file_authors : list (string * list (string * Z));
  current_author : option string;
  current_timestamp : option Z
}.

Definition initial : state :=
  {| change_counts := []; st_last_modified := ∅; file_authors := [];
     current_author := None; current_timestamp := None |}.

(** The branch of the loop that records a touch of [path]. *)
Definition record_touch (st : state) (author : string) (timestamp : Z)
    (path : string) : state :=
  let change_counts := PyDict.incr path (change_counts st) in
  let last_modified :=
    match st_last_modified st !! path with
    | None => <[path := timestamp]> (st_last_modified st)
    | Some t =>
        if t <? timestamp then <[path := timestamp]> (st_last_modified st)
        else st_last_modified st
    end in
  let file_authors :=
    match PyDict.get path (file_authors st) with
    | None => PyDict.set path [] (file_authors st)
    | Some _ => file_authors st
    end in
  let file_authors :=
    PyDict.set path
      (PyDict.incr author (default [] (PyDict.get path file_authors)))
      file_authors in
  {| change_counts := change_counts; st_last_modified := last_modified;
     file_authors := file_authors;
     current_author := Some author; current_timestamp := Some timestamp |}.

(** One iteration of [for line in output.splitlines()]. *)
Definition step (st : state) (line : string) : result state :=
  if negb (PyStr.truthy (PyStr.strip line)) then
    Ok {| change_counts := change_counts st;
          st_last_modified := st_last_modified st;
          file_authors := file_authors st;
          current_author := None; current_timestamp := None |}
  else
    match current_author st with
    | None =>
        Ok {| change_counts := change_counts st;
              st_last_modified := st_last_modified st;
              file_authors := file_authors st;
              current_author := Some line;
              current_timestamp := current_timestamp st |}
    | Some author =>
        match current_timestamp st with
        | None =>
            t ← PyStr.int line;
            Ok {| change_counts := change_counts st;
                  st_last_modified := st_last_modified st;
                  file_authors := file_authors st;
                  current_author := Some author;
                  current_timestamp := Some t |}
        | Some timestamp => Ok (record_touch st author timestamp line)
        end
    end.

Fixpoint scan (st : state) (lines : list string) : result state :=
  match lines with
  | [] => Ok st
  | line :: rest => st' ← step st line; scan st' rest
  end.

(** The search for the primary owner (lines 464-469): the loop over
    [file_authors.get(path, {}).items()]. *)
Fixpoint primary_owner_loop (items : list (string * Z))
    (primary_owner : option string) (max_count : Z) : option string :=
  match items with
  | [] => primary_owner
  | (author, author_count) :: rest =>
      if max_count <? author_count
      then primary_owner_loop rest (Some author) author_count
      else primary_owner_loop rest primary_owner max_count
  end.

(** The entry built for one item of [change_counts]. *)
Definition make_entry (st : state) (item : string * Z) : FileChangeFrequency :=
  let '(path, count) := item in
  let per_author := default [] (PyDict.get path (file_authors st)) in
  {| path := path;
     change_count := count;
     last_modified := default 0 (st_last_modified st !! path);
     authors := PyDict.keys per_author;
     primary_owner := primary_owner_loop per_author None 0 |}.

(** The function after the git query: parse, build the entries, sort. *)
Definition change_frequency_of_lines (lines : list string)
    : result (list FileChangeFrequency) :=
  st ← scan initial lines;
  Ok (sort_desc change_count (map (make_entry st) (change_counts st))).

Definition analyze_change_frequency (path_filter : option string)
    : result (list FileChangeFrequency) :=
  let args :=
    ["log"; "--name-only"; "--pretty=format:%an%n%at"]
    ++ opt_arg "--" id path_filter in
  output ← git args;
  change_frequency_of_lines output.

End WithGit.

End Repository.

(** [api.py], class [Analytics]. *)
Module Analytics.

Section WithRepository.

Variable utcoffset : Z -> Z.

(** The float arithmetic of the interpreter, see [hotspot_key]. *)
Variable hotspot_factor : Z -> Z -> Qc.

Variable git : git_runner.

Definition _format_time_period (timestamp : Z) (period : string)
    : result string :=
  dt ← Datetime.fromtimestamp utcoffset timestamp;
  if String.eqb period "hour" then
    Ok (Datetime.fmt_Y dt +:+ "-" +:+ Datetime.fmt_m dt +:+ "-" +:+
        Datetime.fmt_d dt +:+ " " +:+ Datetime.fmt_H dt +:+ ":00")
  else if String.eqb period "day" then
    Ok (Datetime.fmt_Y dt +:+ "-" +:+ Datetime.fmt_m dt +:+ "-" +:+
        Datetime.fmt_d dt)
  else if String.eqb period "week" then
    let week_number := snd (fst (Datetime.isocalendar dt)) in
    Ok (PyStr.str (Datetime.year dt) +:+ "-W" +:+ PyStr.pad 2 week_number)
  else if String.eqb period "month" then
    Ok (Datetime.fmt_Y dt +:+ "-" +:+ Datetime.fmt_m dt)
  else if String.eqb period "year" then Ok (Datetime.fmt_Y dt)
  else Raise (ValueError ("Unknown period: " +:+ period)).

Definition analyze_file_evolution (file_path : string) (max_commits : option Z)
    : result (list FileEvolution.FileEvolutionEntry) :=
  output ← git (FileEvolution.evolution_args max_commits file_path);
  FileEvolution.parse output.

Definition is_source_file (path : string) : bool :=
  let ext := PyStr.lower (snd (PyStr.splitext path)) in
  in_source_extensions ext
  && negb (PyStr.contains "/node_modules/" path)
  && negb (PyStr.contains "/vendor/" path).

(** The body of [for file_path in source_files]: the entry appended for
    [file_path], if any. *)
Definition hotspot_of (frequency_data : list FileChangeFrequency)
    (file_path : string) : option HotspotEntry :=
  match List.find (fun f => String.eqb (path f) file_path) frequency_data with
  | None => None
  | Some frequency_entry =>
      let churn_factor := change_count frequency_entry in
      let complexity :=
        match git ["show"; "HEAD:" +:+ file_path] with
        | Ok content => Z.of_nat (length content)
        | Raise _ => 0
        end in
      if hotspot_factor_positive churn_factor complexity
      then Some {| file_path := file_path; churn_factor := churn_factor;
                   complexity := complexity |}
      else None
  end.

Definition analyze_hotspots : result (list HotspotEntry) :=
  frequency_data ← Repository.analyze_change_frequency git None;
  tracked_files ← Repository.list_tracked git;
  let source_files := List.filter is_source_file tracked_files in
  let hotspots := omap (hotspot_of frequency_data) source_files in
  Ok (sort_desc_float (hotspot_key hotspot_factor) hotspots).

(** The language key of a path ([api.py], lines 815-819). *)
Definition extension_of (path : string) : string :=
  let extension := PyStr.lower (snd (PyStr.splitext path)) in
  if negb (PyStr.truthy extension) then "unknown"
  else PyStr.slice 1 (PyStr.len extension) extension.

(** [analyze_knowledge_map], given the value of
    [repo.analyze_code_ownership()]. *)
Definition analyze_knowledge_map (ownership : Ownership)
    : gmap string AuthorExpertise :=
  KnowledgeMap.build extension_of ownership.

End WithRepository.

End Analytics.

End Api.

(** ** [analytics.py]: class [Analytics] (Python fallback paths) *)

Module Analytics.

Section Timeline.

Variable utcoffset : Z -> Z.
Variable git : git_runner.

Definition _format_time_period (timestamp : Z) (period : TimePeriod)
    : result string :=
  dt ← Datetime.fromtimestamp utcoffset timestamp;
  match period with
  | HOUR =>
      Ok (Datetime.fmt_Y dt +:+ "-" +:+ Datetime.fmt_m dt +:+ "-" +:+
          Datetime.fmt_d dt +:+ " " +:+ Datetime.fmt_H dt +:+ ":00")
  | DAY =>
      Ok (Datetime.fmt_Y dt +:+ "-" +:+ Datetime.fmt_m dt +:+ "-" +:+
          Datetime.fmt_d dt)
  | WEEK =>
      let week_number := snd (fst (Datetime.isocalendar dt)) in
      Ok (PyStr.str (Datetime.year dt) +:+ "-W" +:+ PyStr.pad 2 week_number)
  | MONTH => Ok (Datetime.fmt_Y dt +:+ "-" +:+ Datetime.fmt_m dt)
  | YEAR => Ok (Datetime.fmt_Y dt)
  end.

(** The arguments of the [git log] query of the timeline. *)
Definition timeline_args (options : AnalyticsOptions) : list string :=
  ["log"; "--pretty=format:%at"]
  ++ (if include_merges options then [] else ["--no-merges"])
  ++ opt_arg "--author" id (truthy_str (author_filter options))
  ++ opt_arg "--since" (fun n => "@" +:+ PyStr.str n) (truthy_int (since_date options))
  ++ opt_arg "--until" (fun n => "@" +:+ PyStr.str n) (truthy_int (until_date options))
  ++ opt_arg "--max-count" PyStr.str (truthy_int (max_commits options))
  ++ opt_arg "--skip" PyStr.str (truthy_int (skip_commits options))
  ++ opt_arg "--" id (truthy_str (path_filter options)).

(** The aggregation loop (lines 140-148). *)
Definition timeline_of_timestamps (period : TimePeriod) (timestamps : list Z)
    : result (gmap string Z) :=
  timeline_loop (fun t => _format_time_period t period) timestamps ∅.

Definition analyze_commit_history_timeline (period : TimePeriod)
    (options : option AnalyticsOptions) : result (gmap string Z) :=
  let options := default default_options options in
  output ← git (timeline_args options);
  timestamps ← parse_timestamps output;
  timeline_of_timestamps period timestamps.

End Timeline.

(** The churn mapping of [analyze_code_churn]. *)
Module CodeChurn.

(** The dictionary stored for a path: two keys after the raw pass, three
    more once the frequency data has been merged in. *)
Record churn_metrics : Type := {
  change_count : Z;
  commits : gset string;
  last_modified : option Z;
  authors : option (list string);
  primary_owner : option (option string)
}.

(** The "file path" branch of the raw pass (lines 355-363). *)
Definition touch (line current_commit : string)
    (churn : gmap string churn_metrics) : gmap string churn_metrics :=
  let churn :=
    match churn !! line with
    | None =>
        <[line := {| change_count := 0; commits := ∅; last_modified := None;
                     authors := None; primary_owner := None |}]> churn
    | Some _ => churn
    end in
  match churn !! line with
  | Some churn_metrics =>
      <[line := {| change_count := change_count churn_metrics + 1;
                   commits := commits churn_metrics ∪ {[current_commit]};
                   last_modified := last_modified churn_metrics;
                   authors := authors churn_metrics;
                   primary_owner := primary_owner churn_metrics |}]> churn
  | None => churn
  end.

(** One iteration of the raw pass over [(churn, current_commit)]. *)
Definition step (st : gmap string churn_metrics * option string)
    (line : string) : gmap string churn_metrics * option string :=
  let '(churn, current_commit) := st in
  if negb (PyStr.truthy (PyStr.strip line)) then st
  else
    match current_commit with
    | None => (churn, Some line)
    | Some commit => (touch line commit churn, Some commit)
    end.

(** The raw pass (lines 344-363). *)
Definition raw (lines : list string) : gmap string churn_metrics :=
  fst (fold_left step lines (∅, None)).

(** [churn[entry.path].update({...})] when [entry.path in churn]. *)
Definition merge_entry (churn : gmap string churn_metrics)
    (entry : Api.FileChangeFrequency) : gmap string churn_metrics :=
  match churn !! Api.path entry with
  | Some churn_metrics =>
      <[Api.path entry :=
          {| change_count := change_count churn_metrics;
             commits := commits churn_metrics;
             last_modified := Some (Api.last_modified entry);
             authors := Some (Api.authors entry);
             primary_owner := Some (Api.primary_owner entry) |}]> churn
  | None => churn
  end.

(** The merge pass (lines 368-374). *)
Definition merge (frequency_data : list Api.FileChangeFrequency)
    (churn : gmap string churn_metrics) : gmap string churn_metrics :=
  fold_left merge_entry frequency_data churn.

End CodeChurn.

Section WithRepository.

(** The float arithmetic of the interpreter, see [hotspot_key]. *)
Variable hotspot_factor : Z -> Z -> Qc.

(** [repo._repo._run_git_command] and the methods of the [Repository]
    wrapper of [repository.py] that the analyses call, each taken as the
    value the call returns or the exception it raises. *)
Variable git : git_runner.
Variable repo_analyze_change_frequency : result (list Api.FileChangeFrequency).
Variable repo_list_tracked : result (list string).
Variable repo_analyze_code_ownership : result Ownership.

Definition analyze_file_evolution (file_path : string)
    (options : option AnalyticsOptions)
    : result (list FileEvolution.FileEvolutionEntry) :=
  let options := default default_options options in
  output ← git (FileEvolution.evolution_args (max_commits options) file_path);
  FileEvolution.parse output.

(** The arguments of the [git log --name-only] query of the churn. *)
Definition churn_args (options : AnalyticsOptions) : list string :=
  ["log"; "--name-only"; "--pretty=format:%H"]
  ++ (if include_merges options then [] else ["--no-merges"])
  ++ opt_arg "--author" id (truthy_str (author_filter options))
  ++ opt_arg "--since" (fun n => "@" +:+ PyStr.str n) (truthy_int (since_date options))
  ++ opt_arg "--until" (fun n => "@" +:+ PyStr.str n) (truthy_int (until_date options))
  ++ opt_arg "--max-count" PyStr.str (truthy_int (max_commits options))
  ++ opt_arg "--" id (truthy_str (path_filter options)).

Definition analyze_code_churn (options : option AnalyticsOptions)
    : result (gmap string CodeChurn.churn_metrics) :=
  let options := default default_options options in
  output ← git (churn_args options);
  let churn := CodeChurn.raw output in
  frequency_data ← repo_analyze_change_frequency;
  Ok (CodeChurn.merge frequency_data churn).

Definition is_source_file (path : string) : bool :=
  let ext :=
    if PyStr.contains "." path
    then PyStr.split_last "."%char (PyStr.lower path)
    else EmptyString in
  in_source_extensions ("." +:+ ext)
  && negb (PyStr.contains "/node_modules/" path)
  && negb (PyStr.contains "/vendor/" path).

(** The body of [for file_path in source_files]: the entry appended for
    [file_path], if any ([repo._repo] has [_run_git_command], so the
    complexity is the line count of the file at HEAD). *)
Definition hotspot_of (frequency_data : list Api.FileChangeFrequency)
    (file_path : string) : option HotspotEntry :=
  match List.find (fun f => String.eqb (Api.path f) file_path) frequency_data with
  | None => None
  | Some frequency_entry =>
      let churn_factor := Api.change_count frequency_entry in
      let complexity :=
        match git ["show"; "HEAD:" +:+ file_path] with
        | Ok content => Z.of_nat (length content)
        | Raise _ => 0
        end in
      if hotspot_factor_positive churn_factor complexity
      then Some {| file_path := file_path; churn_factor := churn_factor;
                   complexity := complexity |}
      else None
  end.

Definition analyze_hotspots : result (list HotspotEntry) :=
  frequency_data ← repo_analyze_change_frequency;
  tracked_files ← repo_list_tracked;
  let source_files := List.filter is_source_file tracked_files in
  let hotspots := omap (hotspot_of frequency_data) source_files in
  Ok (Api.sort_desc_float (hotspot_key hotspot_factor) hotspots).

(** The language key of a path ([analytics.py], line 516). *)
Definition extension_of (path : string) : string :=
  if PyStr.contains "." path
  then PyStr.split_last "."%char (PyStr.lower path)
  else "unknown".

Definition analyze_knowledge_map : result (gmap string AuthorExpertise) :=
  ownership ← repo_analyze_code_ownership;
  Ok (KnowledgeMap.build extension_of ownership).

End WithRepository.

End Analytics.

(** ** Quantities the statements refer to *)

(** Sum of the counts of a mapping ([sum(timeline.values())]). *)
Definition sum_values (m : gmap string Z) : Z :=
  map_fold (fun _ v acc => v + acc) 0 m.

(** Number of timestamps of the input whose period key is [k]. *)
Fixpoint occurrences (fmt : Z -> result string) (k : string) (ts : list Z) : Z :=
  match ts with
  | [] => 0
  | t :: rest =>
      (match fmt t with
       | Ok k' => if decide (k' = k) then 1 else 0
       | Raise _ => 0
       end) + occurrences fmt k rest
  end.

(** *** The week of the specification

    The week key of an instant, [YYYY-Www]: the ISO-8601 week-numbering year
    and the ISO week number of its local date. *)
Definition iso_week_key (utcoffset : Z -> Z) (t : Z) : result string :=
  dt ← Datetime.fromtimestamp utcoffset t;
  let '(iso_year, iso_week, _) := Datetime.isocalendar dt in
  Ok (PyStr.pad 4 iso_year +:+ "-W" +:+ PyStr.pad 2 iso_week).

(** *** The streams that git prints

    [git log --follow --patch --pretty=format:%H%n%an%n%ae%n%at%n%s] prints,
    for each commit, the five header lines and then the patch; an empty line
    separates two commits. *)
Record FollowCommit : Type := {
  fc_hash : string;
  fc_author : string;
  fc_email : string;
  fc_timestamp : Z;
  fc_subject : string;
  fc_patch : list string
}.

Definition render_commit (c : FollowCommit) : list string :=
  [fc_hash c; fc_author c; fc_email c; PyStr.str (fc_timestamp c); fc_subject c]
  ++ fc_patch c.

Fixpoint render_stream (commits : list FollowCommit) : list string :=
  match commits with
  | [] => []
  | [c] => render_commit c
  | c :: rest => render_commit c ++ [EmptyString] ++ render_stream rest
  end.

(** [git log --name-only --pretty=format:%H] prints, for each commit, its
    hash and then the paths it touched; an empty line separates two commits.
    An event is a commit hash with its touched paths. *)
Fixpoint render_events (events : list (string * list string)) : list string :=
  match events with
  | [] => []
  | [(hash, paths)] => hash :: paths
  | (hash, paths) :: rest => (hash :: paths) ++ [EmptyString] ++ render_events rest
  end.

(** Number of touches of [path] over all events, one per listed line. *)
Definition total_touches (path : string) (events : list (string * list string)) : Z :=
  Z.of_nat (length (filter (fun l => l = path) (concat (map snd events)))).

(** The commits in whose event [path] appears. *)
Definition commits_touching (path : string) (events : list (string * list string))
    : gset string :=
  list_to_set (map fst (filter (fun e => path ∈ snd e) events)).

(** *** Readings of the churn mapping *)

(** A line that the parsers do not skip: [line.strip()] is not empty. *)
Definition nonblank (line : string) : Prop :=
  PyStr.truthy (PyStr.strip line) = true.

(** The [change_count] recorded for a path, 0 for a path that is no key. *)
Definition recorded_count (churn : gmap string Analytics.CodeChurn.churn_metrics)
    (path : string) : Z :=
  from_option Analytics.CodeChurn.change_count 0 (churn !! path).

(** Two churn mappings with the same keys and, at each key, the same
    [change_count] and [commits]. *)
Definition same_raw_fields (churn churn' : gmap string Analytics.CodeChurn.churn_metrics)
    : Prop :=
  forall path,
    match churn !! path, churn' !! path with
    | Some m, Some m' =>
        Analytics.CodeChurn.change_count m' = Analytics.CodeChurn.change_count m /\
        Analytics.CodeChurn.commits m' = Analytics.CodeChurn.commits m
    | None, None => True
    | _, _ => False
    end.

(** The metrics after one more touch by [commit]. *)
Definition touched (commit : string) (m : Analytics.CodeChurn.churn_metrics)
    : Analytics.CodeChurn.churn_metrics :=
  {| Analytics.CodeChurn.change_count := Analytics.CodeChurn.change_count m + 1;
     Analytics.CodeChurn.commits := Analytics.CodeChurn.commits m ∪ {[commit]};
     Analytics.CodeChurn.last_modified := Analytics.CodeChurn.last_modified m;
     Analytics.CodeChurn.authors := Analytics.CodeChurn.authors m;
     Analytics.CodeChurn.primary_owner := Analytics.CodeChurn.primary_owner m |}.

Definition untouched : Analytics.CodeChurn.churn_metrics :=
  {| Analytics.CodeChurn.change_count := 0;
     Analytics.CodeChurn.commits := ∅;
     Analytics.CodeChurn.last_modified := None;
     Analytics.CodeChurn.authors := None;
     Analytics.CodeChurn.primary_owner := None |}.

(** *** Readings of the knowledge map *)

(** Sum of [repository_contribution] across the authors. *)
Definition sum_contributions (expertise_map : gmap string AuthorExpertise) : Qc :=
  map_fold (fun _ expertise acc => (repository_contribution expertise + acc)%Qc)
    0%Qc expertise_map.

(** Total of the line counts attributed by the per-file ownership. *)
Definition attributed_lines (ownership : Ownership) : Z :=
  foldr Z.add 0 (map snd (concat (map snd (own_files ownership)))).

(** The contribution shares of a knowledge map are exact: [100 * total_lines
    / total] for each author and 100 in sum when the total of [total_lines]
    is positive, 0 for each author when it is 0. *)
Definition exact_shares (expertise_map : gmap string AuthorExpertise) : Prop :=
  let total := KnowledgeMap.sum_total_lines expertise_map in
  (0 < total ->
     (forall author expertise, expertise_map !! author = Some expertise ->
        repository_contribution expertise
        = (Qc_of_Z 100 * Qc_of_Z (total_lines expertise) / Qc_of_Z total)%Qc) /\
     sum_contributions expertise_map = Qc_of_Z 100) /\
  (total = 0 ->
     forall author expertise, expertise_map !! author = Some expertise ->
       repository_contribution expertise = 0%Qc).

(** *** The log that git prints for the change frequency

    [git log --name-only --pretty=format:%an%n%at] prints, for each commit,
    the author, the timestamp and the paths the commit lists.  A blank line
    follows the paths of a commit before the next commit; a commit that
    lists no path (a merge, a commit without changes) is followed by the
    next commit at once. *)
Record LogCommit : Type := {
  lc_author : string;
  lc_time : Z;
  lc_paths : list string
}.

Definition render_log_commit (c : LogCommit) : list string :=
  [lc_author c; PyStr.str (lc_time c)] ++ lc_paths c.

Fixpoint render_log (commits : list LogCommit) : list string :=
  match commits with
  | [] => []
  | c :: rest =>
      render_log_commit c ++
      match rest with
      | [] => []
      | _ :: _ =>
          match lc_paths c with
          | [] => []
          | _ :: _ => [EmptyString]
          end ++ render_log rest
      end
  end.

(** A touch is the pair of an author and a path: each commit touches the
    paths it lists, once per listing. *)
Definition log_touches (commits : list LogCommit) : list (string * string) :=
  flat_map (fun c => map (fun path => (lc_author c, path)) (lc_paths c)) commits.


(** A character that neither [str.strip] nor [int()] takes for whitespace. *)
Definition plain_char (c : ascii) : Prop :=
  PyStr.is_space c = false /\ PyStr.is_int_space c = false.

(** *** The log as the parser frames it

    The parser of [analyze_change_frequency] ends a commit at a blank line
    only.  [touches_from] reads the lines with that framing (the timestamp
    line is skipped, not parsed); it is the touches of the history when a
    blank line does follow every commit, see [log_touches] for the history
    itself. *)




(** The authors of the touches of [path], one per touch, in order. *)
Definition touchers (path : string) (log : list (string * string)) : list string :=
  map fst (filter (fun t => snd t = path) log).

(** Number of touches by [author] in a list of touchers. *)
Definition touch_count (author : string) (l : list string) : Z :=
  Z.of_nat (length (filter (fun a => a = author) l)).


(** The per-author counter of one path after the touches by [l]. *)
Definition tally (l : list string) : list (string * Z) :=
  fold_left (fun d a => PyDict.incr a d) l [].



(** *** Concrete inputs *)

Definition commit_newer : FollowCommit :=
  {| fc_hash := "9f2c1e7"; fc_author := "bob"; fc_email := "bob@example.org";
     fc_timestamp := 1700000600; fc_subject := "tune x";
     fc_patch := ["diff --git a/x.py b/x.py"; "index 83db48f..bf269f4 100644";
                  "--- a/x.py"; "+++ b/x.py"; "@@ -1 +1 @@"; "-x = 1"; "+x = 2"] |}.

Definition commit_older : FollowCommit :=
  {| fc_hash := "41b7a03"; fc_author := "alice"; fc_email := "alice@example.org";
     fc_timestamp := 1700000000; fc_subject := "add x";
     fc_patch := ["diff --git a/x.py b/x.py"; "new file mode 100644";
                  "index 0000000..83db48f"; "--- /dev/null"; "+++ b/x.py";
                  "@@ -0,0 +1 @@"; "+x = 1"] |}.

(** A repository whose only tracked file sits in a [node_modules] directory
    at the root, touched by one commit and four lines long. *)
Definition vendored_repo : git_runner := fun args =>
  if decide (args = ["ls-files"]) then
    Ok ["node_modules/left-pad/index.js"]
  else if decide (args = ["log"; "--name-only"; "--pretty=format:%an%n%at"]) then
    Ok ["alice"; "1700000000"; "node_modules/left-pad/index.js"]
  else if decide (args = ["show"; "HEAD:node_modules/left-pad/index.js"]) then
    Ok ["module.exports = leftpad;"; "function leftpad (str, len, ch) {";
        "  return str;"; "}"]
  else Raise (RuntimeError "Git command failed").



(** A history with a merge: alice adds a.py, bob changes it on a branch,
    carol merges the branch.  The merge lists no path. *)
Definition merge_history : list LogCommit :=
  [ {| lc_author := "carol"; lc_time := 1700000300; lc_paths := [] |};
    {| lc_author := "bob"; lc_time := 1700000200; lc_paths := ["a.py"] |};
    {| lc_author := "alice"; lc_time := 1700000100; lc_paths := ["a.py"] |} ].

Definition merge_repo : git_runner := fun args =>
  if decide (args = ["log"; "--name-only"; "--pretty=format:%an%n%at"])
  then Ok (render_log merge_history)
  else Raise (RuntimeError "Git command failed").


(** A log in which alice and bob touch a.py twice each and carol once;
    alice is encountered first. *)
Definition tied_log : list string :=
  ["alice"; "10"; "a.py"; EmptyString;
   "bob"; "20"; "a.py"; EmptyString;
   "carol"; "5"; "a.py"; EmptyString;
   "bob"; "7"; "a.py"; EmptyString;
   "alice"; "3"; "a.py"].

(** The time zone used for concrete evaluations. *)
Definition UTC : Z -> Z := fun _ => 0.

(** ** Further readings of the results *)

(** A list of entries in non-increasing order of a key. *)
Definition descending {A : Type} (key : A -> Z) (l : list A) : Prop :=
  forall i j x y, (i < j)%nat -> l !! i = Some x -> l !! j = Some y ->
    key y <= key x.

(** The same, by recursion on the list: each entry is followed by entries
    of keys not larger. *)
Fixpoint sorted_desc {A : Type} (key : A -> Z) (l : list A) : Prop :=
  match l with
  | [] => True
  | x :: rest => Forall (fun y => key y <= key x) rest /\ sorted_desc key rest
  end.

(** The same for a float key. *)
Definition descending_float {A : Type} (key : A -> Qc) (l : list A) : Prop :=
  forall i j x y, (i < j)%nat -> l !! i = Some x -> l !! j = Some y ->
    (key y <= key x)%Qc.

Fixpoint sorted_desc_float {A : Type} (key : A -> Qc) (l : list A) : Prop :=
  match l with
  | [] => True
  | x :: rest =>
      Forall (fun y => (key y <= key x)%Qc) rest /\ sorted_desc_float key rest
  end.

(** *** Further concrete inputs *)

(** Frequency data and content of a repository with one source file. *)
Definition app_frequency : list Api.FileChangeFrequency :=
  [{| Api.path := "src/app.py"; Api.change_count := 3; Api.last_modified := 30;
      Api.authors := ["alice"]; Api.primary_owner := Some "alice" |}].

Definition app_content : git_runner :=
  fun _ => Ok ["import sys"; "print(sys.argv)"].

Definition app_hotspot : HotspotEntry :=
  {| file_path := "src/app.py"; churn_factor := 3; complexity := 2 |}.

(** Two source files whose hotspot factors are equal as real numbers,
    [1 * sqrt 18 = 3 * sqrt 2], and one unit in the last place apart as
    doubles: with CPython on glibc, [1 * (18 ** 0.5) / 1000.0] is
    [0x1.160bb2fff6951p-8], printed 0.004242640687119285, and
    [3 * (2 ** 0.5) / 1000.0] is [0x1.160bb2fff6952p-8], printed
    0.004242640687119286.  [close_factor] is the float arithmetic at these
    two pairs. *)
Definition close_factor (churn_factor complexity : Z) : Qc :=
  if decide (churn_factor = 1 /\ complexity = 18)
  then Q2Qc (4891431684499793 # 1152921504606846976)
  else if decide (churn_factor = 3 /\ complexity = 2)
  then Q2Qc (4891431684499794 # 1152921504606846976)
  else Q2Qc 0.

Definition close_frequency : list Api.FileChangeFrequency :=
  [{| Api.path := "b.py"; Api.change_count := 3; Api.last_modified := 30;
      Api.authors := ["alice"]; Api.primary_owner := Some "alice" |};
   {| Api.path := "a.py"; Api.change_count := 1; Api.last_modified := 10;
      Api.authors := ["alice"]; Api.primary_owner := Some "alice" |}].

Definition close_content : git_runner := fun args =>
  if decide (args = ["show"; "HEAD:a.py"]) then Ok (replicate 18 "pass")
  else if decide (args = ["show"; "HEAD:b.py"]) then Ok ["import a"; "a.run()"]
  else Raise (RuntimeError "Git command failed").

Definition close_hotspots : list HotspotEntry :=
  [{| file_path := "b.py"; churn_factor := 3; complexity := 2 |};
   {| file_path := "a.py"; churn_factor := 1; complexity := 18 |}].

(** A repository whose only tracked file is below a nested [node_modules]. *)
Definition nested_frequency : list Api.FileChangeFrequency :=
  [{| Api.path := "web/node_modules/left-pad/index.js"; Api.change_count := 1;
      Api.last_modified := 1; Api.authors := ["alice"];
      Api.primary_owner := Some "alice" |}].

Definition nested_entry : HotspotEntry :=
  {| file_path := "web/node_modules/left-pad/index.js";
     churn_factor := 1; complexity := 2 |}.

(** [period.value] for the members of [TimePeriod]. *)
Definition period_value (period : TimePeriod) : string :=
  match period with
  | HOUR => "hour"
  | DAY => "day"
  | WEEK => "week"
  | MONTH => "month"
  | YEAR => "year"
  end.

(** The parser of the evolution stream after the five header lines of a
    commit, with [diff] collected so far. *)
Definition in_patch (hash author email : string) (t : Z) (subject : string)
    (diff : list string) : FileEvolution.state :=
  {| FileEvolution.evolution := [];
     FileEvolution.current_commit := Some hash;
     FileEvolution.current_author := Some author;
     FileEvolution.current_email := Some email;
     FileEvolution.current_timestamp := Some t;
     FileEvolution.current_message := Some subject;
     FileEvolution.current_diff := diff;
     FileEvolution.parsing_diff := true |}.

(** A line that does not open a file-diff section. *)
Definition no_diff_header (line : string) : Prop :=
  PyStr.startswith "diff --git " line = false.


(** *** Timestamps of the touches

    The touches of the change-frequency log with the timestamp of their
    commit, with the framing of the parser: a commit ends at a blank line
    only.  They are the stamped touches of the history when a blank line
    does follow every commit, see [log_stamps] for the history itself. *)






(** *** Readings of the ownership *)

(** The authors that the per-file ownership attributes lines to. *)
Definition file_owners (ownership : Ownership) : gset string :=
  list_to_set (map fst (concat (map snd (own_files ownership)))).

(** Every author of the map has as many lines over the languages as in
    total. *)
Definition languages_add_up (expertise_map : gmap string AuthorExpertise) : Prop :=
  forall author expertise, expertise_map !! author = Some expertise ->
    sum_values (languages expertise) = total_lines expertise.

(** *** Shapes of paths *)

(** A directory prefix of a path: empty, or ending in a slash. *)
Definition dir_prefix (dir : string) : Prop :=
  dir = EmptyString \/ exists d, dir = d +:+ "/".

(** [dir + name + "." + ext] *)
Definition with_extension (dir name ext : string) : string :=
  dir +:+ name +:+ "." +:+ ext.

(** All characters of [s] are dots. *)
Definition only_dots (s : string) : bool :=
  forallb (Ascii.eqb "."%char) (list_ascii_of_string s).

(** ** [os.path.dirname] *)

Module PosixPath.

(** [s.rstrip('/')] *)
Fixpoint rstrip_sep (s : string) : string :=
  match s with
  | EmptyString => EmptyString
  | String c s' =>
      match rstrip_sep s' with
      | EmptyString =>
          if Ascii.eqb c "/"%char then EmptyString else String c EmptyString
      | r => String c r
      end
  end.

(** [sep * n] *)
Definition seps (n : nat) : string :=
  string_of_list_ascii (repeat "/"%char n).

(** [posixpath.dirname]:
    [i = p.rfind(sep) + 1; head = p[:i];
     if head and head != sep*len(head): head = head.rstrip(sep)]. *)
Definition dirname (p : string) : string :=
  let i := PyStr.rfind "/"%char p + 1 in
  let head := PyStr.slice 0 i p in
  if PyStr.truthy head && negb (String.eqb head (seps (String.length head)))
  then rstrip_sep head
  else head.

End PosixPath.

(** ** Insertion-ordered dicts with any keys

    The author of a blame line may be [None], so the dicts of the ownership
    analysis are keyed by [option string]. *)

Module Dict.

Section WithKeys.

Context {K V : Type} `{EqDecision K}.

(** [d.get(k)] *)
Fixpoint get (k : K) (d : list (K * V)) : option V :=
  match d with
  | [] => None
  | (k', v) :: d' => if decide (k = k') then Some v else get k d'
  end.

(** [d[k] = v] *)
Fixpoint set (k : K) (v : V) (d : list (K * V)) : list (K * V) :=
  match d with
  | [] => [(k, v)]
  | (k', v') :: d' =>
      if decide (k = k') then (k', v) :: d' else (k', v') :: set k v d'
  end.

(** [list(d.keys())] *)
Definition keys (d : list (K * V)) : list K := map fst d.

End WithKeys.

(** [if k not in d: d[k] = 0] and then [d[k] += n] *)
Definition add {K : Type} `{EqDecision K} (k : K) (n : Z) (d : list (K * Z))
    : list (K * Z) :=
  let d := match get k d with None => set k 0 d | Some _ => d end in
  set k (default 0 (get k d) + n) d.

End Dict.

(** ** [Repository.blame] ([api.py], lines 520-552) *)

Module Blame.

(** One dict of [blame_lines]. *)
Record BlameLine : Type := {
  commit : string;
  author : option string;
  timestamp : option Z;
  line_no : option Z;
  content : string
}.

(** The variables of the loop.  [current_content] is never read. *)
Record state : Type := {
  blame_lines : list BlameLine;
  current_commit : option string;
  current_author : option string;
  current_timestamp : option Z;
  current_line_no : option Z
}.

Definition initial : state :=
  {| blame_lines := []; current_commit := None; current_author := None;
     current_timestamp := None; current_line_no := None |}.

Definition tab : string := String "009"%char EmptyString.

(** [c in '0123456789abcdef'] *)
Definition is_hex (c : ascii) : bool :=
  PyStr.contains (String c EmptyString) "0123456789abcdef".

(** [line.startswith('\t')] *)
Definition is_content (line : string) : bool := PyStr.startswith tab line.

(** [len(line) >= 40 and all(c in '0123456789abcdef' for c in line[:40])] *)
Definition is_commit_line (line : string) : bool :=
  (40 <=? PyStr.len line)
  && forallb is_hex (list_ascii_of_string (PyStr.slice 0 40 line)).

(** [line[n:]] *)
Definition from (n : Z) (line : string) : string :=
  PyStr.slice n (Z.max n (PyStr.len line)) line.

(** The body of the loop. *)
Definition step (st : state) (line : string) : result state :=
  if is_content line then
    match current_commit st with
    | Some c =>
        Ok {| blame_lines :=
                blame_lines st ++
                [ {| commit := c;
                     author := current_author st;
                     timestamp := current_timestamp st;
                     line_no := current_line_no st;
                     content := from 1 line |} ];
              current_commit := current_commit st;
              current_author := current_author st;
              current_timestamp := current_timestamp st;
              current_line_no := current_line_no st |}
    | None => Ok st
    end
  else if PyStr.startswith "author " line then
    Ok {| blame_lines := blame_lines st;
          current_commit := current_commit st;
          current_author := Some (from 7 line);
          current_timestamp := current_timestamp st;
          current_line_no := current_line_no st |}
  else if PyStr.startswith "author-time " line then
    t ← PyStr.int (from 12 line);
    Ok {| blame_lines := blame_lines st;
          current_commit := current_commit st;
          current_author := current_author st;
          current_timestamp := Some t;
          current_line_no := current_line_no st |}
  else if PyStr.startswith "original-line " line then
    n ← PyStr.int (from 14 line);
    Ok {| blame_lines := blame_lines st;
          current_commit := current_commit st;
          current_author := current_author st;
          current_timestamp := current_timestamp st;
          current_line_no := Some n |}
  else if is_commit_line line then
    Ok {| blame_lines := blame_lines st;
          current_commit := Some (PyStr.slice 0 40 line);
          current_author := current_author st;
          current_timestamp := current_timestamp st;
          current_line_no := current_line_no st |}
  else Ok st.

(** [for line in output.splitlines(): ...] *)
Fixpoint scan (lines : list string) (st : state) : result state :=
  match lines with
  | [] => Ok st
  | line :: rest => st' ← step st line; scan rest st'
  end.

(** [blame], over the lines of the output of git. *)
Definition blame (git : git_runner) (file_path : string)
    : result (list BlameLine) :=
  output ← git ["blame"; "--porcelain"; file_path];
  st ← scan output initial;
  Ok (blame_lines st).

End Blame.

(** ** [Repository.analyze_code_ownership] ([api.py], lines 554-594) *)

Module CodeOwnership.

(** The returned dict: ['files'] and ['directories'], each from a path to the
    line counts of the authors. *)
Record t : Type := {
  files : list (string * list (option string * Z));
  directories : list (string * list (option string * Z))
}.

(** "Count lines by author" *)
Definition count_authors (blame_data : list Blame.BlameLine)
    : list (option string * Z) :=
  fold_left (fun author_counts line => Dict.add (Blame.author line) 1 author_counts)
    blame_data [].

(** [for author, count in author_counts.items(): ...] on the dict of one
    directory. *)
Definition roll_up (author_counts dir_counts : list (option string * Z))
    : list (option string * Z) :=
  fold_left (fun dir_counts '(author, count) => Dict.add author count dir_counts)
    author_counts dir_counts.

(** The body of the [try] after the call of [blame]. *)
Definition record_file (own : t) (file_path : string)
    (blame_data : list Blame.BlameLine) : t :=
  let author_counts := count_authors blame_data in
  let file_ownership := Dict.set file_path author_counts (files own) in
  let dir_path := PosixPath.dirname file_path in
  let dir_ownership :=
    match Dict.get dir_path (directories own) with
    | None => Dict.set dir_path [] (directories own)
    | Some _ => directories own
    end in
  let dir_counts := default [] (Dict.get dir_path dir_ownership) in
  {| files := file_ownership;
     directories :=
       Dict.set dir_path (roll_up author_counts dir_counts) dir_ownership |}.

(** One turn of the loop over the tracked files: a file whose blame raises is
    skipped by [except Exception: ... continue]. *)
Definition step (git : git_runner) (own : t) (file_path : string) : t :=
  match Blame.blame git file_path with
  | Ok blame_data => record_file own file_path blame_data
  | Raise _ => own
  end.

Definition analyze_code_ownership (git : git_runner) : result t :=
  tracked ← Api.Repository.list_tracked git;
  Ok (fold_left (step git) tracked {| files := []; directories := [] |}).

End CodeOwnership.

(** *** Readings of a blame *)

(** The lines after the first commit line. *)
Fixpoint after_first_commit (lines : list string) : list string :=
  match lines with
  | [] => []
  | line :: rest =>
      if Blame.is_commit_line line then rest else after_first_commit rest
  end.

(** The text of the content lines. *)
Definition contents (lines : list string) : list string :=
  map (Blame.from 1) (List.filter Blame.is_content lines).

(** A commit id: forty lower-case hexadecimal digits. *)
Definition commit_id (c : string) : Prop :=
  String.length c = 40%nat /\
  forallb Blame.is_hex (list_ascii_of_string c) = true.

(** Number of blame lines of an author. *)
Definition lines_by (a : option string) (blame_data : list Blame.BlameLine) : Z :=
  Z.of_nat (length (filter (fun line => Blame.author line = a) blame_data)).

(** Number of blame lines of an author over the listed files of a directory
    that can be blamed, a file counting as often as it is listed. *)
Fixpoint directory_lines (git : git_runner) (dir_path : string)
    (a : option string) (tracked : list string) : Z :=
  match tracked with
  | [] => 0
  | file_path :: rest =>
      match Blame.blame git file_path with
      | Ok blame_data =>
          if decide (PosixPath.dirname file_path = dir_path)
          then lines_by a blame_data + directory_lines git dir_path a rest
          else directory_lines git dir_path a rest
      | Raise _ => directory_lines git dir_path a rest
      end
  end.

(** [d.get(k)], with [None] for a count of zero. *)
Definition count_entry (n : Z) : option Z := if n =? 0 then None else Some n.

(** The lines of an author in the entry of a directory, 0 without one. *)
Definition directory_count (own : CodeOwnership.t) (dir_path : string)
    (a : option string) : Z :=
  default 0 (Dict.get dir_path (CodeOwnership.directories own) ≫= Dict.get a).

(** *** A repository to blame

    Two commits; [src/a.py] and [src/b.py] have two lines of the first one,
    [README] has a third line of the second one, [logo.png] cannot be
    blamed. *)

Definition first_id : string := "0123456789abcdef0123456789abcdef01234567".
Definition second_id : string := "89abcdef0123456789abcdef0123456789abcdef".

Definition blame_output : list string :=
  [ first_id +:+ " 1 1 2"; "author Alice"; "author-mail <alice@example.org>";
    "author-time 1600000000"; "summary first"; "filename src/a.py";
    Blame.tab +:+ "import os";
    first_id +:+ " 2 2";
    Blame.tab +:+ "import sys";
    second_id +:+ " 1 3 1"; "author Bob"; "author-time 1600000100";
    "summary second"; "filename README";
    Blame.tab +:+ "read me" ].

Definition blamed_repo : git_runner := fun args =>
  if decide (args = ["ls-files"])
  then Ok ["src/a.py"; "src/b.py"; "README"; "logo.png"]
  else if decide (args = ["blame"; "--porcelain"; "README"])
  then Ok blame_output
  else if decide (args = ["blame"; "--porcelain"; "logo.png"])
  then Raise (RuntimeError "Git command failed")
  else Ok (take 9 blame_output).

(** ** [str.split()] *)

Module Split.

(** The words of [s] after the characters of [word]: maximal runs of
    characters that are not whitespace. *)
Fixpoint go (s : string) (word : string) : list string :=
  match s with
  | EmptyString => if PyStr.truthy word then [word] else []
  | String c s' =>
      if PyStr.is_space c
      then if PyStr.truthy word then word :: go s' EmptyString
           else go s' EmptyString
      else go s' (word +:+ String c EmptyString)
  end.

(** [s.split()] *)
Definition split (s : string) : list string := go s EmptyString.

End Split.

(** ** [Repository.analyze_contributions] ([api.py], lines 347-412) *)

Module Contributions.

(** [@dataclass CommitInfo] *)
Record CommitInfo : Type := {
  hash : string;
  short_hash : string;
  author_name : string;
  author_email : string;
  timestamp : Z;
  message : string;
  parents : list string
}.

(** [@dataclass AuthorStats] *)
Record AuthorStats : Type := {
  commits : Z;
  added_lines : Z;
  removed_lines : Z;
  files_changed : Z;
  first_commit : Z;
  last_commit : Z
}.

(** [@dataclass ContributionStats] *)
Record ContributionStats : Type := {
  by_author : list (string * AuthorStats);
  total_commits : Z;
  total_authors : Z;
  total_added : Z;
  total_removed : Z;
  total_files_changed : Z
}.

(** The id of the empty tree, the parent of a commit without parents. *)
Definition empty_tree : string := "4b825dc642cb6eb9a060e54bf8d69288fbee4904".

(** [added_lines], [removed_lines] and [files_changed] of one commit. *)
Record DiffStats : Type := {
  diff_added : Z;
  diff_removed : Z;
  diff_files : Z
}.

(** [if part != "-": count += int(part)] *)
Definition add_count (count : Z) (part : string) : result Z :=
  if String.eqb part "-" then Ok count
  else n ← PyStr.int part; Ok (count + n).

(** The body of the loop over the lines of [git diff --numstat]. *)
Definition numstat_step (acc : DiffStats) (line : string) : result DiffStats :=
  if negb (PyStr.truthy (PyStr.strip line)) then Ok acc
  else
    match Split.split line with
    | part0 :: part1 :: _ :: _ =>
        added ← add_count (diff_added acc) part0;
        removed ← add_count (diff_removed acc) part1;
        Ok {| diff_added := added;
              diff_removed := removed;
              diff_files := diff_files acc + 1 |}
    | _ => Ok acc
    end.

Fixpoint numstat (lines : list string) (acc : DiffStats) : result DiffStats :=
  match lines with
  | [] => Ok acc
  | line :: rest => acc' ← numstat_step acc line; numstat rest acc'
  end.

(** The variables of the loop over the commits. *)
Record state : Type := {
  author_stats : list (string * AuthorStats);
  st_total_added : Z;
  st_total_removed : Z;
  st_total_files_changed : Z
}.

Definition initial : state :=
  {| author_stats := []; st_total_added := 0; st_total_removed := 0;
     st_total_files_changed := 0 |}.

(** "Update author stats": the entry of the author is created on the first
    commit of the author and then updated in place. *)
Definition update_author (commit : CommitInfo) (diff : DiffStats)
    (author_stats : list (string * AuthorStats))
    : list (string * AuthorStats) :=
  let author_stats :=
    match PyDict.get (author_name commit) author_stats with
    | None =>
        PyDict.set (author_name commit)
          {| commits := 0; added_lines := 0; removed_lines := 0;
             files_changed := 0;
             first_commit := timestamp commit;
             last_commit := timestamp commit |}
          author_stats
    | Some _ => author_stats
    end in
  match PyDict.get (author_name commit) author_stats with
  | Some stats =>
      PyDict.set (author_name commit)
        {| commits := commits stats + 1;
           added_lines := added_lines stats + diff_added diff;
           removed_lines := removed_lines stats + diff_removed diff;
           files_changed := files_changed stats + diff_files diff;
           first_commit := Z.min (first_commit stats) (timestamp commit);
           last_commit := Z.max (last_commit stats) (timestamp commit) |}
        author_stats
  | None => author_stats
  end.

(** The body of the loop over the commits. *)
Definition step (git : git_runner) (st : state) (commit : CommitInfo)
    : result state :=
  let parent_ref :=
    match parents commit with
    | parent :: _ => parent
    | [] => empty_tree
    end in
  diff_output ← git ["diff"; "--numstat"; parent_ref; hash commit];
  diff ← numstat diff_output
            {| diff_added := 0; diff_removed := 0; diff_files := 0 |};
  Ok {| author_stats := update_author commit diff (author_stats st);
        st_total_added := st_total_added st + diff_added diff;
        st_total_removed := st_total_removed st + diff_removed diff;
        st_total_files_changed := st_total_files_changed st + diff_files diff |}.

Fixpoint scan (git : git_runner) (commits : list CommitInfo) (st : state)
    : result state :=
  match commits with
  | [] => Ok st
  | commit :: rest => st' ← step git st commit; scan git rest st'
  end.

(** [analyze_contributions], given the value of
    [self.get_commit_history(limit=limit)]. *)
Definition analyze_contributions (git : git_runner)
    (repo_get_commit_history : result (list CommitInfo))
    : result ContributionStats :=
  commits ← repo_get_commit_history;
  st ← scan git commits initial;
  Ok {| by_author := author_stats st;
        total_commits := Z.of_nat (length commits);
        total_authors := Z.of_nat (length (author_stats st));
        total_added := st_total_added st;
        total_removed := st_total_removed st;
        total_files_changed := st_total_files_changed st |}.

End Contributions.

(** *** Readings of the contribution statistics *)

(** The sum of a field over the authors. *)
Definition over_authors (field : Contributions.AuthorStats -> Z)
    (by_author : list (string * Contributions.AuthorStats)) : Z :=
  fold_right (fun item acc => field (snd item) + acc) 0 by_author.

(** The commits of an author. *)
Definition commits_of (name : string) (commits : list Contributions.CommitInfo)
    : list Contributions.CommitInfo :=
  filter (fun commit => Contributions.author_name commit = name) commits.

(** The entries of the authors after some commits. *)
Definition author_entries (st : Contributions.state)
    (seen : list Contributions.CommitInfo) : Prop :=
  forall name,
    match PyDict.get name (Contributions.author_stats st) with
    | None => commits_of name seen = []
    | Some stats =>
        Contributions.commits stats = Z.of_nat (length (commits_of name seen)) /\
        (forall commit, commit ∈ commits_of name seen ->
           Contributions.first_commit stats <= Contributions.timestamp commit
           <= Contributions.last_commit stats) /\
        (exists commit, commit ∈ commits_of name seen /\
           Contributions.timestamp commit = Contributions.first_commit stats) /\
        (exists commit, commit ∈ commits_of name seen /\
           Contributions.timestamp commit = Contributions.last_commit stats)
    end.

(** *** A history of three commits *)

Definition commit_of (id name : string) (time : Z) (parent : list string)
    : Contributions.CommitInfo :=
  {| Contributions.hash := id;
     Contributions.short_hash := PyStr.slice 0 7 id;
     Contributions.author_name := name;
     Contributions.author_email := EmptyString;
     Contributions.timestamp := time;
     Contributions.message := "work";
     Contributions.parents := parent |}.

Definition three_commits : list Contributions.CommitInfo :=
  [ commit_of "c3" "Alice" 1600000200 ["c2"];
    commit_of "c2" "Bob" 1600000100 ["c1"];
    commit_of "c1" "Alice" 1600000000 [] ].

Definition numstat_repo : git_runner := fun args =>
  if decide (args = ["diff"; "--numstat"; "c2"; "c3"])
  then Ok [ "3" +:+ Blame.tab +:+ "1" +:+ Blame.tab +:+ "src/a.py" ]
  else if decide (args = ["diff"; "--numstat"; "c1"; "c2"])
  then Ok [ "-" +:+ Blame.tab +:+ "-" +:+ Blame.tab +:+ "logo.png";
            "2" +:+ Blame.tab +:+ "0" +:+ Blame.tab +:+ "README" ]
  else if decide (args = ["diff"; "--numstat"; Contributions.empty_tree; "c1"])
  then Ok [ "10" +:+ Blame.tab +:+ "0" +:+ Blame.tab +:+ "src/a.py";
            EmptyString ]
  else Raise (RuntimeError "Git command failed").

(** ** [Repository.status] ([api.py], lines 240-300) *)

Module Status.

Module Data.

(** [@dataclass StatusEntry] *)
Record StatusEntry : Type := {
  path : string;
  status : string;
  original_path : option string
}.

(** [@dataclass StatusInfo] *)
Record StatusInfo : Type := {
  branch : option string;
  files : list StatusEntry;
  is_clean : bool;
  merging : bool;
  rebasing : bool;
  cherry_picking : bool
}.

End Data.

(** What [os.path.exists] answers for [MERGE_HEAD], [rebase-apply],
    [rebase-merge] and [CHERRY_PICK_HEAD] in the [.git] directory. *)
Record GitDir : Type := {
  merge_head : bool;
  rebase_apply : bool;
  rebase_merge : bool;
  cherry_pick_head : bool
}.

(** [s.replace(old, new)] for a non-empty [old] and the empty string as
    [new]: the occurrences of [old] are found from the left and do not
    overlap; [skip] characters of the occurrence found last are still to be
    dropped. *)
Fixpoint remove_go (old : string) (s : string) (skip : nat) : string :=
  match s with
  | EmptyString => EmptyString
  | String c s' =>
      match skip with
      | S skip' => remove_go old s' skip'
      | O =>
          if PyStr.startswith old s
          then remove_go old s' (String.length old - 1)
          else String c (remove_go old s' 0)
      end
  end.

Definition remove (old s : string) : string := remove_go old s 0.

(** [s.split(sep)] for a character [sep], after the characters of [piece]. *)
Fixpoint split_on (sep : ascii) (s : string) (piece : string) : list string :=
  match s with
  | EmptyString => [piece]
  | String c s' =>
      if Ascii.eqb c sep then piece :: split_on sep s' EmptyString
      else split_on sep s' (piece +:+ String c EmptyString)
  end.

(** The chain of tests on [status_code[0]].  A word of [split()] is not
    empty, so that the index is in range. *)
Definition status_of (status_code : string) : string :=
  match status_code with
  | String c _ =>
      if Ascii.eqb c "M" then "Modified"
      else if Ascii.eqb c "A" then "Added"
      else if Ascii.eqb c "D" then "Deleted"
      else if Ascii.eqb c "R" then "Renamed"
      else if Ascii.eqb c "C" then "Copied"
      else if Ascii.eqb c "U" then "Unmerged"
      else "Unknown"
  | EmptyString => "Unknown"
  end.

(** The variables of the loop. *)
Record state : Type := {
  branch_name : option string;
  files : list Data.StatusEntry
}.

(** [line.startswith(("1 ", "2 ", "u "))] *)
Definition is_entry (line : string) : bool :=
  PyStr.startswith "1 " line || PyStr.startswith "2 " line
  || PyStr.startswith "u " line.

(** The body of the loop. *)
Definition step (st : state) (line : string) : state :=
  if PyStr.startswith "# branch.head " line then
    {| branch_name := Some (PyStr.strip (remove "# branch.head " line));
       files := files st |}
  else if is_entry line then
    match Split.split line with
    | _ :: status_code :: _ =>
        match split_on "009"%char line EmptyString with
        | _ :: part1 :: rest =>
            {| branch_name := branch_name st;
               files :=
                 files st ++
                 [ {| Data.path := PyStr.strip part1;
                      Data.status := status_of status_code;
                      Data.original_path :=
                        match rest with
                        | part2 :: _ => Some (PyStr.strip part2)
                        | [] => None
                        end |} ] |}
        | _ => st
        end
    | _ => st
    end
  else if PyStr.startswith "? " line then
    {| branch_name := branch_name st;
       files :=
         files st ++
         [ {| Data.path := PyStr.strip (Blame.from 2 line);
              Data.status := "Untracked";
              Data.original_path := None |} ] |}
  else st.

(** [entry.status in ["Unmodified", "Ignored"]] *)
Definition unchanged (entry : Data.StatusEntry) : bool :=
  existsb (String.eqb (Data.status entry)) ["Unmodified"; "Ignored"].

Definition status (git : git_runner) (git_dir : GitDir)
    : result Data.StatusInfo :=
  output ← git ["status"; "--porcelain=v2"; "--branch"];
  let st := fold_left step output {| branch_name := None; files := [] |} in
  Ok {| Data.branch := branch_name st;
        Data.files := files st;
        Data.is_clean := forallb unchanged (files st);
        Data.merging := merge_head git_dir;
        Data.rebasing := rebase_apply git_dir || rebase_merge git_dir;
        Data.cherry_picking := cherry_pick_head git_dir |}.

End Status.

(** *** A status to read *)

(** No line has a tab, and none tells of an untracked file. *)
Definition plain_output (output : list string) : Prop :=
  Forall (fun line =>
            PyStr.contains Blame.tab line = false /\
            PyStr.startswith "? " line = false) output.

Definition modified_repo : git_runner := fun args =>
  if decide (args = ["status"; "--porcelain=v2"; "--branch"])
  then Ok [ "# branch.oid 0123456789abcdef0123456789abcdef01234567";
            "# branch.head main";
            "1 .M N... 100644 100644 100644 0123456 0123456 src/a.py" ]
  else Raise (RuntimeError "Git command failed").

Definition renamed_repo : git_runner := fun args =>
  if decide (args = ["status"; "--porcelain=v2"; "--branch"])
  then Ok [ "# branch.head main";
            "2 R. N... 100644 100644 100644 0123456 0123456 R100 new.py"
              +:+ Blame.tab +:+ "old.py";
            "? notes.txt" ]
  else Raise (RuntimeError "Git command failed").

Definition quiet_git_dir : Status.GitDir :=
  {| Status.merge_head := false; Status.rebase_apply := false;
     Status.rebase_merge := false; Status.cherry_pick_head := false |}.

(** * Properties *)

(** ** Counting into a mapping *)

Lemma sum_values_empty : sum_values ∅ = 0.
Proof. unfold sum_values. apply map_fold_empty. Qed.

Lemma sum_values_insert_fresh (m : gmap string Z) k v :
  m !! k = None -> sum_values (<[k := v]> m) = v + sum_values m.
Proof.
  intros Hk. unfold sum_values.
  apply (map_fold_insert_L (fun _ v acc => v + acc)); [intros; lia | done].
Qed.

Lemma sum_values_insert_present (m : gmap string Z) k v0 v :
  m !! k = Some v0 -> sum_values (<[k := v]> m) = sum_values m - v0 + v.
Proof.
  intros Hk.
  rewrite <- (insert_delete_eq m k v).
  rewrite sum_values_insert_fresh by apply lookup_delete_eq.
  unfold sum_values at 2.
  rewrite (map_fold_delete_L (fun _ v acc => v + acc) 0 k v0 m); [| intros; lia | done].
  fold (sum_values (delete k m)). lia.
Qed.

Lemma bump_lookup (m : gmap string Z) key k :
  bump key m !! k =
  if decide (key = k) then Some (default 0 (m !! key) + 1) else m !! k.
Proof.
  unfold bump. destruct (m !! key) as [v|] eqn:Hm.
  - rewrite lookup_insert. rewrite Hm. by destruct (decide (key = k)).
  - rewrite lookup_insert_eq. simpl.
    rewrite lookup_insert. destruct (decide (key = k)); [done |].
    by rewrite lookup_insert_ne.
Qed.

Lemma bump_sum (m : gmap string Z) key :
  sum_values (bump key m) = sum_values m + 1.
Proof.
  unfold bump. destruct (m !! key) as [v|] eqn:Hm.
  - rewrite Hm. simpl. rewrite (sum_values_insert_present m key v) by done. lia.
  - rewrite lookup_insert_eq. simpl.
    rewrite (sum_values_insert_present _ key 0) by apply lookup_insert_eq.
    rewrite sum_values_insert_fresh by done. lia.
Qed.

Lemma occurrences_nonneg fmt k ts : 0 <= occurrences fmt k ts.
Proof.
  induction ts as [|t ts IH]; simpl; [lia |].
  destruct (fmt t); [case_decide |]; lia.
Qed.

Lemma occurrences_pos fmt k ts :
  0 < occurrences fmt k ts -> exists t, t ∈ ts /\ fmt t = Ok k.
Proof.
  induction ts as [|t ts IH]; simpl; [lia |].
  destruct (fmt t) as [k'|e] eqn:Hf.
  - case_decide as Hk.
    + intros _. exists t. subst. split; [left | done].
    + intros H. destruct IH as (t' & Hin & Ht'); [lia |].
      exists t'. split; [by right | done].
  - intros H. destruct IH as (t' & Hin & Ht'); [lia |].
    exists t'. split; [by right | done].
Qed.

(** The loop started from any mapping with positive counts: it returns as
    soon as every key can be formed, adds one per timestamp to the total, and
    adds to each key the number of timestamps that carry it. *)
Lemma timeline_loop_spec fmt ts : forall (tl0 : gmap string Z),
  Forall (fun t => is_Ok (fmt t)) ts ->
  (forall k c, tl0 !! k = Some c -> 1 <= c) ->
  exists tl,
    timeline_loop fmt ts tl0 = Ok tl /\
    sum_values tl = sum_values tl0 + Z.of_nat (length ts) /\
    (forall k, default 0 (tl !! k) = default 0 (tl0 !! k) + occurrences fmt k ts) /\
    (forall k c, tl !! k = Some c -> 1 <= c).
Proof.
  induction ts as [|t ts IH]; intros tl0 Hok Hpos.
  - exists tl0. simpl. repeat split; [lia | intros; lia | done].
  - inversion Hok as [|? ? Ht Hts]; subst.
    simpl. destruct (fmt t) as [key|e] eqn:Hf; [| done]. simpl.
    destruct (IH (bump key tl0)) as (tl & Hrun & Hsum & Hocc & Hp); [done | |].
    { intros k c. rewrite bump_lookup. case_decide.
      - intros [= <-]. destruct (tl0 !! key) as [v|] eqn:Hv; simpl; [|lia].
        specialize (Hpos _ _ Hv). lia.
      - apply Hpos. }
    exists tl. split; [done |]. split; [| split; [| done]].
    + rewrite Hsum, bump_sum. lia.
    + intros k. rewrite Hocc, bump_lookup.
      destruct (decide (key = k)) as [->|Hne]; simpl.
      * destruct (tl0 !! k); simpl; lia.
      * lia.
Qed.

(** ** Timeline *)

(** C5: for the period WEEK a key appears whose week does not occur in the
    input.  The only commit of the input is of 2022-01-02 (UTC), the Sunday
    of ISO week 52 of 2021; the timeline is {"2022-W52": 1}.  The key names
    the week from 2022-12-26 to 2023-01-01, in which the input has no
    commit, and the week of the commit, "2021-W52", has no bucket.  A commit
    of 2022-12-31, which is of that later week, is counted in the same
    bucket.  Both copies of [_format_time_period] form the key. *)
Theorem week_bucket_names_another_week :
  Analytics.analyze_commit_history_timeline UTC
    (fun _ => Ok ["1641081600"]) WEEK None = Ok {[ "2022-W52" := 1 ]} /\
  iso_week_key UTC 1641081600 = Ok "2021-W52" /\
  Api.Analytics._format_time_period UTC 1641081600 "week" = Ok "2022-W52" /\
  Analytics.analyze_commit_history_timeline UTC
    (fun _ => Ok ["1641081600"; "1672444800"]) WEEK None
    = Ok {[ "2022-W52" := 2 ]} /\
  iso_week_key UTC 1672444800 = Ok "2022-W52".
Proof. repeat split; vm_compute; reflexivity. Qed.

(** C1: on 2021-01-01 (any instant of that local day) the week key is
    formed from the calendar year and the ISO week number, "2021-W53", in
    both copies of [_format_time_period]; the ISO week-numbering year of that
    day, which [isocalendar] also returns, is 2020. *)
Theorem week_key_2021_01_01 utcoffset t :
  1609459200 <= t + utcoffset t < 1609545600 ->
  Analytics._format_time_period utcoffset t WEEK = Ok "2021-W53" /\
  Api.Analytics._format_time_period utcoffset t "week" = Ok "2021-W53" /\
  (dt ← Datetime.fromtimestamp utcoffset t; Ok (fst (Datetime.isocalendar dt)))
    = Ok (2020, 53).
Proof.
  intros Hday.
  assert (Hdiv : (t + utcoffset t) / 86400 = 18628).
  { symmetry. apply (Z.div_unique _ _ _ (t + utcoffset t - 86400 * 18628)); lia. }
  unfold Analytics._format_time_period, Api.Analytics._format_time_period,
    Datetime.fromtimestamp.
  replace (Datetime.MIN_SECONDS <=? t + utcoffset t) with true
    by (symmetry; apply Z.leb_le; unfold Datetime.MIN_SECONDS; lia).
  replace (t + utcoffset t <=? Datetime.MAX_SECONDS) with true
    by (symmetry; apply Z.leb_le; unfold Datetime.MAX_SECONDS; lia).
  rewrite Hdiv. repeat split; reflexivity.
Qed.

Lemma week_key_2021_01_01_witness :
  Analytics._format_time_period UTC 1609459200 WEEK = Ok "2021-W53".
Proof.
  apply (week_key_2021_01_01 UTC 1609459200). unfold UTC. lia.
Defined.

(** ** Query window *)

(** C2, as stated, fails: with [since_date = 200 > until_date = 100] and a
    history query that finds no commit, [analyze_commit_history_timeline]
    issues the query, with both bounds among its arguments, and returns the
    empty timeline. *)
Lemma inverted_window_returns_empty_timeline :
  let options :=
    {| max_commits := None; skip_commits := None; include_merges := true;
       author_filter := None; path_filter := None;
       since_date := Some 200; until_date := Some 100 |} in
  Analytics.timeline_args options
    = ["log"; "--pretty=format:%at"; "--since"; "@200"; "--until"; "@100"] /\
  Analytics.analyze_commit_history_timeline UTC
    (fun args =>
       if decide (args = Analytics.timeline_args options)
       then Ok [] else Raise (RuntimeError "Git command failed"))
    DAY (Some options) = Ok ∅.
Proof. split; reflexivity. Qed.

(** C2, amended: a query window with [since > until] (both non-zero) is not
    validated.  [analyze_commit_history_timeline] issues its [git log] query
    with both bounds passed through as [--since @since --until @until]; a
    failure of the query is propagated, otherwise the result is the timeline
    of the lines the query prints, the empty mapping when it prints none. *)
Theorem window_bounds_passed_through utcoffset (git : git_runner) period
    options since until :
  since_date options = Some since ->
  until_date options = Some until ->
  since <> 0 -> until <> 0 -> until < since ->
  (exists before after,
     Analytics.timeline_args options =
       before ++ ["--since"; "@" +:+ PyStr.str since;
                  "--until"; "@" +:+ PyStr.str until] ++ after) /\
  (forall e, git (Analytics.timeline_args options) = Raise e ->
     Analytics.analyze_commit_history_timeline utcoffset git period (Some options)
       = Raise e) /\
  (forall lines, git (Analytics.timeline_args options) = Ok lines ->
     Analytics.analyze_commit_history_timeline utcoffset git period (Some options)
       = (timestamps ← parse_timestamps lines;
          Analytics.timeline_of_timestamps utcoffset period timestamps)) /\
  (git (Analytics.timeline_args options) = Ok [] ->
     Analytics.analyze_commit_history_timeline utcoffset git period (Some options)
       = Ok ∅).
Proof.
  intros Hs Hu Hs0 Hu0 _.
  split; [| split; [| split]].
  - unfold Analytics.timeline_args. rewrite Hs, Hu. unfold truthy_int.
    destruct (Z.eqb_spec since 0) as [|_]; [done |].
    destruct (Z.eqb_spec until 0) as [|_]; [done |].
    exists (["log"; "--pretty=format:%at"]
            ++ (if include_merges options then [] else ["--no-merges"])
            ++ opt_arg "--author" id (truthy_str (author_filter options))).
    exists (opt_arg "--max-count" PyStr.str (truthy_int (max_commits options))
            ++ opt_arg "--skip" PyStr.str (truthy_int (skip_commits options))
            ++ opt_arg "--" id (truthy_str (path_filter options))).
    rewrite <- !app_assoc. reflexivity.
  - intros e He. unfold Analytics.analyze_commit_history_timeline. simpl.
    by rewrite He.
  - intros lines Hl. unfold Analytics.analyze_commit_history_timeline. simpl.
    by rewrite Hl.
  - intros Hl. unfold Analytics.analyze_commit_history_timeline. simpl.
    by rewrite Hl.
Qed.

Lemma window_bounds_passed_through_witness :
  Analytics.analyze_commit_history_timeline UTC (fun _ => Ok []) DAY
    (Some {| max_commits := None; skip_commits := None; include_merges := true;
             author_filter := None; path_filter := None;
             since_date := Some 200; until_date := Some 100 |}) = Ok ∅.
Proof.
  refine (proj2 (proj2 (proj2
    (window_bounds_passed_through UTC (fun _ => Ok []) DAY
       {| max_commits := None; skip_commits := None; include_merges := true;
          author_filter := None; path_filter := None;
          since_date := Some 200; until_date := Some 100 |}
       200 100 _ _ _ _ _))) _); first [reflexivity | lia].
Defined.

(** ** File evolution *)

(** C3: on the stream git prints for two follow-commits of one file the
    parser does not return two entries.  At the second [diff --git] line it
    appends the entry of the first commit and takes that line as the hash of
    "the next commit"; the patch lines that follow are read as author, e-mail
    and timestamp, and [int("+++ b/x.py")] raises.  Both copies of
    [analyze_file_evolution] behave so; the stream of the newer commit alone
    gives its one entry. *)
Theorem evolution_of_two_commits_raises :
  let stream := render_stream [commit_newer; commit_older] in
  Analytics.analyze_file_evolution (fun _ => Ok stream) "x.py" None
    = Raise (ValueError "invalid literal for int() with base 10") /\
  Api.Analytics.analyze_file_evolution (fun _ => Ok stream) "x.py" None
    = Raise (ValueError "invalid literal for int() with base 10") /\
  length <$> (match FileEvolution.parse (render_stream [commit_newer]) with
              | Ok evolution => Some evolution
              | Raise _ => None
              end) = Some 1%nat.
Proof. repeat split; vm_compute; reflexivity. Qed.

(** ** Hotspots *)

(** C4: a tracked file under a [node_modules] directory at the repository
    root is returned as a hotspot by both copies of [analyze_hotspots]: its
    path does not contain the text "/node_modules/", which is what
    [is_source_file] looks for. *)
Theorem root_vendored_file_is_a_hotspot (hotspot_factor : Z -> Z -> Qc) :
  let entry := {| file_path := "node_modules/left-pad/index.js";
                  churn_factor := 1; complexity := 4 |} in
  Api.Analytics.analyze_hotspots hotspot_factor vendored_repo = Ok [entry] /\
  Analytics.analyze_hotspots hotspot_factor vendored_repo
    (Api.Repository.analyze_change_frequency vendored_repo None)
    (Api.Repository.list_tracked vendored_repo) = Ok [entry] /\
  Analytics.is_source_file "node_modules/left-pad/index.js" = true /\
  Api.Analytics.is_source_file "node_modules/left-pad/index.js" = true /\
  Analytics.is_source_file "lib/node_modules/left-pad/index.js" = false.
Proof. repeat split; vm_compute; reflexivity. Qed.

(** ** Knowledge map *)

(** C9: for the path "src.d/Makefile", a file without an extension, the two
    builders derive different language keys, "d/makefile" in [analytics.py]
    and "unknown" in [api.py], and so different per-language maps. *)
Theorem language_keys_differ :
  let ownership :=
    {| own_files := [("src.d/Makefile", [("alice", 12)])];
       own_directories := [("src.d", [("alice", 12)])] |} in
  Analytics.extension_of "src.d/Makefile" = "d/makefile" /\
  Api.Analytics.extension_of "src.d/Makefile" = "unknown" /\
  (em ← Analytics.analyze_knowledge_map (Ok ownership);
   Ok (languages <$> em !! "alice")) = Ok (Some {[ "d/makefile" := 12 ]}) /\
  languages <$> Api.Analytics.analyze_knowledge_map ownership !! "alice"
    = Some {[ "unknown" := 12 ]}.
Proof. repeat split; vm_compute; reflexivity. Qed.

(** ** Churn *)

Lemma touch_insert line commit (churn : gmap string Analytics.CodeChurn.churn_metrics) :
  Analytics.CodeChurn.touch line commit churn
  = <[line := touched commit (default untouched (churn !! line))]> churn.
Proof.
  unfold Analytics.CodeChurn.touch.
  destruct (churn !! line) as [m|] eqn:Hl.
  - by rewrite Hl.
  - rewrite lookup_insert_eq. simpl. by rewrite insert_insert_eq.
Qed.

Lemma touch_recorded_count line commit churn path :
  recorded_count (Analytics.CodeChurn.touch line commit churn) path
  = recorded_count churn path + (if decide (line = path) then 1 else 0).
Proof.
  unfold recorded_count. rewrite touch_insert, lookup_insert.
  destruct (decide (line = path)) as [->|]; [| lia].
  destruct (churn !! path); simpl; lia.
Qed.

Lemma touch_positive line commit (churn : gmap string Analytics.CodeChurn.churn_metrics) :
  (forall p m, churn !! p = Some m -> 1 <= Analytics.CodeChurn.change_count m) ->
  forall p m, Analytics.CodeChurn.touch line commit churn !! p = Some m ->
    1 <= Analytics.CodeChurn.change_count m.
Proof.
  intros Hpos p m. rewrite touch_insert, lookup_insert.
  destruct (decide (line = p)) as [->|]; [| apply Hpos].
  intros [= <-]. simpl.
  destruct (churn !! p) as [m0|] eqn:H0; simpl; [| lia].
  specialize (Hpos _ _ H0). lia.
Qed.

(** Once a commit line has been read, every later non-blank line is a
    touch by that same commit. *)
Lemma churn_steps_after_commit lines : forall churn commit,
  fold_left Analytics.CodeChurn.step lines (churn, Some commit)
  = (fold_left (fun ch l => Analytics.CodeChurn.touch l commit ch)
       (filter nonblank lines) churn, Some commit).
Proof.
  induction lines as [|line lines IH]; intros churn commit; [done |].
  destruct (decide (nonblank line)) as [Hb|Hb].
  - rewrite filter_cons_True by done. simpl.
    unfold nonblank in Hb. rewrite Hb. simpl. apply IH.
  - rewrite filter_cons_False by done. simpl.
    apply not_true_is_false in Hb. rewrite Hb. simpl. apply IH.
Qed.

Lemma churn_raw_unfold lines :
  Analytics.CodeChurn.raw lines =
  match filter nonblank lines with
  | [] => ∅
  | commit :: file_lines =>
      fold_left (fun ch l => Analytics.CodeChurn.touch l commit ch) file_lines ∅
  end.
Proof.
  unfold Analytics.CodeChurn.raw.
  induction lines as [|line lines IH]; [done |].
  destruct (decide (nonblank line)) as [Hb|Hb].
  - rewrite filter_cons_True by done. simpl.
    unfold nonblank in Hb. rewrite Hb. simpl.
    by rewrite churn_steps_after_commit.
  - rewrite filter_cons_False by done. simpl.
    apply not_true_is_false in Hb. rewrite Hb. simpl. apply IH.
Qed.

Lemma touches_recorded_count commit file_lines path : forall churn,
  recorded_count
    (fold_left (fun ch l => Analytics.CodeChurn.touch l commit ch) file_lines churn)
    path
  = recorded_count churn path
    + Z.of_nat (length (filter (fun l => l = path) file_lines)).
Proof.
  induction file_lines as [|l ls IH]; intros churn; simpl; [lia |].
  rewrite IH, touch_recorded_count, filter_cons.
  destruct (decide (l = path)); simpl; lia.
Qed.

Lemma touches_positive commit file_lines : forall (churn : gmap string Analytics.CodeChurn.churn_metrics),
  (forall p m, churn !! p = Some m -> 1 <= Analytics.CodeChurn.change_count m) ->
  forall p m,
    fold_left (fun ch l => Analytics.CodeChurn.touch l commit ch) file_lines churn !! p
      = Some m ->
    1 <= Analytics.CodeChurn.change_count m.
Proof.
  induction file_lines as [|l ls IH]; intros churn Hpos; simpl; [done |].
  apply IH. by apply touch_positive.
Qed.

(** The raw pass: the count recorded for a path is the number of lines
    equal to it among the non-blank lines after the first; a path with no
    such line is no key. *)
Lemma churn_raw_count lines path :
  Analytics.CodeChurn.change_count <$> Analytics.CodeChurn.raw lines !! path
  = let n := Z.of_nat (length (filter (fun l => l = path)
                                 (tail (filter nonblank lines)))) in
    if decide (n = 0) then None else Some n.
Proof.
  rewrite churn_raw_unfold.
  destruct (filter nonblank lines) as [|commit file_lines]; simpl.
  { by rewrite lookup_empty. }
  pose proof (touches_recorded_count commit file_lines path ∅) as Hc.
  pose proof (touches_positive commit file_lines ∅) as Hp.
  unfold recorded_count in Hc. rewrite lookup_empty in Hc. simpl in Hc.
  destruct (fold_left _ file_lines ∅ !! path) as [m|] eqn:Hm; simpl in *.
  - assert (1 <= Analytics.CodeChurn.change_count m).
    { eapply Hp; [| done]. intros p m0. by rewrite lookup_empty. }
    rewrite decide_False by lia. f_equal. lia.
  - rewrite decide_True by lia. done.
Qed.

Lemma same_raw_fields_refl churn : same_raw_fields churn churn.
Proof. intros p. by destruct (churn !! p). Qed.

Lemma merge_entry_same_raw_fields churn0 churn entry :
  same_raw_fields churn0 churn ->
  same_raw_fields churn0 (Analytics.CodeChurn.merge_entry churn entry).
Proof.
  intros H p. specialize (H p). unfold Analytics.CodeChurn.merge_entry.
  destruct (churn !! Api.path entry) as [m|] eqn:He; [| done].
  rewrite lookup_insert.
  destruct (decide (Api.path entry = p)) as [<-|]; [| done].
  rewrite He in H. by destruct (churn0 !! Api.path entry).
Qed.

Lemma merge_same_raw_fields frequency_data : forall churn0 churn,
  same_raw_fields churn0 churn ->
  same_raw_fields churn0 (Analytics.CodeChurn.merge frequency_data churn).
Proof.
  unfold Analytics.CodeChurn.merge.
  induction frequency_data as [|entry rest IH]; intros churn0 churn H; [done |].
  simpl. apply IH. by apply merge_entry_same_raw_fields.
Qed.

Lemma same_raw_fields_dom churn churn' :
  same_raw_fields churn churn' -> dom churn' = dom churn.
Proof.
  intros H. apply set_eq. intros p. rewrite !elem_of_dom.
  specialize (H p).
  destruct (churn !! p), (churn' !! p); try done;
    split; eauto; by intros [? ?].
Qed.

(** The merge pass is a frame for the raw pass: whatever the frequency data,
    the mapping returned by [analyze_code_churn] has the keys of the raw pass
    and, at each key, its [change_count] and [commits]. *)
Lemma merge_pass_frame (git : git_runner) frequency_data options lines :
  git (Analytics.churn_args (default default_options options)) = Ok lines ->
  exists churn,
    Analytics.analyze_code_churn git (Ok frequency_data) options = Ok churn /\
    same_raw_fields (Analytics.CodeChurn.raw lines) churn /\
    dom churn = dom (Analytics.CodeChurn.raw lines).
Proof.
  intros Hgit. eexists. split; [| split].
  - unfold Analytics.analyze_code_churn. rewrite Hgit. reflexivity.
  - apply merge_same_raw_fields, same_raw_fields_refl.
  - apply same_raw_fields_dom, merge_same_raw_fields, same_raw_fields_refl.
Qed.

(** C10: for the log of two commits, the first touching a.py and the second
    b.py, the keys of the mapping returned by [analyze_code_churn] are a.py,
    b.py and the hash line of the second commit, whatever the frequency data:
    [current_commit] is set once and every later non-blank line is recorded
    as a file path.  The hash is no path of any commit. *)
Theorem churn_keys_include_commit_lines frequency_data :
  let events := [("41b7a03", ["a.py"]); ("9f2c1e7", ["b.py"])] in
  exists churn,
    Analytics.analyze_code_churn (fun _ => Ok (render_events events))
      (Ok frequency_data) None = Ok churn /\
    dom churn = {[ "a.py"; "b.py"; "9f2c1e7" ]} /\
    "9f2c1e7" ∉ concat (map snd events).
Proof.
  intros events.
  destruct (merge_pass_frame (fun _ => Ok (render_events events))
              frequency_data None (render_events events) eq_refl)
    as (churn & Hrun & _ & Hdom).
  exists churn. split; [exact Hrun |]. split.
  - rewrite Hdom. vm_compute. reflexivity.
  - vm_compute. intros H. repeat (inversion H as [|? ? ? H']; clear H; rename H' into H).
Qed.

(** *** The log of a list of events *)

Lemma nonblank_empty : ~ nonblank EmptyString.
Proof. unfold nonblank. simpl. discriminate. Qed.

Lemma render_events_nonblank events :
  filter nonblank (render_events events)
  = filter nonblank (concat (map (fun e => fst e :: snd e) events)).
Proof.
  induction events as [|[hash paths] rest IH]; [done |].
  destruct rest as [|e rest].
  - simpl. by rewrite app_nil_r.
  - change (render_events ((hash, paths) :: e :: rest))
      with ((hash :: paths) ++ [EmptyString] ++ render_events (e :: rest)).
    change (concat (map (fun e => fst e :: snd e) ((hash, paths) :: e :: rest)))
      with ((hash :: paths) ++ concat (map (fun e => fst e :: snd e) (e :: rest))).
    rewrite !filter_app, IH.
    rewrite (filter_cons_False nonblank EmptyString []) by apply nonblank_empty.
    done.
Qed.

Lemma filter_eq_nonblank path (l : list string) :
  nonblank path ->
  filter (fun x => x = path) (filter nonblank l) = filter (fun x => x = path) l.
Proof.
  intros Hp. induction l as [|x l IH]; [done |].
  destruct (decide (nonblank x)) as [Hx|Hx].
  - rewrite (filter_cons_True nonblank) by done.
    rewrite !filter_cons. by rewrite IH.
  - rewrite (filter_cons_False nonblank) by done.
    rewrite (filter_cons_False (fun x => x = path)); [done |].
    intros ->. done.
Qed.

Lemma filter_eq_paths path (events : list (string * list string)) :
  path ∉ map fst events ->
  filter (fun x => x = path) (concat (map (fun e => fst e :: snd e) events))
  = filter (fun x => x = path) (concat (map snd events)).
Proof.
  induction events as [|[hash paths] rest IH]; intros Hp; [done |].
  simpl in *. apply not_elem_of_cons in Hp as [Hne Hrest].
  rewrite filter_cons_False by (intros ->; done).
  rewrite !filter_app. by rewrite IH.
Qed.

(** The lines that the raw pass counts for a path that is no commit hash
    are its occurrences in the path lists of the events. *)
Lemma event_file_lines path (events : list (string * list string)) :
  Forall (fun e => nonblank (fst e)) events ->
  nonblank path ->
  path ∉ map fst events ->
  filter (fun x => x = path) (tail (filter nonblank (render_events events)))
  = filter (fun x => x = path) (concat (map snd events)).
Proof.
  intros Hh Hp Hnot.
  rewrite render_events_nonblank.
  destruct events as [|[hash paths] rest]; [done |].
  inversion Hh as [|? ? Hhash Hrest]; subst. simpl in Hhash.
  simpl concat at 1. simpl in Hnot.
  apply not_elem_of_cons in Hnot as [Hne Hnot].
  rewrite (filter_cons_True nonblank) by done. simpl tail.
  rewrite filter_eq_nonblank by done.
  simpl. rewrite !filter_app. by rewrite filter_eq_paths.
Qed.

Lemma filter_eq_NoDup path (l : list string) :
  NoDup l ->
  length (filter (fun x => x = path) l) = if decide (path ∈ l) then 1%nat else 0%nat.
Proof.
  induction 1 as [|x l Hx Hnd IH]; [done |].
  rewrite filter_cons. destruct (decide (x = path)) as [->|Hne].
  - rewrite decide_True by (by left). simpl.
    rewrite IH, decide_False by done. done.
  - rewrite IH. destruct (decide (path ∈ l)) as [Hin|Hin].
    + rewrite decide_True by (by right). done.
    + rewrite decide_False; [done |].
      intros [->|?]%elem_of_cons; done.
Qed.

Lemma touches_of_duplicate_free_events path (events : list (string * list string)) :
  Forall (fun e => NoDup (snd e)) events ->
  length (filter (fun x => x = path) (concat (map snd events)))
  = length (filter (fun e => path ∈ snd e) events).
Proof.
  induction 1 as [|[hash paths] rest Hnd Hrest IH]; [done |].
  simpl in *. rewrite filter_app, length_app, IH, filter_eq_NoDup by done.
  rewrite filter_cons. simpl. by destruct (decide (path ∈ paths)).
Qed.

Lemma NoDup_map_fst_filter (P : string * list string -> Prop)
    `{!forall e, Decision (P e)} (events : list (string * list string)) :
  NoDup (map fst events) -> NoDup (map fst (filter P events)).
Proof.
  induction events as [|e rest IH]; [done |].
  simpl. intros [Hnot Hnd]%NoDup_cons.
  rewrite filter_cons. destruct (decide (P e)); [| by apply IH].
  simpl. apply NoDup_cons. split; [| by apply IH].
  intros Hin. apply Hnot.
  apply list_elem_of_fmap in Hin as (e' & -> & Hin).
  apply list_elem_of_fmap. exists e'. split; [done |].
  by apply list_elem_of_filter in Hin as [_ ?].
Qed.

Lemma commits_touching_size path (events : list (string * list string)) :
  NoDup (map fst events) ->
  size (commits_touching path events)
  = length (filter (fun e => path ∈ snd e) events).
Proof.
  intros Hnd. unfold commits_touching.
  rewrite size_list_to_set by by apply NoDup_map_fst_filter.
  by rewrite length_map.
Qed.

(** C6, as stated, fails: when the event of one commit lists a.py twice,
    the recorded [change_count] of a.py is 2, while a.py appears in one
    commit. *)
Lemma repeated_path_is_counted_twice :
  let events := [("41b7a03", ["a.py"; "a.py"])] in
  (churn ← Analytics.analyze_code_churn (fun _ => Ok (render_events events))
             (Ok []) None;
   Ok (Analytics.CodeChurn.change_count <$> churn !! "a.py")) = Ok (Some 2) /\
  size (commits_touching "a.py" events) = 1%nat.
Proof. split; vm_compute; reflexivity. Qed.

(** C6, amended: for the log of a list of events (commit hash and touched
    paths, hashes not blank) and a path that is not blank and is no commit
    hash of the log, the [change_count] that [analyze_code_churn] records is
    the number of lines of the events equal to the path, one per listing (the
    path is no key when there is none); when no event lists a path twice and
    the hashes are distinct, this is the number of distinct commits in which
    the path appears. *)
Theorem change_count_counts_listings (git : git_runner) frequency_data options
    (events : list (string * list string)) path :
  git (Analytics.churn_args (default default_options options))
    = Ok (render_events events) ->
  Forall (fun e => nonblank (fst e)) events ->
  nonblank path ->
  path ∉ map fst events ->
  exists churn,
    Analytics.analyze_code_churn git (Ok frequency_data) options = Ok churn /\
    Analytics.CodeChurn.change_count <$> churn !! path
      = (if decide (total_touches path events = 0) then None
         else Some (total_touches path events)) /\
    (Forall (fun e => NoDup (snd e)) events -> NoDup (map fst events) ->
     total_touches path events = Z.of_nat (size (commits_touching path events))).
Proof.
  intros Hgit Hh Hp Hnot.
  destruct (merge_pass_frame git frequency_data options _ Hgit)
    as (churn & Hrun & Hsame & _).
  exists churn. split; [exact Hrun |]. split.
  - pose proof (churn_raw_count (render_events events) path) as Hraw.
    rewrite event_file_lines in Hraw by done.
    fold (total_touches path events) in Hraw. simpl in Hraw.
    rewrite <- Hraw. specialize (Hsame path).
    destruct (Analytics.CodeChurn.raw (render_events events) !! path),
      (churn !! path); simpl; try done.
    destruct Hsame as [-> _]. done.
  - intros Hnd Hhashes. unfold total_touches.
    by rewrite touches_of_duplicate_free_events, commits_touching_size.
Qed.

Lemma change_count_counts_listings_witness :
  let events := [("41b7a03", ["a.py"; "b.py"]); ("9f2c1e7", ["a.py"])] in
  exists churn,
    Analytics.analyze_code_churn (fun _ => Ok (render_events events)) (Ok []) None
      = Ok churn /\
    Analytics.CodeChurn.change_count <$> churn !! "a.py" = Some 2.
Proof.
  intros events.
  destruct (change_count_counts_listings (fun _ => Ok (render_events events))
              [] None events "a.py")
    as (churn & Hrun & Hcount & _).
  - reflexivity.
  - repeat constructor.
  - reflexivity.
  - apply (bool_decide_unpack _). vm_compute. exact I.
  - exists churn. split; [exact Hrun | exact Hcount].
Defined.

(** ** Knowledge map: contribution shares *)

Lemma sum_total_lines_insert_fresh (m : gmap string AuthorExpertise) k e :
  m !! k = None ->
  KnowledgeMap.sum_total_lines (<[k := e]> m)
  = total_lines e + KnowledgeMap.sum_total_lines m.
Proof.
  intros Hk. unfold KnowledgeMap.sum_total_lines.
  apply (map_fold_insert_L (fun _ x acc => total_lines x + acc));
    [intros; lia | done].
Qed.

Lemma sum_total_lines_insert_present (m : gmap string AuthorExpertise) k e0 e :
  m !! k = Some e0 ->
  KnowledgeMap.sum_total_lines (<[k := e]> m)
  = KnowledgeMap.sum_total_lines m - total_lines e0 + total_lines e.
Proof.
  intros Hk. rewrite <- (insert_delete_eq m k e).
  rewrite sum_total_lines_insert_fresh by apply lookup_delete_eq.
  unfold KnowledgeMap.sum_total_lines at 2.
  rewrite (map_fold_delete_L (fun _ x acc => total_lines x + acc) 0 k e0 m);
    [| intros; lia | done].
  fold (KnowledgeMap.sum_total_lines (delete k m)). lia.
Qed.

Lemma add_file_total path extension em item :
  KnowledgeMap.sum_total_lines (KnowledgeMap.add_file path extension em item)
  = KnowledgeMap.sum_total_lines em + snd item.
Proof.
  destruct item as [author n]. unfold KnowledgeMap.add_file. simpl.
  destruct (em !! author) as [e|] eqn:He.
  - rewrite He. rewrite (sum_total_lines_insert_present em author e) by done.
    simpl. lia.
  - rewrite lookup_insert_eq.
    rewrite (sum_total_lines_insert_present _ author KnowledgeMap.fresh)
      by apply lookup_insert_eq.
    rewrite sum_total_lines_insert_fresh by done. simpl. lia.
Qed.

Lemma add_directory_total dir_path em item :
  KnowledgeMap.sum_total_lines (KnowledgeMap.add_directory dir_path em item)
  = KnowledgeMap.sum_total_lines em.
Proof.
  destruct item as [author n]. unfold KnowledgeMap.add_directory.
  destruct (em !! author) as [e|] eqn:He; [| done].
  rewrite (sum_total_lines_insert_present em author e) by done. simpl. lia.
Qed.

Lemma file_pass_total extension_of items : forall em,
  KnowledgeMap.sum_total_lines (KnowledgeMap.file_pass extension_of items em)
  = KnowledgeMap.sum_total_lines em
    + foldr Z.add 0 (map snd (concat (map snd items))).
Proof.
  unfold KnowledgeMap.file_pass.
  induction items as [|[path authors] items IH]; intros em; simpl; [lia |].
  rewrite IH, map_app, foldr_app.
  assert (Hin : forall authors em acc,
    KnowledgeMap.sum_total_lines
      (fold_left (KnowledgeMap.add_file path (extension_of path)) authors em) + acc
    = KnowledgeMap.sum_total_lines em + foldr Z.add acc (map snd authors)).
  { clear. induction authors as [|item authors IH]; intros em acc; simpl; [lia |].
    specialize (IH (KnowledgeMap.add_file path (extension_of path) em item) acc).
    rewrite add_file_total in IH. lia. }
  apply Hin.
Qed.

Lemma directory_pass_total items : forall em,
  KnowledgeMap.sum_total_lines (KnowledgeMap.directory_pass items em)
  = KnowledgeMap.sum_total_lines em.
Proof.
  unfold KnowledgeMap.directory_pass.
  induction items as [|[dir_path authors] items IH]; intros em; simpl; [done |].
  rewrite IH. clear.
  revert em. induction authors as [|item authors IH]; intros em; simpl; [done |].
  by rewrite IH, add_directory_total.
Qed.

Lemma set_contribution_total t em :
  KnowledgeMap.sum_total_lines (KnowledgeMap.set_contribution t <$> em)
  = KnowledgeMap.sum_total_lines em.
Proof. unfold KnowledgeMap.sum_total_lines. by rewrite map_fold_fmap. Qed.

Lemma contribution_positive t e :
  0 < t ->
  KnowledgeMap.contribution t e
  = (Qc_of_Z (total_lines e) / Qc_of_Z t * Qc_of_Z 100)%Qc.
Proof.
  intros Ht. unfold KnowledgeMap.contribution.
  by rewrite (proj2 (Z.ltb_lt 0 t) Ht).
Qed.

Lemma contribution_zero t e : t <= 0 -> KnowledgeMap.contribution t e = 0%Qc.
Proof.
  intros Ht. unfold KnowledgeMap.contribution.
  by rewrite (proj2 (Z.ltb_ge 0 t) Ht).
Qed.

Lemma sum_contributions_shares t em :
  0 < t ->
  sum_contributions (KnowledgeMap.set_contribution t <$> em)
  = (Qc_of_Z (KnowledgeMap.sum_total_lines em) / Qc_of_Z t * Qc_of_Z 100)%Qc.
Proof.
  intros Ht. unfold sum_contributions. rewrite map_fold_fmap.
  induction em as [|author e em Hfresh IH] using map_ind.
  - unfold KnowledgeMap.sum_total_lines. rewrite !map_fold_empty.
    rewrite Z2Qc_inj_0. unfold Qcdiv. ring.
  - rewrite map_fold_insert_L; [| intros; simpl; ring | done].
    rewrite IH, sum_total_lines_insert_fresh by done.
    simpl. rewrite contribution_positive by done.
    rewrite Z2Qc_inj_add. unfold Qcdiv. ring.
Qed.

(** The shares computed by the builder are exact, for any way of deriving
    the language key, and the total they refer to is the number of lines the
    per-file ownership attributes. *)
Lemma build_exact_shares extension_of ownership :
  KnowledgeMap.sum_total_lines (KnowledgeMap.build extension_of ownership)
    = attributed_lines ownership /\
  exact_shares (KnowledgeMap.build extension_of ownership).
Proof.
  unfold exact_shares, KnowledgeMap.build.
  set (em := KnowledgeMap.directory_pass _ _).
  rewrite set_contribution_total.
  assert (Htot : KnowledgeMap.sum_total_lines em = attributed_lines ownership).
  { unfold em. rewrite directory_pass_total, file_pass_total.
    unfold KnowledgeMap.sum_total_lines at 1. rewrite map_fold_empty.
    unfold attributed_lines. lia. }
  split; [exact Htot |]. simpl. split.
  - intros Hpos. split.
    + intros author e. rewrite lookup_fmap.
      destruct (em !! author) as [e0|]; [| done].
      intros [= <-]. simpl. rewrite contribution_positive by done.
      unfold Qcdiv. ring.
    + rewrite sum_contributions_shares by done.
      assert (Hne : Qc_of_Z (KnowledgeMap.sum_total_lines em) <> 0%Qc).
      { rewrite <- Z2Qc_inj_0. intros H%Z2Qc_inj. lia. }
      unfold Qcdiv. rewrite Qcmult_inv_r by done. ring.
  - intros Hzero author e. rewrite lookup_fmap.
    destruct (em !! author) as [e0|]; [| done].
    intros [= <-]. simpl. apply contribution_zero. lia.
Qed.

(** C8: for every ownership input, in both builders, the sum of
    [total_lines] across the authors is the number of attributed lines; when
    it is positive each author's [repository_contribution] is, in exact
    arithmetic, [100 * total_lines / total] and the contributions sum to 100;
    when it is 0 every contribution is 0. *)
Theorem contributions_are_exact_shares ownership :
  (KnowledgeMap.sum_total_lines (Api.Analytics.analyze_knowledge_map ownership)
     = attributed_lines ownership /\
   exact_shares (Api.Analytics.analyze_knowledge_map ownership)) /\
  (exists expertise_map,
     Analytics.analyze_knowledge_map (Ok ownership) = Ok expertise_map /\
     KnowledgeMap.sum_total_lines expertise_map = attributed_lines ownership /\
     exact_shares expertise_map).
Proof.
  split.
  - apply build_exact_shares.
  - eexists. split; [reflexivity |]. apply build_exact_shares.
Qed.

Lemma contributions_are_exact_shares_witness :
  sum_contributions
    (Api.Analytics.analyze_knowledge_map
       {| own_files := [("src/a.py", [("alice", 30); ("bob", 10)]);
                        ("README", [("alice", 5)])];
          own_directories := [("src", [("alice", 30); ("bob", 10)]);
                              (EmptyString, [("alice", 5)])] |})
  = Qc_of_Z 100.
Proof.
  destruct (contributions_are_exact_shares
              {| own_files := [("src/a.py", [("alice", 30); ("bob", 10)]);
                               ("README", [("alice", 5)])];
                 own_directories := [("src", [("alice", 30); ("bob", 10)]);
                                     (EmptyString, [("alice", 5)])] |})
    as [[Htotal [Hpos _]] _].
  apply Hpos. rewrite Htotal. vm_compute. reflexivity.
Defined.

(** ** Insertion-ordered dictionaries *)

Section PyDictFacts.

Context {V : Type}.
Implicit Types (d : list (string * V)) (k : string) (v : V).

Lemma pydict_get_set_eq k v d : PyDict.get k (PyDict.set k v d) = Some v.
Proof.
  induction d as [|[k' v'] d IH]; simpl.
  - by rewrite String.eqb_refl.
  - destruct (String.eqb k k') eqn:E; simpl; rewrite E; [done | exact IH].
Qed.

Lemma pydict_get_set_ne k k' v d :
  k <> k' -> PyDict.get k' (PyDict.set k v d) = PyDict.get k' d.
Proof.
  intros Hne. induction d as [|[k0 v0] d IH]; simpl.
  - by rewrite (proj2 (String.eqb_neq k' k)).
  - destruct (String.eqb k k0) eqn:E; simpl.
    + apply String.eqb_eq in E as ->.
      by rewrite (proj2 (String.eqb_neq k' k0)).
    + by rewrite IH.
Qed.

Lemma pydict_get_None k d : PyDict.get k d = None <-> k ∉ PyDict.keys d.
Proof.
  induction d as [|[k' v'] d IH]; simpl.
  - split; [intros _; apply not_elem_of_nil | done].
  - destruct (String.eqb_spec k k') as [->|Hne].
    + split; [done |]. intros H. exfalso. apply H. by left.
    + rewrite IH. rewrite not_elem_of_cons. tauto.
Qed.



End PyDictFacts.




(** ** Per-author counters *)











(** ** The search for the primary owner *)



Lemma insert_desc_elem {A : Type} (key : A -> Z) (x y : A) l :
  y ∈ Api.insert_desc key x l <-> y = x \/ y ∈ l.
Proof.
  induction l as [|z l IH]; simpl.
  - rewrite list_elem_of_singleton. split; [by left | intros [?|H]; [done |]].
    by apply elem_of_nil in H.
  - destruct (key x <? key z).
    + rewrite !elem_of_cons, IH. tauto.
    + rewrite !elem_of_cons. tauto.
Qed.


(** ** The change-frequency parser *)





(** C7: git prints no blank line after a commit that lists no path, and
    the parser ends a commit at a blank line only.  On the log of a history
    in which carol merges a branch, the lines of the next commit are read as
    paths of the merge: [analyze_change_frequency] returns entries for the
    lines "bob" and "1700000200", and names carol the primary owner of a.py
    and the first of its authors, though the commits that list a.py are
    bob's and alice's, once each, and no commit of carol lists it. *)
Theorem merge_author_is_named_owner :
  render_log merge_history
    = ["carol"; "1700000300"; "bob"; "1700000200"; "a.py"; EmptyString;
       "alice"; "1700000100"; "a.py"] /\
  Api.Repository.analyze_change_frequency merge_repo None
    = Ok [ {| Api.path := "a.py"; Api.change_count := 2;
              Api.last_modified := 1700000300;
              Api.authors := ["carol"; "alice"];
              Api.primary_owner := Some "carol" |};
           {| Api.path := "bob"; Api.change_count := 1;
              Api.last_modified := 1700000300;
              Api.authors := ["carol"];
              Api.primary_owner := Some "carol" |};
           {| Api.path := "1700000200"; Api.change_count := 1;
              Api.last_modified := 1700000300;
              Api.authors := ["carol"];
              Api.primary_owner := Some "carol" |} ] /\
  touchers "a.py" (log_touches merge_history) = ["bob"; "alice"] /\
  touch_count "carol" (touchers "a.py" (log_touches merge_history)) = 0.
Proof. repeat split; vm_compute; reflexivity. Qed.


(** * Further properties of the modelled code *)

(** ** Sorting *)

Lemma insert_desc_sorted {A : Type} (key : A -> Z) (x : A) l :
  sorted_desc key l -> sorted_desc key (Api.insert_desc key x l).
Proof.
  induction l as [|y l IH]; simpl.
  - intros _. split; [constructor | done].
  - intros [Hy Hl]. destruct (Z.ltb_spec (key x) (key y)) as [Hlt|Hge]; simpl.
    + split; [| by apply IH].
      apply Forall_forall. intros z Hz.
      apply insert_desc_elem in Hz as [->|Hz]; [lia |].
      by apply (proj1 (Forall_forall _ _) Hy).
    + split; [| by split].
      constructor; [exact Hge |].
      eapply Forall_impl; [exact Hy |]. simpl. intros; lia.
Qed.

Lemma sort_desc_sorted {A : Type} (key : A -> Z) (l : list A) :
  sorted_desc key (Api.sort_desc key l).
Proof.
  unfold Api.sort_desc. induction l as [|x l IH]; simpl; [done |].
  by apply insert_desc_sorted.
Qed.

Lemma sorted_desc_descending {A : Type} (key : A -> Z) (l : list A) :
  sorted_desc key l -> descending key l.
Proof.
  induction l as [|x s IH]; intros Hs i j a b Hij Hi Hj.
  - by rewrite lookup_nil in Hi.
  - destruct Hs as [Hx Hs].
    destruct j as [|j]; [lia |]. simpl in Hj.
    destruct i as [|i]; simpl in Hi.
    + injection Hi as <-.
      apply (proj1 (Forall_forall _ _) Hx). by eapply list_elem_of_lookup_2.
    + apply (IH Hs i j); [lia | done | done].
Qed.

Lemma sort_desc_descending {A : Type} (key : A -> Z) (l : list A) :
  descending key (Api.sort_desc key l).
Proof. apply sorted_desc_descending, sort_desc_sorted. Qed.

Lemma insert_desc_float_elem {A : Type} (key : A -> Qc) (x y : A) l :
  y ∈ Api.insert_desc_float key x l <-> y = x \/ y ∈ l.
Proof.
  induction l as [|z l IH]; simpl.
  - rewrite list_elem_of_singleton. split; [by left | intros [?|H]; [done |]].
    by apply elem_of_nil in H.
  - destruct (Qccompare (key x) (key z)); rewrite !elem_of_cons, ?IH; tauto.
Qed.

Lemma sort_desc_float_elem {A : Type} (key : A -> Qc) (y : A) l :
  y ∈ Api.sort_desc_float key l <-> y ∈ l.
Proof.
  unfold Api.sort_desc_float. induction l as [|x l IH]; simpl; [done |].
  by rewrite insert_desc_float_elem, IH, elem_of_cons.
Qed.

Lemma Qccompare_not_Lt (a b : Qc) : Qccompare a b <> Lt -> (b <= a)%Qc.
Proof. intros H. apply Qcnot_lt_le. intros Hlt. by apply H. Qed.

Lemma insert_desc_float_sorted {A : Type} (key : A -> Qc) (x : A) l :
  sorted_desc_float key l ->
  sorted_desc_float key (Api.insert_desc_float key x l).
Proof.
  induction l as [|y l IH]; simpl.
  - intros _. split; [constructor | done].
  - intros [Hy Hl].
    destruct (Qccompare (key x) (key y)) eqn:Hcmp; simpl.
    + assert (Hge : (key y <= key x)%Qc)
        by (apply Qccompare_not_Lt; congruence).
      split; [| by split]. constructor; [exact Hge |].
      eapply Forall_impl; [exact Hy |]. simpl. intros z Hz.
      by apply Qcle_trans with (key y).
    + assert (Hlt : (key x < key y)%Qc) by exact Hcmp.
      split; [| by apply IH].
      apply Forall_forall. intros z Hz.
      apply insert_desc_float_elem in Hz as [->|Hz];
        [by apply Qclt_le_weak |].
      by apply (proj1 (Forall_forall _ _) Hy).
    + assert (Hge : (key y <= key x)%Qc)
        by (apply Qccompare_not_Lt; congruence).
      split; [| by split]. constructor; [exact Hge |].
      eapply Forall_impl; [exact Hy |]. simpl. intros z Hz.
      by apply Qcle_trans with (key y).
Qed.

Lemma sort_desc_float_sorted {A : Type} (key : A -> Qc) (l : list A) :
  sorted_desc_float key (Api.sort_desc_float key l).
Proof.
  unfold Api.sort_desc_float. induction l as [|x l IH]; simpl; [done |].
  by apply insert_desc_float_sorted.
Qed.

Lemma sorted_desc_float_descending {A : Type} (key : A -> Qc) (l : list A) :
  sorted_desc_float key l -> descending_float key l.
Proof.
  induction l as [|x s IH]; intros Hs i j a b Hij Hi Hj.
  - by rewrite lookup_nil in Hi.
  - destruct Hs as [Hx Hs].
    destruct j as [|j]; [lia |]. simpl in Hj.
    destruct i as [|i]; simpl in Hi.
    + injection Hi as <-.
      apply (proj1 (Forall_forall _ _) Hx). by eapply list_elem_of_lookup_2.
    + apply (IH Hs i j); [lia | done | done].
Qed.

Lemma sort_desc_float_descending {A : Type} (key : A -> Qc) (l : list A) :
  descending_float key (Api.sort_desc_float key l).
Proof. apply sorted_desc_float_descending, sort_desc_float_sorted. Qed.



(** ** Hotspots *)

Lemma hotspot_of_same : Analytics.hotspot_of = Api.Analytics.hotspot_of.
Proof. reflexivity. Qed.

Lemma hotspot_of_Some (git : git_runner) frequency_data p e :
  Api.Analytics.hotspot_of git frequency_data p = Some e ->
  file_path e = p /\ 0 < churn_factor e /\ 0 < complexity e /\
  exists f content,
    List.find (fun f => String.eqb (Api.path f) p) frequency_data = Some f /\
    churn_factor e = Api.change_count f /\
    git ["show"; "HEAD:" +:+ p] = Ok content /\
    complexity e = Z.of_nat (length content).
Proof.
  unfold Api.Analytics.hotspot_of.
  destruct (List.find _ frequency_data) as [f|] eqn:Hf; [| done].
  destruct (git ["show"; "HEAD:" +:+ p]) as [content|err] eqn:Hshow.
  - destruct (hotspot_factor_positive _ _) eqn:Hpos; [| done].
    intros [= <-]. simpl.
    apply andb_prop in Hpos as [?%Z.ltb_lt ?%Z.ltb_lt].
    repeat split; try done. by exists f, content.
  - unfold hotspot_factor_positive. simpl. by rewrite andb_false_r.
Qed.

Lemma hotspots_elem (key : HotspotEntry -> Qc) (git : git_runner)
    (keep : string -> bool) frequency_data tracked_files e :
  e ∈ Api.sort_desc_float key
        (omap (Api.Analytics.hotspot_of git frequency_data)
           (List.filter keep tracked_files)) ->
  file_path e ∈ tracked_files /\ keep (file_path e) = true /\
  Api.Analytics.hotspot_of git frequency_data (file_path e) = Some e.
Proof.
  intros He. apply sort_desc_float_elem in He.
  apply list_elem_of_omap in He as (p & Hp & Hsome).
  apply list_elem_of_In, filter_In in Hp as [Hp Hkeep].
  apply list_elem_of_In in Hp.
  pose proof (hotspot_of_Some _ _ _ _ Hsome) as [<- _]. done.
Qed.

(** X1: every entry returned by [analyze_hotspots] ([analytics.py]) is for a
    tracked path that [is_source_file] accepts and that has an entry in the
    frequency data; its [churn_factor] is the [change_count] of the first
    such entry and is positive, and its [complexity] is the positive number
    of lines that [git show HEAD:path] printed.  In particular a file whose
    content cannot be read, or is empty, is left out. *)
Theorem hotspot_entries_are_read_tracked_sources
    (hotspot_factor : Z -> Z -> Qc) (git : git_runner)
    frequency_data tracked_files hotspots e :
  Analytics.analyze_hotspots hotspot_factor git (Ok frequency_data)
    (Ok tracked_files) = Ok hotspots ->
  e ∈ hotspots ->
  file_path e ∈ tracked_files /\
  Analytics.is_source_file (file_path e) = true /\
  0 < churn_factor e /\ 0 < complexity e /\
  exists f content,
    List.find (fun f => String.eqb (Api.path f) (file_path e)) frequency_data
      = Some f /\
    churn_factor e = Api.change_count f /\
    git ["show"; "HEAD:" +:+ file_path e] = Ok content /\
    complexity e = Z.of_nat (length content).
Proof.
  unfold Analytics.analyze_hotspots. simpl. intros [= <-] He.
  rewrite hotspot_of_same in He.
  apply hotspots_elem in He as (Htracked & Hkeep & Hsome).
  apply hotspot_of_Some in Hsome as (_ & Hc & Hx & Hex).
  done.
Qed.

Lemma hotspot_entries_are_read_tracked_sources_witness :
  Analytics.is_source_file (file_path app_hotspot) = true /\
  0 < complexity app_hotspot.
Proof.
  destruct (hotspot_entries_are_read_tracked_sources close_factor app_content
              app_frequency ["src/app.py"; "README"] [app_hotspot] app_hotspot)
    as (_ & Hsrc & _ & Hc & _).
  - vm_compute. reflexivity.
  - left.
  - split; [exact Hsrc | exact Hc].
Defined.

Lemma is_source_file_vendored path :
  PyStr.contains "/node_modules/" path = true \/
  PyStr.contains "/vendor/" path = true ->
  Analytics.is_source_file path = false /\
  Api.Analytics.is_source_file path = false.
Proof.
  unfold Analytics.is_source_file, Api.Analytics.is_source_file.
  intros [-> | ->]; simpl; by rewrite ?andb_false_r.
Qed.

(** X2: a path that contains the text "/node_modules/" or "/vendor/" is
    never the path of an entry returned by [analyze_hotspots], in either
    copy, whatever its extension and whatever the repository answers. *)
Theorem nested_vendored_paths_are_no_hotspots (hotspot_factor : Z -> Z -> Qc)
    (git : git_runner) frequency_data tracked_files e :
  PyStr.contains "/node_modules/" (file_path e) = true \/
  PyStr.contains "/vendor/" (file_path e) = true ->
  (forall hotspots,
     Analytics.analyze_hotspots hotspot_factor git (Ok frequency_data)
       (Ok tracked_files) = Ok hotspots -> e ∉ hotspots) /\
  (forall hotspots,
     Api.Analytics.analyze_hotspots hotspot_factor git = Ok hotspots ->
     e ∉ hotspots).
Proof.
  intros Hv. apply is_source_file_vendored in Hv as [Hv1 Hv2]. split.
  - unfold Analytics.analyze_hotspots. simpl. intros hotspots [= <-] He.
    rewrite hotspot_of_same in He.
    apply hotspots_elem in He as (_ & Hkeep & _). congruence.
  - unfold Api.Analytics.analyze_hotspots. intros hotspots Hrun He.
    destruct (Api.Repository.analyze_change_frequency git None) as [freq|];
      simpl in Hrun; [| done].
    destruct (Api.Repository.list_tracked git) as [tracked|];
      simpl in Hrun; [| done].
    injection Hrun as <-.
    apply hotspots_elem in He as (_ & Hkeep & _). congruence.
Qed.

Lemma nested_vendored_paths_are_no_hotspots_witness :
  Analytics.analyze_hotspots close_factor app_content (Ok nested_frequency)
    (Ok ["web/node_modules/left-pad/index.js"]) = Ok [] /\
  nested_entry ∉ [].
Proof.
  split; [reflexivity |].
  apply (proj1 (nested_vendored_paths_are_no_hotspots close_factor app_content
                  nested_frequency ["web/node_modules/left-pad/index.js"]
                  nested_entry (or_introl eq_refl))).
  reflexivity.
Defined.

(** X3: the entries returned by [analyze_hotspots], in either copy, are in
    non-increasing order of [hotspot_factor], the double that the
    interpreter computes for [churn_factor * (complexity ** 0.5) / 1000.0]:
    the order is that of the doubles, whatever the float arithmetic makes
    of two factors that are equal as real numbers. *)
Theorem hotspots_are_descending (hotspot_factor : Z -> Z -> Qc)
    (git : git_runner) frequency_data tracked_files hotspots :
  Analytics.analyze_hotspots hotspot_factor git (Ok frequency_data)
    (Ok tracked_files) = Ok hotspots \/
  Api.Analytics.analyze_hotspots hotspot_factor git = Ok hotspots ->
  descending_float (hotspot_key hotspot_factor) hotspots.
Proof.
  intros [Hrun | Hrun].
  - unfold Analytics.analyze_hotspots in Hrun. simpl in Hrun.
    injection Hrun as <-. apply sort_desc_float_descending.
  - unfold Api.Analytics.analyze_hotspots in Hrun.
    destruct (Api.Repository.analyze_change_frequency git None) as [freq|];
      simpl in Hrun; [| done].
    destruct (Api.Repository.list_tracked git) as [tracked|];
      simpl in Hrun; [| done].
    injection Hrun as <-. apply sort_desc_float_descending.
Qed.

Lemma hotspots_are_descending_witness :
  Analytics.analyze_hotspots close_factor close_content (Ok close_frequency)
    (Ok ["a.py"; "b.py"]) = Ok close_hotspots /\
  descending_float (hotspot_key close_factor) close_hotspots.
Proof.
  split; [vm_compute; reflexivity |].
  apply (hotspots_are_descending close_factor close_content close_frequency
           ["a.py"; "b.py"]).
  left. vm_compute. reflexivity.
Defined.

(** ** Churn: the merge pass and the raw pass *)

Lemma merge_entry_other churn entry p :
  Api.path entry <> p ->
  Analytics.CodeChurn.merge_entry churn entry !! p = churn !! p.
Proof.
  intros Hne. unfold Analytics.CodeChurn.merge_entry.
  destruct (churn !! Api.path entry); [| done]. by rewrite lookup_insert_ne.
Qed.

Lemma merge_unlisted frequency_data p : forall churn,
  p ∉ map Api.path frequency_data ->
  Analytics.CodeChurn.merge frequency_data churn !! p = churn !! p.
Proof.
  unfold Analytics.CodeChurn.merge.
  induction frequency_data as [|entry rest IH]; intros churn Hnot; [done |].
  simpl in *. apply not_elem_of_cons in Hnot as [Hne Hnot].
  rewrite IH by done. by apply merge_entry_other.
Qed.

(** X4: whatever the frequency data, the mapping returned by
    [analyze_code_churn] has exactly the keys of the raw pass over the log,
    each with the [change_count] and [commits] the raw pass computed; the
    record of a path that the frequency data does not list is the raw one,
    without [last_modified], [authors] or [primary_owner]. *)
Theorem churn_merge_is_a_frame (git : git_runner) frequency_data options lines :
  git (Analytics.churn_args (default default_options options)) = Ok lines ->
  exists churn,
    Analytics.analyze_code_churn git (Ok frequency_data) options = Ok churn /\
    dom churn = dom (Analytics.CodeChurn.raw lines) /\
    (forall path m, Analytics.CodeChurn.raw lines !! path = Some m ->
       exists m', churn !! path = Some m' /\
         Analytics.CodeChurn.change_count m' = Analytics.CodeChurn.change_count m /\
         Analytics.CodeChurn.commits m' = Analytics.CodeChurn.commits m) /\
    (forall path, path ∉ map Api.path frequency_data ->
       churn !! path = Analytics.CodeChurn.raw lines !! path).
Proof.
  intros Hgit. eexists. split; [| split; [| split]].
  - unfold Analytics.analyze_code_churn. rewrite Hgit. reflexivity.
  - apply same_raw_fields_dom, merge_same_raw_fields, same_raw_fields_refl.
  - intros path m Hm.
    pose proof (merge_same_raw_fields frequency_data _ _
                  (same_raw_fields_refl (Analytics.CodeChurn.raw lines)) path) as H.
    rewrite Hm in H.
    destruct (Analytics.CodeChurn.merge frequency_data _ !! path) as [m'|];
      [| done].
    by exists m'.
  - intros path Hnot. by apply merge_unlisted.
Qed.

Lemma churn_merge_is_a_frame_witness :
  exists churn,
    Analytics.analyze_code_churn
      (fun _ => Ok ["41b7a03"; "src/app.py"; "README"]) (Ok app_frequency) None
      = Ok churn /\
    dom churn = dom (Analytics.CodeChurn.raw ["41b7a03"; "src/app.py"; "README"]).
Proof.
  destruct (churn_merge_is_a_frame
              (fun _ => Ok ["41b7a03"; "src/app.py"; "README"])
              app_frequency None ["41b7a03"; "src/app.py"; "README"] eq_refl)
    as (churn & Hrun & Hdom & _).
  exists churn. split; [exact Hrun | exact Hdom].
Defined.

Lemma touches_commits commit file_lines : forall (churn : gmap string Analytics.CodeChurn.churn_metrics),
  (forall p m, churn !! p = Some m -> Analytics.CodeChurn.commits m = {[commit]}) ->
  forall p m,
    fold_left (fun ch l => Analytics.CodeChurn.touch l commit ch) file_lines churn !! p
      = Some m ->
    Analytics.CodeChurn.commits m = {[commit]}.
Proof.
  induction file_lines as [|l ls IH]; intros churn Hc; simpl; [done |].
  apply IH. intros p m. rewrite touch_insert, lookup_insert.
  destruct (decide (l = p)) as [->|]; [| apply Hc].
  intros [= <-]. simpl.
  destruct (churn !! p) as [m0|] eqn:H0; simpl.
  - rewrite (Hc _ _ H0). set_solver.
  - set_solver.
Qed.

(** X5: in the mapping built by the raw pass of [analyze_code_churn] the
    [commits] set of every key is the singleton of the first non-blank line
    of the log: [current_commit] is assigned once, so the touches of all
    later commits are attributed to the first one. *)
Theorem churn_commits_name_the_first_commit lines first rest path m :
  filter nonblank lines = first :: rest ->
  Analytics.CodeChurn.raw lines !! path = Some m ->
  Analytics.CodeChurn.commits m = {[first]}.
Proof.
  intros Hlines. rewrite churn_raw_unfold, Hlines.
  apply touches_commits. intros p m0. by rewrite lookup_empty.
Qed.

Lemma churn_commits_name_the_first_commit_witness :
  exists m,
    Analytics.CodeChurn.raw
      ["41b7a03"; "a.py"; EmptyString; "9f2c1e7"; "b.py"] !! "b.py" = Some m /\
    Analytics.CodeChurn.commits m = {["41b7a03"]}.
Proof.
  eexists. split; [vm_compute; reflexivity |].
  apply (churn_commits_name_the_first_commit
           ["41b7a03"; "a.py"; EmptyString; "9f2c1e7"; "b.py"]
           "41b7a03" ["a.py"; "9f2c1e7"; "b.py"] "b.py").
  - vm_compute. reflexivity.
  - vm_compute. reflexivity.
Defined.

(** ** Timeline *)

Lemma bump_comm k1 k2 (m : gmap string Z) :
  bump k1 (bump k2 m) = bump k2 (bump k1 m).
Proof.
  apply map_eq. intros p. rewrite !bump_lookup.
  destruct (decide (k1 = p)) as [->|H1], (decide (k2 = p)) as [->|H2];
    rewrite ?bump_lookup, ?decide_True, ?decide_False by done; done.
Qed.

Lemma timeline_loop_Permutation fmt ts ts' :
  ts ≡ₚ ts' ->
  forall (tl r : gmap string Z),
    timeline_loop fmt ts tl = Ok r -> timeline_loop fmt ts' tl = Ok r.
Proof.
  induction 1 as [|x l l' Hp IH|x y l|l l' l'' H1 IH1 H2 IH2]; intros tl r.
  - done.
  - simpl. destruct (fmt x) as [k|e]; simpl; [apply IH | done].
  - simpl. destruct (fmt y) as [ky|e], (fmt x) as [kx|e']; simpl; try done.
    by rewrite bump_comm.
  - intros H. by apply IH2, IH1.
Qed.

(** X6: the timeline does not depend on the order of the commits: when the
    aggregation loop returns a timeline for a sequence of timestamps, it
    returns the same timeline for every rearrangement of the sequence. *)
Theorem timeline_ignores_commit_order utcoffset period ts ts' timeline :
  ts ≡ₚ ts' ->
  Analytics.timeline_of_timestamps utcoffset period ts = Ok timeline ->
  Analytics.timeline_of_timestamps utcoffset period ts' = Ok timeline.
Proof.
  intros Hp. unfold Analytics.timeline_of_timestamps.
  by apply timeline_loop_Permutation.
Qed.

Lemma timeline_ignores_commit_order_witness :
  Analytics.timeline_of_timestamps UTC DAY [1612137600; 1609459200; 1609459260]
  = Analytics.timeline_of_timestamps UTC DAY [1609459200; 1609459260; 1612137600].
Proof.
  destruct (Analytics.timeline_of_timestamps UTC DAY
              [1609459200; 1609459260; 1612137600]) as [timeline|e] eqn:Hrun.
  - apply (timeline_ignores_commit_order UTC DAY
             [1609459200; 1609459260; 1612137600]
             [1612137600; 1609459200; 1609459260] timeline); [| exact Hrun].
    symmetry. apply (Permutation_cons_append [1609459200; 1609459260] 1612137600).
  - vm_compute in Hrun. discriminate Hrun.
Defined.

(** X7: the two copies of [_format_time_period] agree: for each member of
    [TimePeriod], the copy of [api.py] called with the member's value
    returns (or raises) what the copy of [analytics.py] does with the member;
    for any other period string the copy of [api.py] raises [ValueError], once
    the timestamp has been converted. *)
Theorem format_time_period_copies_agree utcoffset timestamp :
  (forall period,
     Api.Analytics._format_time_period utcoffset timestamp (period_value period)
     = Analytics._format_time_period utcoffset timestamp period) /\
  (forall name,
     (forall period, name <> period_value period) ->
     is_Ok (Datetime.fromtimestamp utcoffset timestamp) ->
     Api.Analytics._format_time_period utcoffset timestamp name
     = Raise (ValueError ("Unknown period: " +:+ name))).
Proof.
  unfold Api.Analytics._format_time_period, Analytics._format_time_period.
  split.
  - intros period.
    destruct (Datetime.fromtimestamp utcoffset timestamp) as [dt|e]; [| done].
    by destruct period.
  - intros name Hname Hok.
    destruct (Datetime.fromtimestamp utcoffset timestamp) as [dt|e]; [| done].
    simpl.
    destruct (String.eqb_spec name "hour") as [->|_];
      [by destruct (Hname HOUR) |].
    destruct (String.eqb_spec name "day") as [->|_];
      [by destruct (Hname DAY) |].
    destruct (String.eqb_spec name "week") as [->|_];
      [by destruct (Hname WEEK) |].
    destruct (String.eqb_spec name "month") as [->|_];
      [by destruct (Hname MONTH) |].
    destruct (String.eqb_spec name "year") as [->|_];
      [by destruct (Hname YEAR) |].
    done.
Qed.

(** ** File evolution: one commit *)

Lemma evolution_scan_patch hash author email t subject patch : forall diff,
  Forall no_diff_header patch \/
  (diff = [] /\ Forall no_diff_header (tail patch)) ->
  FileEvolution.scan (in_patch hash author email t subject diff) patch
  = Ok (in_patch hash author email t subject (diff ++ patch)).
Proof.
  induction patch as [|line rest IH]; intros diff Hpatch.
  - simpl. by rewrite app_nil_r.
  - cbn [FileEvolution.scan]. unfold FileEvolution.step at 1. cbn -[PyStr.startswith].
    assert (Hcond : PyStr.startswith "diff --git " line
                    && FileEvolution.nonempty diff = false).
    { destruct Hpatch as [Hall | [-> _]].
      - inversion Hall as [|? ? Hline _]; subst.
        unfold no_diff_header in Hline. by rewrite Hline.
      - apply andb_false_r. }
    rewrite Hcond. cbn [mbind result_bind].
    fold (in_patch hash author email t subject (diff ++ [line])).
    rewrite IH.
    + by rewrite <- app_assoc.
    + left. destruct Hpatch as [Hall | [_ Hrest]]; [| exact Hrest].
      by inversion Hall.
Qed.

Lemma evolution_scan_header hash author email tsline t subject rest :
  PyStr.int tsline = Ok t ->
  FileEvolution.scan FileEvolution.initial
    ([hash; author; email; tsline; subject] ++ rest)
  = FileEvolution.scan (in_patch hash author email t subject []) rest.
Proof.
  intros Hint. cbn [app FileEvolution.scan].
  unfold FileEvolution.step at 1. cbn [FileEvolution.current_commit FileEvolution.initial mbind result_bind].
  unfold FileEvolution.step at 1. cbn [FileEvolution.current_commit FileEvolution.current_author FileEvolution.initial mbind result_bind].
  unfold FileEvolution.step at 1. cbn [FileEvolution.current_commit FileEvolution.current_author FileEvolution.current_email FileEvolution.initial mbind result_bind].
  unfold FileEvolution.step at 1. cbn [FileEvolution.current_commit FileEvolution.current_author FileEvolution.current_email FileEvolution.current_timestamp FileEvolution.initial mbind result_bind].
  rewrite Hint. cbn [mbind result_bind].
  unfold FileEvolution.step at 1. cbn [FileEvolution.current_commit FileEvolution.current_author FileEvolution.current_email FileEvolution.current_timestamp FileEvolution.current_message FileEvolution.initial mbind result_bind].
  reflexivity.
Qed.

(** X8: for the stream of a single commit (five header lines, the fourth an
    integer, then the patch, in which no line after the first opens another
    file-diff section) [analyze_file_evolution] returns exactly one entry
    when the patch has at least one line: it carries the header fields, and
    [lines_added] and [lines_removed] count the patch lines that start with
    '+' but not '+++', and with '-' but not '---'.  With no patch line at
    all it returns no entry. *)
Theorem evolution_of_one_commit (git : git_runner) file_path options
    hash author email tsline t subject patch :
  git (FileEvolution.evolution_args
         (max_commits (default default_options options)) file_path)
    = Ok ([hash; author; email; tsline; subject] ++ patch) ->
  PyStr.int tsline = Ok t ->
  Forall no_diff_header (tail patch) ->
  Analytics.analyze_file_evolution git file_path options
  = Ok (match patch with
        | [] => []
        | _ :: _ =>
            [{| FileEvolution.commit_hash := hash;
                FileEvolution.author := Some author;
                FileEvolution.email := Some email;
                FileEvolution.timestamp := Some t;
                FileEvolution.message := Some subject;
                FileEvolution.lines_added :=
                  FileEvolution.count_lines FileEvolution.is_added patch;
                FileEvolution.lines_removed :=
                  FileEvolution.count_lines FileEvolution.is_removed patch |}]
        end).
Proof.
  intros Hgit Hint Hpatch.
  unfold Analytics.analyze_file_evolution. rewrite Hgit.
  cbn [mbind result_bind]. unfold FileEvolution.parse.
  rewrite (evolution_scan_header _ _ _ _ t) by done.
  rewrite evolution_scan_patch by (right; done).
  cbn [mbind result_bind app]. f_equal.
  by destruct patch.
Qed.

Lemma evolution_of_one_commit_witness :
  length <$> (match Analytics.analyze_file_evolution
                      (fun _ => Ok (render_stream [commit_older])) "x.py" None with
              | Ok evolution => Some evolution
              | Raise _ => None
              end) = Some 1%nat.
Proof.
  rewrite (evolution_of_one_commit (fun _ => Ok (render_stream [commit_older]))
             "x.py" None (fc_hash commit_older) (fc_author commit_older)
             (fc_email commit_older) "1700000000" 1700000000
             (fc_subject commit_older) (fc_patch commit_older)).
  - reflexivity.
  - reflexivity.
  - reflexivity.
  - repeat constructor.
Defined.

(** X9: when the fourth line of the stream is not an integer literal, the
    parser of [analyze_file_evolution] raises the [ValueError] of [int()]
    and returns no entries at all. *)
Theorem evolution_bad_timestamp_raises hash author email tsline e rest :
  PyStr.int tsline = Raise e ->
  FileEvolution.parse ([hash; author; email; tsline] ++ rest) = Raise e.
Proof.
  intros Hint. unfold FileEvolution.parse. cbn [app FileEvolution.scan].
  unfold FileEvolution.step at 1. cbn [FileEvolution.current_commit FileEvolution.initial mbind result_bind].
  unfold FileEvolution.step at 1. cbn [FileEvolution.current_commit FileEvolution.current_author FileEvolution.initial mbind result_bind].
  unfold FileEvolution.step at 1. cbn [FileEvolution.current_commit FileEvolution.current_author FileEvolution.current_email FileEvolution.initial mbind result_bind].
  unfold FileEvolution.step at 1. cbn [FileEvolution.current_commit FileEvolution.current_author FileEvolution.current_email FileEvolution.current_timestamp FileEvolution.initial mbind result_bind].
  rewrite Hint. reflexivity.
Qed.

Lemma evolution_bad_timestamp_raises_witness :
  FileEvolution.parse ["41b7a03"; "alice"; "alice@example.org"; "yesterday"; "add x"]
  = Raise (ValueError "invalid literal for int() with base 10").
Proof.
  apply (evolution_bad_timestamp_raises "41b7a03" "alice" "alice@example.org"
           "yesterday" _ ["add x"]).
  reflexivity.
Defined.

(** ** Change frequency: counts and order *)






(** ** Decimal literals: [int(str(n))] is [n] *)

Lemma digits_go_uint_acc d : forall acc : positive,
  PyStr.digits_go (NilEmpty.string_of_uint d) (Z.pos acc)
  = Some (Z.pos (Pos.of_uint_acc d acc)).
Proof.
  induction d; intros acc; cbn [NilEmpty.string_of_uint Pos.of_uint_acc];
    [reflexivity | ..];
    (cbn [PyStr.digits_go];
     match goal with
     | |- context [Ascii.eqb ?c "_"] => change (Ascii.eqb c "_") with false
     end;
     match goal with
     | |- context [PyStr.digit_of ?c] =>
         let v := eval vm_compute in (PyStr.digit_of c) in
         change (PyStr.digit_of c) with v
     end;
     cbv iota; rewrite <- IHd; f_equal; lia).
Qed.

Lemma digits_go_uint d :
  PyStr.digits_go (NilEmpty.string_of_uint d) 0
  = Some (Z.of_N (Pos.of_uint d)).
Proof.
  induction d; cbn [NilEmpty.string_of_uint Pos.of_uint];
    [reflexivity | ..];
    (cbn [PyStr.digits_go];
     match goal with
     | |- context [Ascii.eqb ?c "_"] => change (Ascii.eqb c "_") with false
     end;
     match goal with
     | |- context [PyStr.digit_of ?c] =>
         let v := eval vm_compute in (PyStr.digit_of c) in
         change (PyStr.digit_of c) with v
     end;
     cbv iota; first [exact IHd | apply (digits_go_uint_acc d)]).
Qed.

Lemma uint_string_plain d :
  Forall plain_char (list_ascii_of_string (NilEmpty.string_of_uint d)).
Proof.
  induction d; cbn [NilEmpty.string_of_uint list_ascii_of_string];
    [constructor | ..]; (constructor; [by split | exact IHd]).
Qed.

Lemma lstrip_plain c s :
  PyStr.is_space c = false -> PyStr.lstrip (String c s) = String c s.
Proof. intros H. cbn [PyStr.lstrip]. by rewrite H. Qed.

Lemma rstrip_plain s :
  Forall plain_char (list_ascii_of_string s) -> PyStr.rstrip s = s.
Proof.
  induction s as [|c s IH]; [done |]. cbn [list_ascii_of_string].
  intros [[Hc _] Hs]%Forall_cons. cbn [PyStr.rstrip]. rewrite (IH Hs).
  destruct s; [by rewrite Hc | done].
Qed.

Lemma int_rstrip_plain s :
  Forall plain_char (list_ascii_of_string s) -> PyStr.int_rstrip s = s.
Proof.
  induction s as [|c s IH]; [done |]. cbn [list_ascii_of_string].
  intros [[_ Hc] Hs]%Forall_cons. cbn [PyStr.int_rstrip]. rewrite (IH Hs).
  destruct s; [by rewrite Hc | done].
Qed.

Lemma strip_plain s :
  Forall plain_char (list_ascii_of_string s) -> PyStr.strip s = s.
Proof.
  intros H. unfold PyStr.strip. destruct s as [|c s]; [done |].
  pose proof H as [[Hc _] _]%Forall_cons.
  rewrite lstrip_plain by done. by apply rstrip_plain.
Qed.

Lemma int_strip_plain s :
  Forall plain_char (list_ascii_of_string s) ->
  PyStr.int_rstrip (PyStr.int_lstrip s) = s.
Proof.
  intros H. destruct s as [|c s]; [done |].
  pose proof H as [[_ Hc] _]%Forall_cons.
  cbn [PyStr.int_lstrip]. rewrite Hc. by apply int_rstrip_plain.
Qed.

Lemma str_plain t : Forall plain_char (list_ascii_of_string (PyStr.str t)).
Proof.
  unfold PyStr.str. destruct t as [|p|p]; cbn [Z.to_int NilZero.string_of_int].
  - repeat constructor.
  - pose proof (Unsigned.to_uint_nonnil p).
    unfold NilZero.string_of_uint.
    destruct (Pos.to_uint p); [done | apply uint_string_plain ..].
  - pose proof (Unsigned.to_uint_nonnil p).
    unfold NilZero.string_of_uint. cbn [list_ascii_of_string].
    constructor; [by split |].
    destruct (Pos.to_uint p); [done | apply uint_string_plain ..].
Qed.

Lemma str_nonblank t : nonblank (PyStr.str t).
Proof.
  unfold nonblank. rewrite strip_plain by apply str_plain.
  unfold PyStr.str. destruct t as [|p|p]; cbn [Z.to_int NilZero.string_of_int];
    [done | | done].
  pose proof (Unsigned.to_uint_nonnil p). unfold NilZero.string_of_uint.
  by destruct (Pos.to_uint p).
Qed.

Lemma parse_digits_uint p :
  PyStr.parse_digits (NilZero.string_of_uint (Pos.to_uint p)) = Some (Z.pos p).
Proof.
  pose proof (Unsigned.to_uint_nonnil p) as Hnil.
  pose proof (digits_go_uint (Pos.to_uint p)) as Hgo.
  rewrite DecimalPos.Unsigned.of_to in Hgo. cbn [Z.of_N] in Hgo.
  unfold NilZero.string_of_uint, PyStr.parse_digits.
  destruct (Pos.to_uint p); [done | ..]; exact Hgo.
Qed.

Lemma int_str t : PyStr.int (PyStr.str t) = Ok t.
Proof.
  unfold PyStr.int. rewrite int_strip_plain by apply str_plain. cbv zeta.
  unfold PyStr.str. destruct t as [|p|p]; cbn [Z.to_int NilZero.string_of_int].
  - reflexivity.
  - pose proof (parse_digits_uint p) as Hp.
    pose proof (Unsigned.to_uint_nonnil p) as Hnil.
    unfold NilZero.string_of_uint in *.
    destruct (Pos.to_uint p); [done | ..];
      cbn [NilEmpty.string_of_uint] in *; by rewrite Hp.
  - by rewrite parse_digits_uint.
Qed.

(** ** Change frequency: the log of a history *)










(** X11: the entries returned by [analyze_change_frequency] are in
    non-increasing order of [change_count]. *)
Theorem change_frequency_is_descending (git : git_runner) path_filter result :
  Api.Repository.analyze_change_frequency git path_filter = Ok result ->
  descending Api.change_count result.
Proof.
  unfold Api.Repository.analyze_change_frequency,
    Api.Repository.change_frequency_of_lines.
  destruct (git _) as [lines|]; simpl; [| done].
  destruct (Api.Repository.scan _ lines) as [st|]; simpl; [| done].
  intros [= <-]. apply sort_desc_descending.
Qed.

Lemma change_frequency_is_descending_witness :
  exists result,
    Api.Repository.analyze_change_frequency (fun _ => Ok tied_log) None
      = Ok result /\
    descending Api.change_count result.
Proof.
  eexists. split; [vm_compute; reflexivity |].
  apply (change_frequency_is_descending (fun _ => Ok tied_log) None).
  vm_compute. reflexivity.
Defined.

(** ** Change frequency: last modification *)







(** ** Knowledge map: authors and languages *)

Lemma add_file_dom path extension em item :
  dom (KnowledgeMap.add_file path extension em item) = {[fst item]} ∪ dom em.
Proof.
  destruct item as [author n]. unfold KnowledgeMap.add_file. simpl.
  destruct (em !! author) as [e|] eqn:He.
  - rewrite He, dom_insert_L. done.
  - rewrite lookup_insert_eq, !dom_insert_L. set_solver.
Qed.

Lemma add_directory_dom dir_path em item :
  dom (KnowledgeMap.add_directory dir_path em item) = dom em.
Proof.
  destruct item as [author n]. unfold KnowledgeMap.add_directory.
  destruct (em !! author) as [e|] eqn:He; [| done].
  rewrite dom_insert_L. apply elem_of_dom_2 in He. set_solver.
Qed.

Lemma file_pass_dom extension_of items : forall em,
  dom (KnowledgeMap.file_pass extension_of items em)
  = list_to_set (map fst (concat (map snd items))) ∪ dom em.
Proof.
  unfold KnowledgeMap.file_pass.
  induction items as [|[path authors] items IH]; intros em; simpl.
  - set_solver.
  - rewrite IH, map_app, list_to_set_app_L.
    assert (Hin : forall authors em,
      dom (fold_left (KnowledgeMap.add_file path (extension_of path)) authors em)
      = list_to_set (map fst authors) ∪ dom em).
    { clear. induction authors as [|item authors IH]; intros em; simpl.
      - set_solver.
      - rewrite IH, add_file_dom. set_solver. }
    rewrite Hin. set_solver.
Qed.

Lemma directory_pass_dom items : forall em,
  dom (KnowledgeMap.directory_pass items em) = dom em.
Proof.
  unfold KnowledgeMap.directory_pass.
  induction items as [|[dir_path authors] items IH]; intros em; simpl; [done |].
  rewrite IH. clear.
  revert em. induction authors as [|item authors IH]; intros em; simpl; [done |].
  by rewrite IH, add_directory_dom.
Qed.

Lemma build_dom extension_of ownership :
  dom (KnowledgeMap.build extension_of ownership) = file_owners ownership.
Proof.
  unfold KnowledgeMap.build. cbv zeta.
  rewrite dom_fmap_L, directory_pass_dom, file_pass_dom.
  unfold file_owners. set_solver.
Qed.

(** X13: the authors of the knowledge map are exactly the authors that the
    per-file ownership attributes lines to, in both builders: an author that
    only appears in the per-directory ownership is not introduced. *)
Theorem knowledge_map_authors_own_files ownership :
  dom (Api.Analytics.analyze_knowledge_map ownership) = file_owners ownership /\
  exists expertise_map,
    Analytics.analyze_knowledge_map (Ok ownership) = Ok expertise_map /\
    dom expertise_map = file_owners ownership.
Proof.
  split; [apply build_dom |].
  eexists. split; [reflexivity | apply build_dom].
Qed.

Lemma add_file_languages_add_up path extension em item :
  languages_add_up em ->
  languages_add_up (KnowledgeMap.add_file path extension em item).
Proof.
  destruct item as [author n]. intros Hinv. unfold KnowledgeMap.add_file.
  assert (Hstep : forall (em' : gmap string AuthorExpertise) e,
    languages_add_up em' -> em' !! author = Some e ->
    languages_add_up
      (<[author :=
          {| files := <[path := n]> (files e);
             directories := directories e;
             languages :=
               <[extension :=
                   default 0
                     (match languages e !! extension with
                      | None => <[extension := 0]> (languages e)
                      | Some _ => languages e
                      end !! extension) + n]>
                 match languages e !! extension with
                 | None => <[extension := 0]> (languages e)
                 | Some _ => languages e
                 end;
             total_lines := total_lines e + n;
             repository_contribution := repository_contribution e |}]> em')).
  { intros em' e Hem' He a x. rewrite lookup_insert.
    destruct (decide (author = a)) as [<- |]; [| apply Hem'].
    intros [= <-]. simpl. specialize (Hem' _ _ He).
    destruct (languages e !! extension) as [v|] eqn:Hl.
    - rewrite Hl. simpl. rewrite (sum_values_insert_present _ _ v) by done. lia.
    - rewrite lookup_insert_eq. simpl.
      rewrite (sum_values_insert_present _ _ 0) by apply lookup_insert_eq.
      rewrite sum_values_insert_fresh by done. lia. }
  destruct (em !! author) as [e|] eqn:He.
  - rewrite He. by apply Hstep.
  - rewrite lookup_insert_eq. apply Hstep; [| apply lookup_insert_eq].
    intros a x. rewrite lookup_insert.
    destruct (decide (author = a)); [| apply Hinv].
    intros [= <-]. apply sum_values_empty.
Qed.

Lemma add_directory_languages_add_up dir_path em item :
  languages_add_up em ->
  languages_add_up (KnowledgeMap.add_directory dir_path em item).
Proof.
  destruct item as [author n]. intros Hinv. unfold KnowledgeMap.add_directory.
  destruct (em !! author) as [e|] eqn:He; [| done].
  intros a x. rewrite lookup_insert.
  destruct (decide (author = a)); [| apply Hinv].
  intros [= <-]. simpl. by apply (Hinv author).
Qed.

Lemma file_pass_languages_add_up extension_of items : forall em,
  languages_add_up em ->
  languages_add_up (KnowledgeMap.file_pass extension_of items em).
Proof.
  unfold KnowledgeMap.file_pass.
  induction items as [|[path authors] items IH]; intros em Hinv; simpl; [done |].
  apply IH. clear IH. revert em Hinv.
  induction authors as [|item authors IH]; intros em Hinv; simpl; [done |].
  apply IH. by apply add_file_languages_add_up.
Qed.

Lemma directory_pass_languages_add_up items : forall em,
  languages_add_up em ->
  languages_add_up (KnowledgeMap.directory_pass items em).
Proof.
  unfold KnowledgeMap.directory_pass.
  induction items as [|[dir_path authors] items IH]; intros em Hinv; simpl; [done |].
  apply IH. clear IH. revert em Hinv.
  induction authors as [|item authors IH]; intros em Hinv; simpl; [done |].
  apply IH. by apply add_directory_languages_add_up.
Qed.

Lemma build_languages_add_up extension_of ownership :
  languages_add_up (KnowledgeMap.build extension_of ownership).
Proof.
  unfold KnowledgeMap.build. cbv zeta.
  intros a x. rewrite lookup_fmap.
  destruct (KnowledgeMap.directory_pass _ _ !! a) as [e|] eqn:He; [| done].
  intros [= <-]. simpl.
  revert He. apply directory_pass_languages_add_up.
  apply file_pass_languages_add_up.
  intros ? ?. by rewrite lookup_empty.
Qed.

(** X14: in the knowledge map of either builder, the per-language line
    counts of an author add up to the author's total_lines, whatever the
    language key of a path is. *)
Theorem knowledge_map_languages_add_up ownership :
  languages_add_up (Api.Analytics.analyze_knowledge_map ownership) /\
  exists expertise_map,
    Analytics.analyze_knowledge_map (Ok ownership) = Ok expertise_map /\
    languages_add_up expertise_map.
Proof.
  split; [apply build_languages_add_up |].
  eexists. split; [reflexivity | apply build_languages_add_up].
Qed.

(** ** Language keys *)

Lemma contains_char_cons c a s :
  PyStr.contains (String c EmptyString) (String a s)
  = Ascii.eqb c a || PyStr.contains (String c EmptyString) s.
Proof.
  cbn [PyStr.contains PyStr.startswith].
  destruct s; by rewrite andb_true_r.
Qed.

Lemma contains_char_app c s1 s2 :
  PyStr.contains (String c EmptyString) (s1 +:+ s2)
  = PyStr.contains (String c EmptyString) s1
    || PyStr.contains (String c EmptyString) s2.
Proof.
  induction s1 as [|a s1 IH].
  - by destruct s2.
  - change (String a s1 +:+ s2) with (String a (s1 +:+ s2)).
    rewrite !contains_char_cons, IH. by rewrite orb_assoc.
Qed.

Lemma len_cons a s : PyStr.len (String a s) = PyStr.len s + 1.
Proof. unfold PyStr.len. cbn [String.length]. lia. Qed.

Lemma len_app s1 s2 : PyStr.len (s1 +:+ s2) = PyStr.len s1 + PyStr.len s2.
Proof.
  induction s1 as [|a s1 IH].
  { change (EmptyString +:+ s2) with s2. unfold PyStr.len.
    cbn [String.length]. lia. }
  change (String a s1 +:+ s2) with (String a (s1 +:+ s2)).
  rewrite !len_cons, IH. lia.
Qed.

Lemma len_nonneg s : 0 <= PyStr.len s.
Proof. unfold PyStr.len. lia. Qed.

Lemma rfind_go_absent c s : forall i last,
  PyStr.contains (String c EmptyString) s = false ->
  PyStr.rfind_go c s i last = last.
Proof.
  induction s as [|a s IH]; intros i last H; [done |].
  rewrite contains_char_cons in H. apply orb_false_elim in H as [Ha Hs].
  cbn [PyStr.rfind_go]. rewrite Ascii.eqb_sym, Ha. by apply IH.
Qed.

Lemma rfind_go_app c s1 s2 : forall i last,
  PyStr.rfind_go c (s1 +:+ s2) i last
  = PyStr.rfind_go c s2 (i + PyStr.len s1) (PyStr.rfind_go c s1 i last).
Proof.
  induction s1 as [|a s1 IH]; intros i last.
  - cbn [PyStr.rfind_go]. change (EmptyString +:+ s2) with s2.
    f_equal. unfold PyStr.len. simpl. lia.
  - change (String a s1 +:+ s2) with (String a (s1 +:+ s2)).
    cbn [PyStr.rfind_go]. rewrite IH, len_cons. f_equal. lia.
Qed.

Lemma rfind_go_lower_bound c s : forall i last,
  last <= i -> last <= PyStr.rfind_go c s i last.
Proof.
  induction s as [|a s IH]; intros i last H; cbn [PyStr.rfind_go]; [lia |].
  destruct (Ascii.eqb a c).
  - etrans; [exact H |]. apply IH. lia.
  - apply IH. lia.
Qed.

Lemma rfind_dir_prefix dir :
  dir_prefix dir -> PyStr.rfind "/" dir = PyStr.len dir - 1.
Proof.
  intros [-> | [d ->]]; [done |].
  unfold PyStr.rfind. rewrite rfind_go_app, len_app.
  cbn [PyStr.rfind_go]. rewrite Ascii.eqb_refl.
  change (PyStr.len "/") with 1. lia.
Qed.

Lemma append_assoc s1 s2 s3 : (s1 +:+ s2) +:+ s3 = s1 +:+ s2 +:+ s3.
Proof.
  induction s1 as [|a s1 IH]; [done |].
  change (String a ((s1 +:+ s2) +:+ s3) = String a (s1 +:+ s2 +:+ s3)).
  by f_equal.
Qed.

Lemma substring_app_skip s1 s2 m :
  String.substring (String.length s1) m (s1 +:+ s2) = String.substring 0 m s2.
Proof. induction s1 as [|a s1 IH]; [done | exact IH]. Qed.

Lemma substring_app_prefix s1 s2 :
  String.substring 0 (String.length s1) (s1 +:+ s2) = s1.
Proof.
  induction s1 as [|a s1 IH]; simpl.
  - by destruct s2.
  - by rewrite IH.
Qed.

Lemma substring_whole s : String.substring 0 (String.length s) s = s.
Proof. induction s as [|a s IH]; simpl; [done | by rewrite IH]. Qed.

Lemma lower_app s1 s2 :
  PyStr.lower (s1 +:+ s2) = PyStr.lower s1 +:+ PyStr.lower s2.
Proof.
  induction s1 as [|a s1 IH]; [done |].
  change (String a s1 +:+ s2) with (String a (s1 +:+ s2)).
  cbn [PyStr.lower]. by rewrite IH.
Qed.

Lemma lower_length s : String.length (PyStr.lower s) = String.length s.
Proof. induction s as [|a s IH]; simpl; [done | by rewrite IH]. Qed.

Lemma lower_char_dot a :
  Ascii.eqb "." (PyStr.lower_char a) = Ascii.eqb "." a.
Proof. by destruct a as [[] [] [] [] [] [] [] []]. Qed.

Lemma contains_dot_lower s :
  PyStr.contains "." (PyStr.lower s) = PyStr.contains "." s.
Proof.
  induction s as [|a s IH]; [done |].
  cbn [PyStr.lower]. by rewrite !contains_char_cons, IH, lower_char_dot.
Qed.

Lemma split_last_absent c s :
  PyStr.contains (String c EmptyString) s = false -> PyStr.split_last c s = s.
Proof.
  destruct s as [|a s]; [done |]. intros H.
  rewrite contains_char_cons in H. apply orb_false_elim in H as [Ha Hs].
  cbn [PyStr.split_last]. by rewrite Ascii.eqb_sym, Ha, Hs.
Qed.

Lemma split_last_app c s1 s2 :
  PyStr.contains (String c EmptyString) s2 = false ->
  PyStr.split_last c (s1 +:+ String c s2) = s2.
Proof.
  intros H. induction s1 as [|a s1 IH].
  - change (EmptyString +:+ String c s2) with (String c s2).
    cbn [PyStr.split_last]. rewrite Ascii.eqb_refl. by apply split_last_absent.
  - change (String a s1 +:+ String c s2) with (String a (s1 +:+ String c s2)).
    cbn [PyStr.split_last].
    rewrite contains_char_app, contains_char_cons, Ascii.eqb_refl, orb_true_r.
    by destruct (Ascii.eqb a c).
Qed.

(** X15: for a path without a dot both builders of the knowledge map use
    the language key "unknown". *)
Theorem dotless_paths_are_unknown path :
  PyStr.contains "." path = false ->
  Analytics.extension_of path = "unknown" /\
  Api.Analytics.extension_of path = "unknown".
Proof.
  intros H. split.
  - unfold Analytics.extension_of. by rewrite H.
  - unfold Api.Analytics.extension_of, PyStr.splitext. cbv zeta.
    assert (Hdot : PyStr.rfind "." path = -1)
      by (by apply rfind_go_absent).
    assert (Hsep : -1 <= PyStr.rfind "/" path)
      by (apply rfind_go_lower_bound; lia).
    rewrite Hdot.
    destruct (PyStr.rfind "/" path <? -1) eqn:Hlt; [lia |]. done.
Qed.

Lemma dotless_paths_are_unknown_witness :
  Analytics.extension_of "src/Makefile" = "unknown" /\
  Api.Analytics.extension_of "src/Makefile" = "unknown".
Proof. apply (dotless_paths_are_unknown "src/Makefile"). reflexivity. Defined.

(** X16: on a path with an ordinary extension the two builders agree.  When
    the path is a directory prefix, a file name without a slash that is not
    made of dots only, a dot, and an extension without a dot or a slash, the
    language key of both builders is the extension in lower case. *)
Theorem ordinary_extensions_agree dir name ext :
  dir_prefix dir ->
  PyStr.contains "/" name = false ->
  only_dots name = false ->
  PyStr.contains "." ext = false ->
  PyStr.contains "/" ext = false ->
  Analytics.extension_of (with_extension dir name ext) = PyStr.lower ext /\
  Api.Analytics.extension_of (with_extension dir name ext) = PyStr.lower ext.
Proof.
  intros Hdir Hname Hdots Hext Hext'. unfold with_extension. split.
  - unfold Analytics.extension_of.
    rewrite !contains_char_app. change (PyStr.contains "." ".") with true.
    rewrite !orb_true_r, ?orb_true_l.
    replace (dir +:+ name +:+ "." +:+ ext)
      with ((dir +:+ name) +:+ String "." ext)
      by (by rewrite append_assoc).
    rewrite lower_app. cbn [PyStr.lower].
    change (PyStr.lower_char ".") with "."%char.
    apply split_last_app. by rewrite contains_dot_lower.
  - unfold Api.Analytics.extension_of, PyStr.splitext. cbv zeta.
    assert (Hsep : PyStr.rfind "/" (dir +:+ name +:+ "." +:+ ext)
                   = PyStr.len dir - 1).
    { unfold PyStr.rfind. rewrite rfind_go_app.
      rewrite rfind_go_absent
        by (by rewrite !contains_char_app, Hname, Hext').
      by apply rfind_dir_prefix. }
    assert (Hdot : PyStr.rfind "." (dir +:+ name +:+ "." +:+ ext)
                   = PyStr.len dir + PyStr.len name).
    { unfold PyStr.rfind.
      rewrite rfind_go_app, rfind_go_app.
      change ("." +:+ ext) with (String "." ext).
      cbn [PyStr.rfind_go]. rewrite Ascii.eqb_refl.
      rewrite rfind_go_absent by done. lia. }
    rewrite Hsep, Hdot.
    pose proof (len_nonneg name).
    destruct (PyStr.len dir - 1 <? PyStr.len dir + PyStr.len name) eqn:Hlt;
      [| lia].
    assert (Hslice : PyStr.slice (PyStr.len dir - 1 + 1)
                       (PyStr.len dir + PyStr.len name)
                       (dir +:+ name +:+ "." +:+ ext) = name).
    { unfold PyStr.slice, PyStr.len.
      replace (Z.to_nat (Z.of_nat (String.length dir) - 1 + 1))
        with (String.length dir) by lia.
      replace (Z.to_nat _) with (String.length name) by lia.
      by rewrite substring_app_skip, substring_app_prefix. }
    rewrite Hslice. fold (only_dots name). rewrite Hdots.
    cbn [snd].
    assert (Htail : PyStr.slice (PyStr.len dir + PyStr.len name)
                      (PyStr.len (dir +:+ name +:+ "." +:+ ext))
                      (dir +:+ name +:+ "." +:+ ext) = String "." ext).
    { rewrite !len_app. unfold PyStr.slice, PyStr.len.
      replace (Z.to_nat (Z.of_nat (String.length dir) + Z.of_nat (String.length name)))
        with (String.length (dir +:+ name))
        by (pose proof (len_app dir name) as E; unfold PyStr.len in E; lia).
      replace (Z.to_nat _) with (String.length (String "." ext))
        by (pose proof (len_app "." ext) as E; unfold PyStr.len in E;
            change ("." +:+ ext) with (String "." ext) in E; lia).
      rewrite <- append_assoc, substring_app_skip.
      apply substring_whole. }
    rewrite Htail. cbn [PyStr.lower PyStr.truthy negb].
    unfold PyStr.slice. rewrite len_cons. unfold PyStr.len.
    change (Z.to_nat 1) with 1%nat.
    replace (Z.to_nat _) with (String.length (PyStr.lower ext)) by lia.
    cbn [String.substring].
    apply substring_whole.
Qed.

Lemma ordinary_extensions_agree_witness :
  Analytics.extension_of (with_extension "src/" "Main" "PY") = "py" /\
  Api.Analytics.extension_of (with_extension "src/" "Main" "PY") = "py".
Proof.
  apply (ordinary_extensions_agree "src/" "Main" "PY");
    [right; by exists "src" | reflexivity ..].
Defined.

(** ** Blame *)

Lemma bind_Ok {A B} (r : result A) (k : A -> result B) (b : B) :
  (x ← r; k x) = Ok b -> exists a, r = Ok a /\ k a = Ok b.
Proof. destruct r as [a | e]; [by exists a | done]. Qed.

Lemma is_commit_line_two line :
  Blame.is_commit_line line = true ->
  exists c1 c2 rest,
    line = String c1 (String c2 rest) /\
    Blame.is_hex c1 = true /\ Blame.is_hex c2 = true.
Proof.
  destruct line as [|c1 [|c2 rest]]; [done | done |].
  unfold Blame.is_commit_line. intros H. apply andb_prop in H as [_ H].
  change (PyStr.slice 0 40 (String c1 (String c2 rest)))
    with (String c1 (String c2 (String.substring 0 38 rest))) in H.
  cbn [list_ascii_of_string forallb] in H.
  apply andb_prop in H as [H1 H]. apply andb_prop in H as [H2 _].
  by exists c1, c2, rest.
Qed.

Lemma content_is_no_commit_line line :
  Blame.is_content line = true -> Blame.is_commit_line line = false.
Proof.
  intros Hs. destruct (Blame.is_commit_line line) eqn:E; [| done].
  apply is_commit_line_two in E as (c1 & c2 & rest & -> & H1 & H2).
  unfold Blame.is_content, Blame.tab in Hs. cbn [PyStr.startswith] in Hs.
  apply andb_prop in Hs as [Hs _]. apply Ascii.eqb_eq in Hs as <-. done.
Qed.

Lemma author_is_no_commit_line line :
  PyStr.startswith "author " line = true -> Blame.is_commit_line line = false.
Proof.
  intros Hs. destruct (Blame.is_commit_line line) eqn:E; [| done].
  apply is_commit_line_two in E as (c1 & c2 & rest & -> & H1 & H2).
  cbn [PyStr.startswith] in Hs.
  apply andb_prop in Hs as [_ Hs]. apply andb_prop in Hs as [Hs _].
  apply Ascii.eqb_eq in Hs as <-. done.
Qed.

Lemma author_time_is_no_commit_line line :
  PyStr.startswith "author-time " line = true ->
  Blame.is_commit_line line = false.
Proof.
  intros Hs. destruct (Blame.is_commit_line line) eqn:E; [| done].
  apply is_commit_line_two in E as (c1 & c2 & rest & -> & H1 & H2).
  cbn [PyStr.startswith] in Hs.
  apply andb_prop in Hs as [_ Hs]. apply andb_prop in Hs as [Hs _].
  apply Ascii.eqb_eq in Hs as <-. done.
Qed.

Lemma original_line_is_no_commit_line line :
  PyStr.startswith "original-line " line = true ->
  Blame.is_commit_line line = false.
Proof.
  intros Hs. destruct (Blame.is_commit_line line) eqn:E; [| done].
  apply is_commit_line_two in E as (c1 & c2 & rest & -> & H1 & H2).
  cbn [PyStr.startswith] in Hs.
  apply andb_prop in Hs as [Hs _]. apply Ascii.eqb_eq in Hs as <-. done.
Qed.

(** What a turn of the loop does to the commit and to the entries. *)
Lemma blame_step_spec st line st' :
  Blame.step st line = Ok st' ->
  Blame.current_commit st'
  = (if Blame.is_commit_line line then Some (PyStr.slice 0 40 line)
     else Blame.current_commit st) /\
  Blame.blame_lines st'
  = Blame.blame_lines st ++
    (if Blame.is_content line then
       match Blame.current_commit st with
       | Some c =>
           [ {| Blame.commit := c;
                Blame.author := Blame.current_author st;
                Blame.timestamp := Blame.current_timestamp st;
                Blame.line_no := Blame.current_line_no st;
                Blame.content := Blame.from 1 line |} ]
       | None => []
       end
     else []).
Proof.
  unfold Blame.step.
  destruct (Blame.is_content line) eqn:Hc.
  { rewrite (content_is_no_commit_line _ Hc).
    destruct (Blame.current_commit st) eqn:Hcur; intros [= <-]; cbn [Blame.current_commit Blame.blame_lines].
    - done.
    - by rewrite app_nil_r. }
  destruct (PyStr.startswith "author " line) eqn:Ha.
  { rewrite (author_is_no_commit_line _ Ha). intros [= <-]; cbn [Blame.current_commit Blame.blame_lines].
    by rewrite app_nil_r. }
  destruct (PyStr.startswith "author-time " line) eqn:Hat.
  { rewrite (author_time_is_no_commit_line _ Hat).
    intros H. apply bind_Ok in H as (t & _ & [= <-]). cbn [Blame.current_commit Blame.blame_lines].
    by rewrite app_nil_r. }
  destruct (PyStr.startswith "original-line " line) eqn:Hol.
  { rewrite (original_line_is_no_commit_line _ Hol).
    intros H. apply bind_Ok in H as (t & _ & [= <-]). cbn [Blame.current_commit Blame.blame_lines].
    by rewrite app_nil_r. }
  destruct (Blame.is_commit_line line) eqn:Hcl; intros [= <-]; cbn [Blame.current_commit Blame.blame_lines];
    by rewrite app_nil_r.
Qed.

Lemma contents_cons line rest :
  contents (line :: rest)
  = (if Blame.is_content line then [Blame.from 1 line] else []) ++ contents rest.
Proof. unfold contents. cbn [List.filter]. by destruct (Blame.is_content line). Qed.

Lemma blame_scan_contents lines : forall st st',
  Blame.scan lines st = Ok st' ->
  map Blame.content (Blame.blame_lines st')
  = map Blame.content (Blame.blame_lines st) ++
    contents (match Blame.current_commit st with
              | Some _ => lines
              | None => after_first_commit lines
              end).
Proof.
  induction lines as [|line rest IH]; intros st st' H.
  - injection H as <-. destruct (Blame.current_commit st); by rewrite app_nil_r.
  - cbn [Blame.scan] in H. apply bind_Ok in H as (st1 & Hstep & Hscan).
    apply blame_step_spec in Hstep as [Hcc Hbl].
    rewrite (IH _ _ Hscan), Hbl, Hcc. clear IH Hscan Hbl Hcc.
    destruct (Blame.current_commit st) as [c|] eqn:Hcur.
    + rewrite contents_cons, map_app, <- app_assoc. f_equal.
      destruct (Blame.is_commit_line line); by destruct (Blame.is_content line).
    + cbn [after_first_commit].
      destruct (Blame.is_content line); rewrite app_nil_r;
        by destruct (Blame.is_commit_line line).
Qed.

(** X17: when blame returns, it has one entry for each content line (a line
    starting with a tab) after the first commit line of the output of git, in
    their order, and the content of the entry is the line without the tab;
    content lines before the first commit line are dropped. *)
Theorem blame_keeps_the_content_lines git file_path output blame_data :
  git ["blame"; "--porcelain"; file_path] = Ok output ->
  Blame.blame git file_path = Ok blame_data ->
  map Blame.content blame_data = contents (after_first_commit output).
Proof.
  intros Hgit H. unfold Blame.blame in H. rewrite Hgit in H.
  apply bind_Ok in H as (lines & [= <-] & H).
  apply bind_Ok in H as (st & Hscan & [= <-]).
  by rewrite (blame_scan_contents _ _ _ Hscan).
Qed.

Lemma blame_keeps_the_content_lines_witness :
  exists blame_data,
    Blame.blame blamed_repo "README" = Ok blame_data /\
    map Blame.content blame_data = ["import os"; "import sys"; "read me"].
Proof.
  eexists. split; [vm_compute; reflexivity |].
  apply (blame_keeps_the_content_lines blamed_repo "README" blame_output);
    reflexivity.
Defined.

Lemma substring_length n : forall s,
  (n <= String.length s)%nat -> String.length (String.substring 0 n s) = n.
Proof.
  induction n as [|n IH]; intros s H.
  - by destruct s.
  - destruct s as [|c s]; cbn in H; [lia |].
    cbn [String.substring String.length]. rewrite IH; [done | lia].
Qed.

Lemma commit_line_id line :
  Blame.is_commit_line line = true -> commit_id (PyStr.slice 0 40 line).
Proof.
  unfold Blame.is_commit_line. intros H. apply andb_prop in H as [Hlen Hhex].
  split; [| done].
  unfold PyStr.slice. change (Z.to_nat (40 - 0)) with 40%nat.
  change (Z.to_nat 0) with 0%nat.
  apply substring_length. unfold PyStr.len in Hlen. lia.
Qed.

Lemma blame_scan_commit_ids lines : forall st st',
  Blame.scan lines st = Ok st' ->
  (forall c, Blame.current_commit st = Some c -> commit_id c) ->
  Forall (fun entry => commit_id (Blame.commit entry)) (Blame.blame_lines st) ->
  Forall (fun entry => commit_id (Blame.commit entry)) (Blame.blame_lines st').
Proof.
  induction lines as [|line rest IH]; intros st st' H Hcur Hall.
  - by injection H as <-.
  - cbn [Blame.scan] in H. apply bind_Ok in H as (st1 & Hstep & Hscan).
    apply blame_step_spec in Hstep as [Hcc Hbl].
    apply (IH _ _ Hscan).
    + intros c. rewrite Hcc.
      destruct (Blame.is_commit_line line) eqn:Hcl; [| apply Hcur].
      intros [= <-]. by apply commit_line_id.
    + rewrite Hbl. apply Forall_app. split; [done |].
      destruct (Blame.is_content line); [| done].
      destruct (Blame.current_commit st) as [c|] eqn:Hc; [| done].
      apply Forall_singleton. cbn [Blame.commit]. by apply Hcur.
Qed.

(** X18: when blame returns, the commit of every entry is a commit id:
    forty lower-case hexadecimal digits, the start of a commit line. *)
Theorem blame_commits_are_ids git file_path blame_data :
  Blame.blame git file_path = Ok blame_data ->
  Forall (fun entry => commit_id (Blame.commit entry)) blame_data.
Proof.
  intros H. unfold Blame.blame in H.
  apply bind_Ok in H as (lines & _ & H).
  apply bind_Ok in H as (st & Hscan & [= <-]).
  by apply (blame_scan_commit_ids _ _ _ Hscan).
Qed.

Lemma blame_commits_are_ids_witness :
  exists blame_data,
    Blame.blame blamed_repo "README" = Ok blame_data /\
    Forall (fun entry => commit_id (Blame.commit entry)) blame_data.
Proof.
  eexists. split; [vm_compute; reflexivity |].
  apply (blame_commits_are_ids blamed_repo "README"). reflexivity.
Defined.

(** ** Code ownership *)

Section DictFacts.

Context {K V : Type} `{EqDecision K}.

Lemma dict_get_set (k k' : K) (v : V) d :
  Dict.get k' (Dict.set k v d)
  = if decide (k' = k) then Some v else Dict.get k' d.
Proof.
  induction d as [|[k0 v0] d IH]; cbn [Dict.set Dict.get].
  - by destruct (decide (k' = k)).
  - destruct (decide (k = k0)) as [-> |]; cbn [Dict.get].
    + by destruct (decide (k' = k0)).
    + rewrite IH. destruct (decide (k' = k0)) as [-> |]; [| done].
      by destruct (decide (k0 = k)).
Qed.

Lemma dict_get_None (k : K) (d : list (K * V)) :
  Dict.get k d = None <-> k ∉ Dict.keys d.
Proof.
  unfold Dict.keys. induction d as [|[k0 v0] d IH]; cbn [Dict.get map fst].
  - split; [intros _; apply not_elem_of_nil | done].
  - rewrite not_elem_of_cons. destruct (decide (k = k0)); [by intuition |].
    rewrite IH. tauto.
Qed.

Lemma dict_get_keys (k : K) (d : list (K * V)) :
  k ∈ Dict.keys d <-> is_Some (Dict.get k d).
Proof.
  rewrite <- not_eq_None_Some, dict_get_None.
  destruct (decide (k ∈ Dict.keys d)); tauto.
Qed.

End DictFacts.

Lemma dict_get_add {K} `{EqDecision K} (k k' : K) n d :
  Dict.get k' (Dict.add k n d)
  = if decide (k' = k) then Some (default 0 (Dict.get k d) + n)
    else Dict.get k' d.
Proof.
  unfold Dict.add. destruct (Dict.get k d) as [v|] eqn:Hk; cbv zeta.
  - rewrite dict_get_set, Hk. done.
  - rewrite !dict_get_set. destruct (decide (k = k)); [| done].
    destruct (decide (k' = k)); done.
Qed.

Lemma count_entry_default n : default 0 (count_entry n) = n.
Proof. unfold count_entry. destruct (n =? 0) eqn:E; cbn; lia. Qed.

Lemma lines_by_cons a entry blame_data :
  lines_by a (entry :: blame_data)
  = (if decide (Blame.author entry = a) then 1 else 0) + lines_by a blame_data.
Proof.
  unfold lines_by.
  destruct (decide (Blame.author entry = a)) as [E | E].
  - rewrite filter_cons_True by done. cbn [length]. lia.
  - rewrite filter_cons_False by done. lia.
Qed.

Lemma lines_by_nonneg a blame_data : 0 <= lines_by a blame_data.
Proof. unfold lines_by. lia. Qed.

Lemma count_authors_from blame_data : forall counts (tally : option string -> Z),
  (forall a, 0 <= tally a) ->
  (forall a, Dict.get a counts = count_entry (tally a)) ->
  forall a,
    Dict.get a
      (fold_left
         (fun author_counts line => Dict.add (Blame.author line) 1 author_counts)
         blame_data counts)
    = count_entry (tally a + lines_by a blame_data).
Proof.
  induction blame_data as [|entry blame_data IH]; intros counts tally Hpos Hget a.
  - cbn [fold_left]. rewrite Hget. f_equal. unfold lines_by. cbn. lia.
  - cbn [fold_left].
    rewrite (IH _ (fun a => tally a
                     + if decide (Blame.author entry = a) then 1 else 0)).
    + f_equal. rewrite lines_by_cons. lia.
    + intros a'. specialize (Hpos a'). by destruct (decide _); lia.
    + intros a'. rewrite dict_get_add, !Hget, count_entry_default.
      destruct (decide (a' = Blame.author entry)) as [-> |].
      * rewrite decide_True by done. unfold count_entry.
        specialize (Hpos (Blame.author entry)).
        destruct (_ =? 0) eqn:E; [lia | done].
      * rewrite decide_False by done. f_equal. lia.
Qed.

Lemma count_authors_get blame_data a :
  Dict.get a (CodeOwnership.count_authors blame_data)
  = count_entry (lines_by a blame_data).
Proof.
  unfold CodeOwnership.count_authors.
  by rewrite (count_authors_from blame_data [] (fun _ => 0)).
Qed.

(** The per-file dict after the loop over some files. *)
Lemma ownership_files_get git tracked : forall own file_path,
  Dict.get file_path
    (CodeOwnership.files (fold_left (CodeOwnership.step git) tracked own))
  = match Blame.blame git file_path with
    | Ok blame_data =>
        if decide (file_path ∈ tracked)
        then Some (CodeOwnership.count_authors blame_data)
        else Dict.get file_path (CodeOwnership.files own)
    | Raise _ => Dict.get file_path (CodeOwnership.files own)
    end.
Proof.
  induction tracked as [|f tracked IH]; intros own file_path; cbn [fold_left].
  - destruct (Blame.blame git file_path); [| done].
    rewrite decide_False; [done | apply not_elem_of_nil].
  - rewrite IH. destruct (Blame.blame git file_path) as [blame_data | e] eqn:Hb.
    + destruct (decide (file_path ∈ tracked)) as [Hin | Hin].
      * rewrite decide_True; [done | by right].
      * unfold CodeOwnership.step.
        destruct (decide (file_path = f)) as [-> | Hne].
        -- rewrite Hb, decide_True by left.
           unfold CodeOwnership.record_file. cbn [CodeOwnership.files].
           rewrite dict_get_set. by rewrite decide_True.
        -- rewrite decide_False by (rewrite elem_of_cons; tauto).
           destruct (Blame.blame git f); [| done].
           unfold CodeOwnership.record_file. cbn [CodeOwnership.files].
           rewrite dict_get_set. by rewrite decide_False.
    + unfold CodeOwnership.step.
      destruct (Blame.blame git f) eqn:Hf; [| done].
      unfold CodeOwnership.record_file. cbn [CodeOwnership.files].
      rewrite dict_get_set.
      destruct (decide (file_path = f)) as [-> |]; [congruence | done].
Qed.

(** X19: the per-file ownership has an entry exactly for the tracked files
    that blame returns for: a file whose blame raises is skipped and the
    analysis goes on. *)
Theorem ownership_skips_unblamable_files git tracked own file_path :
  Api.Repository.list_tracked git = Ok tracked ->
  CodeOwnership.analyze_code_ownership git = Ok own ->
  file_path ∈ Dict.keys (CodeOwnership.files own) <->
  file_path ∈ tracked /\
  exists blame_data, Blame.blame git file_path = Ok blame_data.
Proof.
  intros Htracked H. unfold CodeOwnership.analyze_code_ownership in H.
  rewrite Htracked in H. injection H as <-.
  rewrite dict_get_keys, ownership_files_get. cbn [CodeOwnership.files Dict.get].
  destruct (Blame.blame git file_path) as [blame_data | e].
  - destruct (decide (file_path ∈ tracked)); split.
    + eauto.
    + by eexists.
    + by intros [? ?].
    + tauto.
  - split; [by intros [? ?] | by intros [_ [? ?]]].
Qed.

Lemma ownership_skips_unblamable_files_witness :
  exists own,
    CodeOwnership.analyze_code_ownership blamed_repo = Ok own /\
    ("logo.png" ∈ Dict.keys (CodeOwnership.files own) <->
     "logo.png" ∈ ["src/a.py"; "src/b.py"; "README"; "logo.png"] /\
     exists blame_data, Blame.blame blamed_repo "logo.png" = Ok blame_data).
Proof.
  eexists. split; [vm_compute; reflexivity |].
  apply (ownership_skips_unblamable_files blamed_repo);
    vm_compute; reflexivity.
Defined.

(** X20: the entry of a file in the per-file ownership gives every author
    the number of blame lines of the file that carry that author, and has no
    key for an author without a line. *)
Theorem file_ownership_counts_blame_lines git own file_path author_counts :
  CodeOwnership.analyze_code_ownership git = Ok own ->
  Dict.get file_path (CodeOwnership.files own) = Some author_counts ->
  exists blame_data,
    Blame.blame git file_path = Ok blame_data /\
    forall a, Dict.get a author_counts = count_entry (lines_by a blame_data).
Proof.
  intros H Hget. unfold CodeOwnership.analyze_code_ownership in H.
  apply bind_Ok in H as (tracked & _ & [= <-]).
  rewrite ownership_files_get in Hget. cbn [CodeOwnership.files Dict.get] in Hget.
  destruct (Blame.blame git file_path) as [blame_data | e]; [| done].
  destruct (decide (file_path ∈ tracked)); [| done].
  injection Hget as <-. exists blame_data. split; [done |].
  intros a. apply count_authors_get.
Qed.

Lemma file_ownership_counts_blame_lines_witness :
  exists blame_data,
    Blame.blame blamed_repo "README" = Ok blame_data /\
    forall a,
      Dict.get a [(Some "Alice", 2); (Some "Bob", 1)]
      = count_entry (lines_by a blame_data).
Proof.
  apply (file_ownership_counts_blame_lines blamed_repo
           {| CodeOwnership.files :=
                [("src/a.py", [(Some "Alice", 2)]);
                 ("src/b.py", [(Some "Alice", 2)]);
                 ("README", [(Some "Alice", 2); (Some "Bob", 1)])];
              CodeOwnership.directories :=
                [("src", [(Some "Alice", 4)]);
                 (EmptyString, [(Some "Alice", 2); (Some "Bob", 1)])] |}
           "README");
    vm_compute; reflexivity.
Defined.

Lemma dict_keys_set {K V} `{EqDecision K} (k : K) (v : V) d :
  Dict.keys (Dict.set k v d)
  = match Dict.get k d with
    | Some _ => Dict.keys d
    | None => Dict.keys d ++ [k]
    end.
Proof.
  unfold Dict.keys. induction d as [|[k0 v0] d IH]; cbn [Dict.set Dict.get]; [done |].
  destruct (decide (k = k0)); [done |].
  cbn [map fst]. rewrite IH. by destruct (Dict.get k d).
Qed.

Lemma dict_set_NoDup {K V} `{EqDecision K} (k : K) (v : V) d :
  NoDup (Dict.keys d) -> NoDup (Dict.keys (Dict.set k v d)).
Proof.
  intros Hd. rewrite dict_keys_set.
  destruct (Dict.get k d) eqn:Hk; [done |].
  apply dict_get_None in Hk.
  apply NoDup_app. split_and!; [done | | apply NoDup_singleton].
  intros x Hx ->%list_elem_of_singleton. done.
Qed.

Lemma dict_add_NoDup {K} `{EqDecision K} (k : K) n d :
  NoDup (Dict.keys d) -> NoDup (Dict.keys (Dict.add k n d)).
Proof.
  intros Hd. unfold Dict.add.
  destruct (Dict.get k d); cbv zeta; by repeat apply dict_set_NoDup.
Qed.

Lemma count_authors_NoDup blame_data :
  NoDup (Dict.keys (CodeOwnership.count_authors blame_data)).
Proof.
  unfold CodeOwnership.count_authors.
  assert (H : forall counts : list (option string * Z),
    NoDup (Dict.keys counts) ->
    NoDup (Dict.keys
      (fold_left
         (fun author_counts line => Dict.add (Blame.author line) 1 author_counts)
         blame_data counts))).
  { induction blame_data as [|entry blame_data IH]; intros counts Hc; [done |].
    cbn [fold_left]. apply IH. by apply dict_add_NoDup. }
  apply H. apply NoDup_nil_2.
Qed.

Lemma roll_up_get author_counts : forall dir_counts a,
  NoDup (Dict.keys author_counts) ->
  default 0 (Dict.get a (CodeOwnership.roll_up author_counts dir_counts))
  = default 0 (Dict.get a dir_counts) + default 0 (Dict.get a author_counts).
Proof.
  unfold CodeOwnership.roll_up.
  induction author_counts as [|[k n] author_counts IH]; intros dir_counts a Hnd.
  - cbn. lia.
  - unfold Dict.keys in Hnd. cbn [map fst] in Hnd.
    apply NoDup_cons in Hnd as [Hk Hnd]. cbn [fold_left].
    rewrite IH by done. rewrite dict_get_add. cbn [Dict.get].
    destruct (decide (a = k)) as [-> |]; [| done].
    apply dict_get_None in Hk. rewrite Hk. cbn. lia.
Qed.

(** What one file adds to the count of a directory and an author. *)
Lemma ownership_step_directory git own file_path dir_path a :
  directory_count (CodeOwnership.step git own file_path) dir_path a
  = directory_count own dir_path a
    + match Blame.blame git file_path with
      | Ok blame_data =>
          if decide (PosixPath.dirname file_path = dir_path)
          then lines_by a blame_data else 0
      | Raise _ => 0
      end.
Proof.
  unfold CodeOwnership.step.
  destruct (Blame.blame git file_path) as [blame_data | e]; [| lia].
  unfold directory_count, CodeOwnership.record_file.
  cbn [CodeOwnership.directories].
  set (dirs := CodeOwnership.directories own).
  set (dp := PosixPath.dirname file_path).
  rewrite dict_get_set.
  destruct (decide (dir_path = dp)) as [-> | Hne].
  - rewrite decide_True by done. cbn [mbind option_bind].
    rewrite roll_up_get by apply count_authors_NoDup.
    rewrite count_authors_get, count_entry_default. f_equal.
    destruct (Dict.get dp dirs) as [dc|] eqn:Hdp.
    + by rewrite Hdp.
    + rewrite dict_get_set, decide_True by done. done.
  - rewrite decide_False by done.
    destruct (Dict.get dp dirs) as [dc|] eqn:Hdp.
    + lia.
    + rewrite dict_get_set, decide_False by done. lia.
Qed.

Lemma ownership_fold_directory git dir_path a tracked : forall own,
  directory_count (fold_left (CodeOwnership.step git) tracked own) dir_path a
  = directory_count own dir_path a + directory_lines git dir_path a tracked.
Proof.
  induction tracked as [|f tracked IH]; intros own; cbn [fold_left directory_lines].
  - lia.
  - rewrite IH, ownership_step_directory.
    destruct (Blame.blame git f); [| lia].
    destruct (decide (PosixPath.dirname f = dir_path)); lia.
Qed.

(** X21: the per-directory ownership rolls the files up by os.path.dirname:
    the count of an author under a directory is the number of his blame
    lines over the listed files of that directory that blame returns for, a
    file counting as often as git lists it. *)
Theorem directory_ownership_rolls_up git tracked own dir_path a :
  Api.Repository.list_tracked git = Ok tracked ->
  CodeOwnership.analyze_code_ownership git = Ok own ->
  directory_count own dir_path a = directory_lines git dir_path a tracked.
Proof.
  intros Htracked H. unfold CodeOwnership.analyze_code_ownership in H.
  rewrite Htracked in H. injection H as <-.
  by rewrite ownership_fold_directory.
Qed.

Lemma directory_ownership_rolls_up_witness :
  exists own,
    CodeOwnership.analyze_code_ownership blamed_repo = Ok own /\
    directory_count own "src" (Some "Alice") = 4.
Proof.
  eexists. split; [vm_compute; reflexivity |].
  apply (directory_ownership_rolls_up blamed_repo
           ["src/a.py"; "src/b.py"; "README"; "logo.png"]);
    vm_compute; reflexivity.
Defined.

Lemma ownership_step_directories git own file_path dir_path :
  dir_path ∈ Dict.keys (CodeOwnership.directories (CodeOwnership.step git own file_path))
  <-> dir_path ∈ Dict.keys (CodeOwnership.directories own) \/
      (PosixPath.dirname file_path = dir_path /\
       exists blame_data, Blame.blame git file_path = Ok blame_data).
Proof.
  unfold CodeOwnership.step.
  destruct (Blame.blame git file_path) as [blame_data | e].
  - unfold CodeOwnership.record_file. cbn [CodeOwnership.directories].
    set (dirs := CodeOwnership.directories own).
    set (dp := PosixPath.dirname file_path).
    rewrite !dict_get_keys, dict_get_set.
    destruct (decide (dir_path = dp)) as [-> | Hne].
    + split; [intros _; right; by eauto | intros _; by eexists].
    + destruct (Dict.get dp dirs) eqn:Hdp.
      * split; [by auto | intros [? | [? _]]; [done | congruence]].
      * rewrite dict_get_set, decide_False by done.
        split; [by auto | intros [? | [? _]]; [done | congruence]].
  - split; [by auto | intros [? | [_ [? ?]]]; done].
Qed.

Lemma ownership_fold_directories git dir_path tracked : forall own,
  dir_path ∈ Dict.keys
    (CodeOwnership.directories (fold_left (CodeOwnership.step git) tracked own))
  <-> dir_path ∈ Dict.keys (CodeOwnership.directories own) \/
      exists file_path,
        file_path ∈ tracked /\ PosixPath.dirname file_path = dir_path /\
        exists blame_data, Blame.blame git file_path = Ok blame_data.
Proof.
  induction tracked as [|f tracked IH]; intros own; cbn [fold_left].
  - split; [by auto | intros [? | (? & []%elem_of_nil & _)]; done].
  - rewrite IH, ownership_step_directories. split.
    + intros [[? | [? ?]] | (f' & ? & ? & ?)].
      * by left.
      * right. exists f. split; [by left | done].
      * right. exists f'. split; [by right | done].
    + intros [? | (f' & [-> | ?]%elem_of_cons & ? & ?)].
      * by do 2 left.
      * left. by right.
      * right. by exists f'.
Qed.

(** X22: the per-directory ownership has an entry exactly for the
    directories, as os.path.dirname gives them, of the tracked files that
    blame returns for: the directory of a file that cannot be blamed gets no
    entry through that file. *)
Theorem ownership_directories_are_dirnames git tracked own dir_path :
  Api.Repository.list_tracked git = Ok tracked ->
  CodeOwnership.analyze_code_ownership git = Ok own ->
  dir_path ∈ Dict.keys (CodeOwnership.directories own) <->
  exists file_path,
    file_path ∈ tracked /\ PosixPath.dirname file_path = dir_path /\
    exists blame_data, Blame.blame git file_path = Ok blame_data.
Proof.
  intros Htracked H. unfold CodeOwnership.analyze_code_ownership in H.
  rewrite Htracked in H. injection H as <-.
  rewrite ownership_fold_directories. cbn [CodeOwnership.directories Dict.keys map].
  rewrite elem_of_nil. tauto.
Qed.

Lemma ownership_directories_are_dirnames_witness :
  exists own,
    CodeOwnership.analyze_code_ownership blamed_repo = Ok own /\
    (EmptyString ∈ Dict.keys (CodeOwnership.directories own) <->
     exists file_path,
       file_path ∈ ["src/a.py"; "src/b.py"; "README"; "logo.png"] /\
       PosixPath.dirname file_path = EmptyString /\
       exists blame_data, Blame.blame blamed_repo file_path = Ok blame_data).
Proof.
  eexists. split; [vm_compute; reflexivity |].
  apply (ownership_directories_are_dirnames blamed_repo);
    vm_compute; reflexivity.
Defined.

(** ** Contributions *)

Lemma over_authors_set field k v d :
  over_authors field (PyDict.set k v d)
  = over_authors field d
    - match PyDict.get k d with Some old => field old | None => 0 end
    + field v.
Proof.
  induction d as [|[k' v'] d IH]; cbn [PyDict.set PyDict.get].
  - cbn. lia.
  - destruct (String.eqb k k').
    + cbn [over_authors fold_right snd]. lia.
    + cbn [over_authors fold_right snd]. fold (over_authors field d).
      fold (over_authors field (PyDict.set k v d)). rewrite IH. lia.
Qed.

(** What a commit adds to the sum of a field over the authors. *)
Lemma over_authors_update field delta commit diff d :
  (forall stats,
     field
       {| Contributions.commits := Contributions.commits stats + 1;
          Contributions.added_lines :=
            Contributions.added_lines stats + Contributions.diff_added diff;
          Contributions.removed_lines :=
            Contributions.removed_lines stats + Contributions.diff_removed diff;
          Contributions.files_changed :=
            Contributions.files_changed stats + Contributions.diff_files diff;
          Contributions.first_commit :=
            Z.min (Contributions.first_commit stats)
              (Contributions.timestamp commit);
          Contributions.last_commit :=
            Z.max (Contributions.last_commit stats)
              (Contributions.timestamp commit) |}
     = field stats + delta) ->
  (forall first last,
     field
       {| Contributions.commits := 0; Contributions.added_lines := 0;
          Contributions.removed_lines := 0; Contributions.files_changed := 0;
          Contributions.first_commit := first;
          Contributions.last_commit := last |} = 0) ->
  over_authors field (Contributions.update_author commit diff d)
  = over_authors field d + delta.
Proof.
  intros Hbump Hfresh. unfold Contributions.update_author.
  destruct (PyDict.get (Contributions.author_name commit) d) as [stats|] eqn:Hget.
  - rewrite Hget, over_authors_set, Hget, Hbump. lia.
  - rewrite pydict_get_set_eq, !over_authors_set, pydict_get_set_eq, Hget.
    rewrite Hbump, Hfresh. lia.
Qed.

Lemma contributions_scan_sums git commits : forall st st' n,
  Contributions.scan git commits st = Ok st' ->
  Contributions.st_total_added st
    = over_authors Contributions.added_lines (Contributions.author_stats st) ->
  Contributions.st_total_removed st
    = over_authors Contributions.removed_lines (Contributions.author_stats st) ->
  Contributions.st_total_files_changed st
    = over_authors Contributions.files_changed (Contributions.author_stats st) ->
  n = over_authors Contributions.commits (Contributions.author_stats st) ->
  Contributions.st_total_added st'
    = over_authors Contributions.added_lines (Contributions.author_stats st') /\
  Contributions.st_total_removed st'
    = over_authors Contributions.removed_lines (Contributions.author_stats st') /\
  Contributions.st_total_files_changed st'
    = over_authors Contributions.files_changed (Contributions.author_stats st') /\
  n + Z.of_nat (length commits)
    = over_authors Contributions.commits (Contributions.author_stats st').
Proof.
  induction commits as [|commit rest IH]; intros st st' n H Ha Hr Hf Hn.
  - injection H as <-. cbn [length]. repeat split; [done | done | done | lia].
  - cbn [Contributions.scan] in H. apply bind_Ok in H as (st1 & Hstep & Hscan).
    unfold Contributions.step in Hstep.
    apply bind_Ok in Hstep as (diff_output & _ & Hstep).
    apply bind_Ok in Hstep as (diff & _ & [= <-]).
    specialize (IH _ _ (n + 1) Hscan).
    cbn [Contributions.author_stats Contributions.st_total_added
         Contributions.st_total_removed Contributions.st_total_files_changed]
      in IH.
    rewrite (over_authors_update Contributions.added_lines
               (Contributions.diff_added diff)) in IH by done.
    rewrite (over_authors_update Contributions.removed_lines
               (Contributions.diff_removed diff)) in IH by done.
    rewrite (over_authors_update Contributions.files_changed
               (Contributions.diff_files diff)) in IH by done.
    rewrite (over_authors_update Contributions.commits 1) in IH by done.
    destruct IH as (? & ? & ? & ?); [lia | lia | lia | lia |].
    repeat split; [done | done | done |]. cbn [length]. lia.
Qed.

(** X23: the totals of the contribution statistics are the sums over the
    authors: total_added, total_removed and total_files_changed are the sums
    of the authors' added_lines, removed_lines and files_changed, and
    total_commits is the sum of the authors' commits. *)
Theorem contribution_totals_are_sums git commits stats :
  Contributions.analyze_contributions git (Ok commits) = Ok stats ->
  Contributions.total_added stats
    = over_authors Contributions.added_lines (Contributions.by_author stats) /\
  Contributions.total_removed stats
    = over_authors Contributions.removed_lines (Contributions.by_author stats) /\
  Contributions.total_files_changed stats
    = over_authors Contributions.files_changed (Contributions.by_author stats) /\
  Contributions.total_commits stats
    = over_authors Contributions.commits (Contributions.by_author stats).
Proof.
  intros H. unfold Contributions.analyze_contributions in H.
  apply bind_Ok in H as (commits' & [= <-] & H).
  apply bind_Ok in H as (st & Hscan & [= <-]).
  cbn [Contributions.total_added Contributions.total_removed
       Contributions.total_files_changed Contributions.total_commits
       Contributions.by_author].
  by apply (contributions_scan_sums _ _ _ _ 0 Hscan).
Qed.

Lemma contribution_totals_are_sums_witness :
  exists stats,
    Contributions.analyze_contributions numstat_repo (Ok three_commits)
      = Ok stats /\
    Contributions.total_added stats = 15 /\
    Contributions.total_removed stats = 1 /\
    Contributions.total_files_changed stats = 4 /\
    Contributions.total_commits stats = 3.
Proof.
  eexists. split; [vm_compute; reflexivity |].
  apply (contribution_totals_are_sums numstat_repo three_commits).
  vm_compute. reflexivity.
Defined.

Lemma commits_of_snoc name seen commit :
  commits_of name (seen ++ [commit])
  = commits_of name seen
    ++ (if decide (Contributions.author_name commit = name) then [commit] else []).
Proof.
  unfold commits_of. by rewrite filter_app.
Qed.

Lemma update_author_entries commit diff st st' seen :
  Contributions.author_stats st'
    = Contributions.update_author commit diff (Contributions.author_stats st) ->
  author_entries st seen -> author_entries st' (seen ++ [commit]).
Proof.
  intros Hst Hinv name. specialize (Hinv name) as Hname.
  rewrite Hst, commits_of_snoc. unfold Contributions.update_author.
  destruct (decide (Contributions.author_name commit = name)) as [<- | Hne].
  - destruct (PyDict.get (Contributions.author_name commit)
                (Contributions.author_stats st)) as [stats|] eqn:Hget.
    + rewrite Hget, pydict_get_set_eq.
      destruct Hname as (Hn & Hb & (c1 & Hc1 & Hf) & (c2 & Hc2 & Hl)).
      cbn [Contributions.commits Contributions.first_commit
           Contributions.last_commit].
      split_and!.
      * rewrite length_app. cbn [length]. lia.
      * intros c [Hc | ->%list_elem_of_singleton]%elem_of_app;
          [specialize (Hb c Hc) |]; lia.
      * destruct (Z.min_spec (Contributions.first_commit stats)
                    (Contributions.timestamp commit)) as [[_ ->] | [_ ->]].
        -- exists c1. rewrite elem_of_app. by auto.
        -- exists commit. rewrite elem_of_app, list_elem_of_singleton. by auto.
      * destruct (Z.max_spec (Contributions.last_commit stats)
                    (Contributions.timestamp commit)) as [[_ ->] | [_ ->]].
        -- exists commit. rewrite elem_of_app, list_elem_of_singleton. by auto.
        -- exists c2. rewrite elem_of_app. by auto.
    + rewrite !pydict_get_set_eq. rewrite Hname.
      cbn [Contributions.commits Contributions.first_commit
           Contributions.last_commit app length].
      rewrite Z.min_id, Z.max_id.
      split_and!.
      * done.
      * intros c ->%list_elem_of_singleton. lia.
      * exists commit. by rewrite list_elem_of_singleton.
      * exists commit. by rewrite list_elem_of_singleton.
  - rewrite app_nil_r.
    destruct (PyDict.get (Contributions.author_name commit)
                (Contributions.author_stats st)) as [stats|] eqn:Hget.
    + rewrite Hget, pydict_get_set_ne by done. exact Hname.
    + rewrite pydict_get_set_eq, !pydict_get_set_ne by done. exact Hname.
Qed.

Lemma contributions_scan_entries git commits : forall st st' seen,
  Contributions.scan git commits st = Ok st' ->
  author_entries st seen -> author_entries st' (seen ++ commits).
Proof.
  induction commits as [|commit rest IH]; intros st st' seen H Hinv.
  - injection H as <-. by rewrite app_nil_r.
  - cbn [Contributions.scan] in H. apply bind_Ok in H as (st1 & Hstep & Hscan).
    unfold Contributions.step in Hstep.
    apply bind_Ok in Hstep as (diff_output & _ & Hstep).
    apply bind_Ok in Hstep as (diff & _ & [= <-]).
    rewrite (cons_middle commit seen rest), app_assoc.
    apply (IH _ _ _ Hscan).
    by apply (update_author_entries commit diff st).
Qed.

(** X24: by_author has an entry exactly for the author names of the
    commits. *)
Theorem contribution_authors_are_commit_authors git commits stats name :
  Contributions.analyze_contributions git (Ok commits) = Ok stats ->
  name ∈ PyDict.keys (Contributions.by_author stats) <->
  exists commit,
    commit ∈ commits /\ Contributions.author_name commit = name.
Proof.
  intros H. unfold Contributions.analyze_contributions in H.
  apply bind_Ok in H as (commits' & [= <-] & H).
  apply bind_Ok in H as (st & Hscan & [= <-]).
  cbn [Contributions.by_author].
  pose proof (contributions_scan_entries git commits _ _ [] Hscan) as Hinv.
  specialize (Hinv (fun _ => eq_refl) name). cbn [app] in Hinv.
  destruct (PyDict.get name (Contributions.author_stats st)) as [s|] eqn:Hget.
  - destruct Hinv as (_ & _ & (c & Hc & _) & _).
    apply list_elem_of_filter in Hc as [Hc1 Hc2]. split.
    + intros _. by exists c.
    + intros _. destruct (decide (name ∈ PyDict.keys (Contributions.author_stats st)))
        as [| Hno]; [done |].
      apply pydict_get_None in Hno. congruence.
  - apply pydict_get_None in Hget. split; [done |].
    intros (c & Hc1 & Hc2).
    assert (Hin : c ∈ commits_of name commits)
      by (apply list_elem_of_filter; by split).
    rewrite Hinv in Hin. by apply elem_of_nil in Hin.
Qed.

Lemma contribution_authors_are_commit_authors_witness :
  exists stats,
    Contributions.analyze_contributions numstat_repo (Ok three_commits)
      = Ok stats /\
    ("Bob" ∈ PyDict.keys (Contributions.by_author stats) <->
     exists commit,
       commit ∈ three_commits /\ Contributions.author_name commit = "Bob").
Proof.
  eexists. split; [vm_compute; reflexivity |].
  apply (contribution_authors_are_commit_authors numstat_repo three_commits).
  vm_compute. reflexivity.
Defined.

(** X25: the entry of an author counts the commits of the author, and its
    first_commit and last_commit are the earliest and the latest timestamp of
    these commits. *)
Theorem author_entry_spans_the_commits git commits stats name entry :
  Contributions.analyze_contributions git (Ok commits) = Ok stats ->
  PyDict.get name (Contributions.by_author stats) = Some entry ->
  Contributions.commits entry = Z.of_nat (length (commits_of name commits)) /\
  (forall commit, commit ∈ commits_of name commits ->
     Contributions.first_commit entry <= Contributions.timestamp commit
     <= Contributions.last_commit entry) /\
  (exists commit, commit ∈ commits_of name commits /\
     Contributions.timestamp commit = Contributions.first_commit entry) /\
  (exists commit, commit ∈ commits_of name commits /\
     Contributions.timestamp commit = Contributions.last_commit entry).
Proof.
  intros H Hget. unfold Contributions.analyze_contributions in H.
  apply bind_Ok in H as (commits' & [= <-] & H).
  apply bind_Ok in H as (st & Hscan & [= <-]).
  cbn [Contributions.by_author] in Hget.
  pose proof (contributions_scan_entries git commits _ _ [] Hscan) as Hinv.
  specialize (Hinv (fun _ => eq_refl) name). cbn [app] in Hinv.
  by rewrite Hget in Hinv.
Qed.

Lemma author_entry_spans_the_commits_witness :
  exists entry,
    PyDict.get "Alice"
      [("Alice",
        {| Contributions.commits := 2; Contributions.added_lines := 13;
           Contributions.removed_lines := 1; Contributions.files_changed := 2;
           Contributions.first_commit := 1600000000;
           Contributions.last_commit := 1600000200 |});
       ("Bob",
        {| Contributions.commits := 1; Contributions.added_lines := 2;
           Contributions.removed_lines := 0; Contributions.files_changed := 2;
           Contributions.first_commit := 1600000100;
           Contributions.last_commit := 1600000100 |})] = Some entry /\
    Contributions.commits entry
      = Z.of_nat (length (commits_of "Alice" three_commits)).
Proof.
  eexists. split; [reflexivity |].
  eapply (author_entry_spans_the_commits numstat_repo three_commits _ "Alice");
    vm_compute; reflexivity.
Defined.

(** ** Status *)

(** The words of [split()] are not empty: [status_code[0]] is in range. *)
Lemma split_words_nonempty s :
  Forall (fun word => PyStr.truthy word = true) (Split.split s).
Proof.
  unfold Split.split. generalize EmptyString as word.
  induction s as [|c s IH]; intros word; cbn [Split.go].
  - destruct (PyStr.truthy word) eqn:E; [by apply Forall_singleton | done].
  - destruct (PyStr.is_space c); [| apply IH].
    destruct (PyStr.truthy word) eqn:E; [| apply IH].
    apply Forall_cons. split; [done | apply IH].
Qed.

Lemma status_of_changed status_code :
  existsb (String.eqb (Status.status_of status_code)) ["Unmodified"; "Ignored"]
  = false.
Proof.
  destruct status_code as [|c s]; [done |]. unfold Status.status_of.
  repeat match goal with
         | |- context [if ?b then _ else _] => destruct b
         end; done.
Qed.

Lemma status_step_changed st line :
  Forall (fun entry => Status.unchanged entry = false) (Status.files st) ->
  Forall (fun entry => Status.unchanged entry = false)
    (Status.files (Status.step st line)).
Proof.
  intros Hall. unfold Status.step.
  destruct (PyStr.startswith "# branch.head " line); [done |].
  destruct (Status.is_entry line).
  - destruct (Split.split line) as [|? [|status_code ?]]; [done | done |].
    destruct (Status.split_on _ line _) as [|? [|part1 rest]]; [done | done |].
    cbn [Status.files]. apply Forall_app. split; [done |].
    apply Forall_singleton. apply status_of_changed.
  - destruct (PyStr.startswith "? " line); [| done].
    cbn [Status.files]. apply Forall_app. split; [done |].
    by apply Forall_singleton.
Qed.

Lemma status_fold_changed output : forall st,
  Forall (fun entry => Status.unchanged entry = false) (Status.files st) ->
  Forall (fun entry => Status.unchanged entry = false)
    (Status.files (fold_left Status.step output st)).
Proof.
  induction output as [|line output IH]; intros st Hall; [done |].
  cbn [fold_left]. apply IH. by apply status_step_changed.
Qed.

(** X26: is_clean holds exactly when status reports no file: no entry ever
    has the status "Unmodified" or "Ignored". *)
Theorem clean_means_no_files git git_dir info :
  Status.status git git_dir = Ok info ->
  Status.Data.is_clean info = true <-> Status.Data.files info = [].
Proof.
  intros H. unfold Status.status in H.
  apply bind_Ok in H as (output & _ & [= <-]).
  cbn [Status.Data.is_clean Status.Data.files].
  pose proof (status_fold_changed output
                {| Status.branch_name := None; Status.files := [] |}
                (Forall_nil_2 _)) as Hall.
  destruct (Status.files (fold_left Status.step output _)) as [|entry entries].
  - done.
  - apply Forall_cons in Hall as [Hentry _].
    cbn [forallb]. rewrite Hentry. done.
Qed.

Lemma clean_means_no_files_witness :
  exists info,
    Status.status renamed_repo quiet_git_dir = Ok info /\
    (Status.Data.is_clean info = true <-> Status.Data.files info = []).
Proof.
  eexists. split; [vm_compute; reflexivity |].
  apply (clean_means_no_files renamed_repo quiet_git_dir).
  vm_compute. reflexivity.
Defined.

Lemma split_on_absent sep s : forall piece,
  PyStr.contains (String sep EmptyString) s = false ->
  exists whole, Status.split_on sep s piece = [whole].
Proof.
  induction s as [|c s IH]; intros piece H; cbn [Status.split_on].
  - by eexists.
  - rewrite contains_char_cons in H. apply orb_false_elim in H as [Hc Hs].
    rewrite Ascii.eqb_sym, Hc. by apply IH.
Qed.

Lemma status_step_plain st line :
  PyStr.contains Blame.tab line = false ->
  PyStr.startswith "? " line = false ->
  Status.files (Status.step st line) = Status.files st.
Proof.
  intros Htab Hq. unfold Status.step.
  destruct (PyStr.startswith "# branch.head " line); [done |].
  destruct (Status.is_entry line).
  - destruct (Split.split line) as [|? [|status_code ?]]; [done | done |].
    destruct (split_on_absent "009" line EmptyString Htab) as [whole ->].
    done.
  - by rewrite Hq.
Qed.

(** X27: status reports a file only for a line with a tab or a line
    starting with "? ": when the output of git has neither, whatever its
    "1 ", "2 " and "u " lines, status returns no file and is_clean. *)
Theorem plain_status_reports_nothing git git_dir output :
  git ["status"; "--porcelain=v2"; "--branch"] = Ok output ->
  plain_output output ->
  exists info,
    Status.status git git_dir = Ok info /\
    Status.Data.files info = [] /\
    Status.Data.is_clean info = true.
Proof.
  intros Hgit Hplain. unfold Status.status. rewrite Hgit.
  eexists. split; [reflexivity |].
  cbn [Status.Data.files Status.Data.is_clean]. clear Hgit.
  assert (Hfiles : forall st,
    Status.files (fold_left Status.step output st) = Status.files st).
  { induction Hplain as [|line output [Htab Hq] _ IH]; intros st; [done |].
    cbn [fold_left]. rewrite IH. by apply status_step_plain. }
  rewrite Hfiles. done.
Qed.

Lemma plain_status_reports_nothing_witness :
  exists info,
    Status.status modified_repo quiet_git_dir = Ok info /\
    Status.Data.files info = [] /\
    Status.Data.is_clean info = true.
Proof.
  apply (plain_status_reports_nothing modified_repo quiet_git_dir
           [ "# branch.oid 0123456789abcdef0123456789abcdef01234567";
             "# branch.head main";
             "1 .M N... 100644 100644 100644 0123456 0123456 src/a.py" ]).
  - reflexivity.
  - repeat constructor.
Defined.

(** ** Histories without a commit that lists no path *)



(** ** The timeline of a list of commits *)

(** [git log --pretty=format:%at] prints one line per commit, the author
    time in decimal; the comprehension reads the times back. *)
Lemma parse_timestamps_str times :
  parse_timestamps (map PyStr.str times) = Ok times.
Proof.
  induction times as [|t times IH]; [done |].
  cbn [map parse_timestamps].
  pose proof (str_nonblank t) as Hnb. unfold nonblank in Hnb. rewrite Hnb.
  rewrite strip_plain by apply str_plain.
  rewrite int_str. simpl. rewrite IH. done.
Qed.

(** The loop returns only when every key could be formed. *)
Lemma timeline_loop_returns fmt ts : forall (tl0 tl : gmap string Z),
  timeline_loop fmt ts tl0 = Ok tl -> Forall (fun t => is_Ok (fmt t)) ts.
Proof.
  induction ts as [|t ts IH]; intros tl0 tl Hrun; [constructor |].
  simpl in Hrun. destruct (fmt t) as [key|e] eqn:Hf; [| done].
  simpl in Hrun. constructor; [by rewrite Hf | by eapply IH].
Qed.

(** X29: when git prints the times of the commits, one per line, and
    [analyze_commit_history_timeline] returns a timeline, the counts of the
    timeline add up to the number of commits and every key present has a
    count of at least 1, whatever the period and the time zone. *)
Theorem timeline_counts_add_up utcoffset (git : git_runner) period options
    times timeline :
  git (Analytics.timeline_args (default default_options options))
    = Ok (map PyStr.str times) ->
  Analytics.analyze_commit_history_timeline utcoffset git period options
    = Ok timeline ->
  sum_values timeline = Z.of_nat (length times) /\
  (forall key count, timeline !! key = Some count -> 1 <= count).
Proof.
  intros Hgit Hrun.
  unfold Analytics.analyze_commit_history_timeline in Hrun.
  rewrite Hgit in Hrun. simpl in Hrun.
  rewrite parse_timestamps_str in Hrun. simpl in Hrun.
  unfold Analytics.timeline_of_timestamps in Hrun.
  set (fmt := fun t => Analytics._format_time_period utcoffset t period) in *.
  destruct (timeline_loop_spec fmt times ∅)
    as (tl & Hrun' & Hsum & _ & Hpos).
  { by eapply timeline_loop_returns. }
  { intros k c. by rewrite lookup_empty. }
  rewrite Hrun in Hrun'. injection Hrun' as <-.
  split; [| exact Hpos].
  rewrite Hsum, sum_values_empty. lia.
Qed.

Lemma timeline_counts_add_up_witness :
  Analytics.analyze_commit_history_timeline UTC
    (fun _ => Ok (map PyStr.str [1641081600; 1672444800; 1609459200]))
    WEEK None
    = Ok {[ "2022-W52" := 2; "2021-W53" := 1 ]} /\
  sum_values {[ "2022-W52" := 2; "2021-W53" := 1 ]}
    = Z.of_nat (length [1641081600; 1672444800; 1609459200]).
Proof.
  split; [vm_compute; reflexivity |].
  apply (timeline_counts_add_up UTC
           (fun _ => Ok (map PyStr.str [1641081600; 1672444800; 1609459200]))
           WEEK None).
  - reflexivity.
  - vm_compute. reflexivity.
Defined.
